(** * Completion Calendar: the calendar grid, the completion store and the
      statistics of [App.js], embedded in Rocq.

    The development follows the second (current) version of the component
    file: [useLocalStorage], [useCalendar] (grid generation and statistics),
    the helpers [zeroPad] and [getDateKey], and the handlers of [App].

    Conventions of the embedding.
    - A JavaScript [Date] is its time value, an integer number of
      milliseconds, or the invalid date (time value NaN); the operations
      that make a date clip the time value to the range of 8.64e15 ms on
      either side of the epoch ([TimeClip]).  Local time is taken to be UTC
      (a time zone adjustment that is constant shifts the local time values
      and nothing else).
    - What the platform leaves to the implementation is a parameter: the
      parsing of JSON texts, and the reading of a date from a string that
      is not in the date-only form of an existing day.
    - The date arithmetic is the one of ECMA-262 (Day, DayFromYear,
      YearFromTime, MonthFromTime, DateFromTime, WeekDay, MakeDay), with the
      search for a year written as an estimate and one correction step.
    - JavaScript objects used as dictionaries are finite maps from strings to
      JSON values; numbers are binary64 floats.                              *)

From Stdlib Require Import ZArith Lia Bool List.
From Stdlib Require Import Ascii String.
From Stdlib Require Import Decimal DecimalString DecimalZ.
From Stdlib Require PrimFloat FloatOps SpecFloat Uint63.
From stdpp Require Import base option list gmap strings sorting.

Local Open Scope Z_scope.

(** ** ECMA-262 date arithmetic *)

Module JSDate.

Definition msPerDay : Z := 86400000.

Definition Day (t : Z) : Z := t / msPerDay.

Definition TimeWithinDay (t : Z) : Z := t mod msPerDay.

Definition DaysInYear (y : Z) : Z :=
  if negb (y mod 4 =? 0) then 365
  else if negb (y mod 100 =? 0) then 366
  else if negb (y mod 400 =? 0) then 365
  else 366.

Definition DayFromYear (y : Z) : Z :=
  365 * (y - 1970) + (y - 1969) / 4 - (y - 1901) / 100 + (y - 1601) / 400.

(** The largest year [y] with [DayFromYear y <= d]: the estimate from the
    mean year length is off by at most one. *)
Definition YearFromDay (d : Z) : Z :=
  let y := 1970 + (400 * d) / 146097 in
  if d <? DayFromYear y then y - 1
  else if DayFromYear (y + 1) <=? d then y + 1
  else y.

Definition YearFromTime (t : Z) : Z := YearFromDay (Day t).

Definition isLeapYear (y : Z) : bool := DaysInYear y =? 366.

Definition InLeapYear (t : Z) : Z := if isLeapYear (YearFromTime t) then 1 else 0.

Definition DayWithinYear (t : Z) : Z := Day t - DayFromYear (YearFromTime t).

Definition MonthFromTime (t : Z) : Z :=
  let d := DayWithinYear t in
  let l := InLeapYear t in
  if d <? 31 then 0
  else if d <? 59 + l then 1
  else if d <? 90 + l then 2
  else if d <? 120 + l then 3
  else if d <? 151 + l then 4
  else if d <? 181 + l then 5
  else if d <? 212 + l then 6
  else if d <? 243 + l then 7
  else if d <? 273 + l then 8
  else if d <? 304 + l then 9
  else if d <? 334 + l then 10
  else 11.

Definition DateFromTime (t : Z) : Z :=
  let d := DayWithinYear t in
  let l := InLeapYear t in
  match MonthFromTime t with
  | 0 => d + 1
  | 1 => d - 30
  | 2 => d - 58 - l
  | 3 => d - 89 - l
  | 4 => d - 119 - l
  | 5 => d - 150 - l
  | 6 => d - 180 - l
  | 7 => d - 211 - l
  | 8 => d - 242 - l
  | 9 => d - 272 - l
  | 10 => d - 303 - l
  | _ => d - 333 - l
  end.

Definition WeekDay (t : Z) : Z := (Day t + 4) mod 7.

(** Day number, within its year, of the first day of month [mn] (0..11). *)
Definition monthStart (leap : bool) (mn : Z) : Z :=
  let l := if leap then 1 else 0 in
  match mn with
  | 0 => 0
  | 1 => 31
  | 2 => 59 + l
  | 3 => 90 + l
  | 4 => 120 + l
  | 5 => 151 + l
  | 6 => 181 + l
  | 7 => 212 + l
  | 8 => 243 + l
  | 9 => 273 + l
  | 10 => 304 + l
  | _ => 334 + l
  end.

(** [MakeDay]: the month overflows into the year, the day of the month is
    an offset from the first of that month (0 is the last day of the month
    before, and so on). *)
Definition MakeDay (year month date : Z) : Z :=
  let ym := year + month / 12 in
  let mn := month mod 12 in
  DayFromYear ym + monthStart (isLeapYear ym) mn + date - 1.

Definition MakeDate (day time : Z) : Z := day * msPerDay + time.

(** A [Date] object. *)
Inductive Date : Type :=
| TimeValue (t : Z)
| InvalidDate.

(** [TimeClip]: a time value more than 8.64e15 ms away from the epoch
    is NaN. *)
Definition maxTime : Z := 8640000000000000.

Definition TimeClip (t : Z) : Date :=
  if Z.abs t <=? maxTime then TimeValue t else InvalidDate.

(** [new Date(year, month, day)]: a year from 0 to 99 stands for
    1900 + year (ECMA-262, the Date constructor with several arguments);
    the time of day is midnight.  [constructorTime] is the time value
    before it is clipped. *)
Definition constructorTime (year month day : Z) : Z :=
  let yr := if (0 <=? year) && (year <=? 99) then 1900 + year else year in
  MakeDate (MakeDay yr month day) 0.

Definition newDate (year month day : Z) : Date :=
  TimeClip (constructorTime year month day).

Definition getFullYear (t : Z) : Z := YearFromTime t.
Definition getMonth (t : Z) : Z := MonthFromTime t.
Definition getDate (t : Z) : Z := DateFromTime t.
Definition getDay (t : Z) : Z := WeekDay t.

(** A field read from a [Date] object: NaN ([None]) on the invalid
    date. *)
Definition fieldOf (field : Z -> Z) (d : Date) : option Z :=
  match d with
  | TimeValue t => Some (field t)
  | InvalidDate => None
  end.

(** [d.setDate(dt)] keeps the year, the month and the time of day. *)
Definition setDate (t : Z) (dt : Z) : Date :=
  TimeClip (MakeDate (MakeDay (YearFromTime t) (MonthFromTime t) dt)
                     (TimeWithinDay t)).

(** [d.setUTCHours(0, 0, 0, 0)]. *)
Definition setUTCHours0 (d : Date) : Date :=
  match d with
  | TimeValue t => TimeClip (MakeDate (Day t) 0)
  | InvalidDate => InvalidDate
  end.

End JSDate.

Import JSDate.


(** The civil calendar, as a specification of the arithmetic above. *)

Definition leap_year (y : Z) : bool :=
  (y mod 4 =? 0) && (negb (y mod 100 =? 0) || (y mod 400 =? 0)).

(** Number of days of month [m] (0 = January .. 11 = December) of year [y]. *)
Definition days_in_month (y m : Z) : Z :=
  match m with
  | 1 => if leap_year y then 29 else 28
  | 3 | 5 | 8 | 10 => 30
  | _ => 31
  end.

(** ** Helper functions *)

(** [n.toString()] of an integer. *)
Definition Number_toString (n : Z) : string :=
  NilZero.string_of_int (Z.to_int n).

(** [s.padStart(targetLength, fill)] with a one-character filler. *)
Definition padStart (s : string) (targetLength : nat) (fill : ascii) : string :=
  string_of_list_ascii (replicate (targetLength - String.length s)%nat fill) +:+ s.

Definition zeroPad (n : Z) : string := padStart (Number_toString n) 2 "0".

Definition getDateKey (date : Date) : string :=
  match date with
  | InvalidDate => ""
  | TimeValue t =>
      let year := getFullYear t in
      let month := getMonth t + 1 in
      let day := getDate t in
      Number_toString year +:+ "-" +:+ zeroPad month +:+ "-" +:+ zeroPad day
  end.

(** Fixed-width decimal numerals, to describe the keys: [digitsOf w n] is
    [n] written with exactly [w] digits. *)
Definition digitChar (d : Z) : ascii := ascii_of_N (48 + Z.to_N d).

Fixpoint digitsOf (w : nat) (n : Z) : string :=
  match w with
  | O => ""
  | S w' => String (digitChar (n / 10 ^ Z.of_nat w'))
                   (digitsOf w' (n mod 10 ^ Z.of_nat w'))
  end.

(** The value of a character that is a decimal digit. *)
Definition digitValue (c : ascii) : option Z :=
  let n := Z.of_N (N_of_ascii c) in
  if (48 <=? n) && (n <=? 57) then Some (n - 48) else None.

(** The decimal numeral [u] with the digit [k] put in front. *)
Definition digitCons (k : Z) (u : Decimal.uint) : Decimal.uint :=
  match k with
  | 0 => D0 u | 1 => D1 u | 2 => D2 u | 3 => D3 u | 4 => D4 u
  | 5 => D5 u | 6 => D6 u | 7 => D7 u | 8 => D8 u | _ => D9 u
  end.

(** The form [YYYY-MM-DD] of a key ([m] counts from 1 here). *)
Definition isoKey (y m d : Z) : string :=
  digitsOf 4 y +:+ "-" +:+ digitsOf 2 m +:+ "-" +:+ digitsOf 2 d.

(** Lexicographic combination of two comparisons. *)
Definition lexComparison (c1 c2 : comparison) : comparison :=
  match c1 with Eq => c2 | _ => c1 end.

(** The keys of two dates are ordered, as strings, like their days. *)
Definition keyOrderAgrees (t1 t2 : Z) : Prop :=
  String.compare (getDateKey (TimeValue t1)) (getDateKey (TimeValue t2)) =
  (Day t1 ?= Day t2).

(** ** Calendar grid generation ([useCalendar]) *)

Record CalendarCell : Type := {
  date : Date;
  isCurrentMonth : bool;
  key : string
}.

(** The values of [i] in [for (let i = hi; i >= 0; i--)]. *)
Definition downto0 (hi : Z) : list Z := (fun k => hi - k) <$> seqZ 0 (hi + 1).

(** The values of [i] in [for (let i = 1; i <= hi; i++)]. *)
Definition from1to (hi : Z) : list Z := seqZ 1 hi.

Definition cellOf (d : Date) (cur : bool) : CalendarCell :=
  {| date := d; isCurrentMonth := cur; key := getDateKey d |}.

Definition generateCalendarDays (d : Date) : list CalendarCell :=
  match d with
  | InvalidDate =>
      (* every field read is NaN: the first two loops do not run, the
         third pushes 42 cells around invalid dates *)
      (fun _ => cellOf InvalidDate false) <$> from1to 42
  | TimeValue t =>
      let year := getFullYear t in
      let month := getMonth t in
      let firstDayOfMonth := newDate year month 1 in
      let lastDayOfMonth := newDate year (month + 1) 0 in
      let daysInMonth := fieldOf getDate lastDayOfMonth in
      let startDayOfWeek := fieldOf getDay firstDayOfMonth in
      let prevMonthLastDay := fieldOf getDate (newDate year month 0) in
      (* a loop whose bound is NaN does not run; a day that is NaN makes
         the invalid date *)
      let days1 :=
        match startDayOfWeek with
        | Some startDayOfWeek =>
            (fun i => cellOf match prevMonthLastDay with
                             | Some prevMonthLastDay =>
                                 newDate year (month - 1) (prevMonthLastDay - i)
                             | None => InvalidDate
                             end false)
              <$> downto0 (startDayOfWeek - 1)
        | None => []
        end in
      let days2 :=
        days1 ++ match daysInMonth with
                 | Some daysInMonth =>
                     (fun i => cellOf (newDate year month i) true)
                       <$> from1to daysInMonth
                 | None => []
                 end in
      let gridEndOffset := 42 - Z.of_nat (length days2) in
      days2 ++ ((fun i => cellOf (newDate year (month + 1) i) false)
                  <$> from1to gridEndOffset)
  end.

(** The year that [new Date(year, ...)] really uses. *)
Definition constructorYear (year : Z) : Z :=
  if (0 <=? year) && (year <=? 99) then 1900 + year else year.

(** The grid of the month [m] of year [y], as the specification describes
    it: 42 consecutive days from the Sunday on or before the first of the
    month, the days of the month itself flagged. *)
Definition firstOfMonth (y m : Z) : Z := MakeDay y m 1.

Definition startWeekday (y m : Z) : Z := WeekDay (MakeDate (firstOfMonth y m) 0).

Definition prevMonthOf (y m : Z) : Z * Z := if m =? 0 then (y - 1, 11) else (y, m - 1).

Definition nextMonthOf (y m : Z) : Z * Z := if m =? 11 then (y + 1, 0) else (y, m + 1).

(** What a cell shows: the civil date read back from its [Date] (year,
    month 0..11, day of the month) and its flag. *)
Definition cellView (c : CalendarCell) : option (Z * Z * Z) * bool :=
  (match date c with
   | TimeValue t => Some (getFullYear t, getMonth t, getDate t)
   | InvalidDate => None
   end, isCurrentMonth c).

(** The days [d], [d + 1], ... ([n] of them) of month [m] of year [y]. *)
Definition civilRun (ym : Z * Z) (d n : Z) (cur : bool) :
    list (option (Z * Z * Z) * bool) :=
  (fun i => (Some (ym.1, ym.2, i), cur)) <$> seqZ d n.

Definition monthGrid (y m : Z) : list CalendarCell :=
  let w := startWeekday y m in
  (fun i => cellOf (TimeValue (MakeDate (firstOfMonth y m - w + i) 0))
                   ((w <=? i) && (i <? w + days_in_month y m)))
    <$> seqZ 0 42.

(** The grid of month [m] of year [y] as the specification states it:
    42 cells; first the last [startWeekday] days of the month before, then
    the days 1 .. [days_in_month] of the month, flagged, then the first days
    of the month after; every cell carries the key of its date. *)
Definition gridSpec (y m : Z) (cells : list CalendarCell) : Prop :=
  let w := startWeekday y m in
  let n := days_in_month y m in
  let p := days_in_month (prevMonthOf y m).1 (prevMonthOf y m).2 in
  length cells = 42%nat /\
  cellView <$> cells =
    civilRun (prevMonthOf y m) (p - w + 1) w false
    ++ civilRun (y, m) 1 n true
    ++ civilRun (nextMonthOf y m) 1 (42 - w - n) false /\
  Z.of_nat (length (List.filter isCurrentMonth cells)) = n /\
  Forall (fun c => key c = getDateKey (date c)) cells.

(** ** JavaScript values *)

(** The values that [JSON.parse] produces and that the store holds.  A
    property that is missing reads as [undefined], here [None]. *)
Local Unset Elimination Schemes.

Inductive JSValue : Type :=
| JNull
| JBool (b : bool)
| JNum (x : PrimFloat.float)
| JStr (s : string)
| JArr (l : list JSValue)
| JObj (m : gmap string JSValue).

Local Set Elimination Schemes.

(** [ToBoolean]. *)
Definition truthy (v : JSValue) : bool :=
  match v with
  | JNull => false
  | JBool b => b
  | JNum x => negb (PrimFloat.eqb x PrimFloat.zero || PrimFloat.is_nan x)
  | JStr s => negb (String.eqb s "")
  | JArr _ | JObj _ => true
  end.

(** [ToBoolean] of a property that may be missing. *)
Definition truthyProp (v : option JSValue) : bool :=
  match v with Some x => truthy x | None => false end.

Inductive JSType : Type :=
| TUndefined | TObject | TBoolean | TNumber | TString.

(** [typeof v]; [typeof null] is ["object"], and so is the type of an
    array. *)
Definition typeof (v : option JSValue) : JSType :=
  match v with
  | None => TUndefined
  | Some JNull | Some (JArr _) | Some (JObj _) => TObject
  | Some (JBool _) => TBoolean
  | Some (JNum _) => TNumber
  | Some (JStr _) => TString
  end.

Definition isObjectType (ty : JSType) : bool :=
  match ty with TObject => true | _ => false end.

(** The own properties of a value, as [{ ...v }] copies them: those of an
    object, the indices of an array or of a string, none otherwise. *)
Definition indexed {A} (f : A -> JSValue) (l : list A) : gmap string JSValue :=
  list_to_map (imap (fun i x => (Number_toString (Z.of_nat i), f x)) l).

Definition spread (v : JSValue) : gmap string JSValue :=
  match v with
  | JObj m => m
  | JArr l => indexed id l
  | JStr s => indexed (fun c => JStr (String c "")) (list_ascii_of_string s)
  | JNull | JBool _ | JNum _ => ∅
  end.

(** [v.name] for a value [v] that is not [null]: only an object created by
    [JSON.parse] has properties with the names used here. *)
Definition getProp (v : JSValue) (name : string) : option JSValue :=
  match v with
  | JObj m => m !! name
  | _ => None
  end.

(** ** The state of the application and [useLocalStorage] *)

(** The two stored states of [useCalendar] together with the browser's
    store.  The store keeps, for each key, the value whose JSON text was
    written ([JSON.stringify] followed by [JSON.parse] gives the value
    back); [storageWrites] records every call of [localStorage.setItem]
    and [alerts] every [window.alert], the most recent first.  Writing to
    the store is taken to succeed. *)
Record AppState : Type := {
  completedDays : JSValue;
  monthlyNotes : JSValue;
  localStorage : gmap string JSValue;
  storageWrites : list (string * JSValue);
  alerts : list string
}.

Definition LOCAL_STORAGE_KEYS_COMPLETED_DAYS : string := "completedDays".
Definition LOCAL_STORAGE_KEYS_MONTHLY_NOTES : string := "monthlyNotes".

Definition localStorage_setItem (k : string) (v : JSValue) (st : AppState) : AppState :=
  {| completedDays := completedDays st;
     monthlyNotes := monthlyNotes st;
     localStorage := <[k := v]> (localStorage st);
     storageWrites := (k, v) :: storageWrites st;
     alerts := alerts st |}.

Definition window_alert (msg : string) (st : AppState) : AppState :=
  {| completedDays := completedDays st;
     monthlyNotes := monthlyNotes st;
     localStorage := localStorage st;
     storageWrites := storageWrites st;
     alerts := msg :: alerts st |}.

Definition setStoredCompletedDays (v : JSValue) (st : AppState) : AppState :=
  {| completedDays := v;
     monthlyNotes := monthlyNotes st;
     localStorage := localStorage st;
     storageWrites := storageWrites st;
     alerts := alerts st |}.

Definition setStoredMonthlyNotes (v : JSValue) (st : AppState) : AppState :=
  {| completedDays := completedDays st;
     monthlyNotes := v;
     localStorage := localStorage st;
     storageWrites := storageWrites st;
     alerts := alerts st |}.

(** The argument of a setter: a value, or a function of the stored value. *)
Inductive SetterArg : Type :=
| NewValue (v : JSValue)
| Updater (f : JSValue -> JSValue).

(** [setValue] of [useLocalStorage]: compute the value, set the state,
    write the store, in this order and whatever the value is. *)
Definition setValue (k : string) (storedValue : AppState -> JSValue)
    (setStoredValue : JSValue -> AppState -> AppState)
    (value : SetterArg) (st : AppState) : AppState :=
  let valueToStore :=
    match value with
    | Updater f => f (storedValue st)
    | NewValue v => v
    end in
  localStorage_setItem k valueToStore (setStoredValue valueToStore st).

Definition setCompletedDays : SetterArg -> AppState -> AppState :=
  setValue LOCAL_STORAGE_KEYS_COMPLETED_DAYS completedDays setStoredCompletedDays.

Definition setMonthlyNotes : SetterArg -> AppState -> AppState :=
  setValue LOCAL_STORAGE_KEYS_MONTHLY_NOTES monthlyNotes setStoredMonthlyNotes.

(** ** The handlers of [App] *)

Definition isEmptyString (s : string) : bool := String.eqb s "".

(** The updater of [handleDayClick]. *)
Definition toggleKey (k : string) (prev : JSValue) : JSValue :=
  let newCompleted := spread prev in
  if truthyProp (newCompleted !! k)
  then JObj (delete k newCompleted)
  else JObj (<[k := JBool true]> newCompleted).

Definition handleDayClick (d : Date) (st : AppState) : AppState :=
  let k := getDateKey d in
  if isEmptyString k then st
  else setCompletedDays (Updater (toggleKey k)) st.

(** One round of the [forEach] of [handleMarkAll], on the pair
    ([newCompleted], [changed]). *)
Definition markCell (acc : gmap string JSValue * bool) (c : CalendarCell) :
    gmap string JSValue * bool :=
  if isCurrentMonth c then
    let k := getDateKey (date c) in
    if negb (isEmptyString k) && negb (truthyProp (acc.1 !! k))
    then (<[k := JBool true]> acc.1, true)
    else acc
  else acc.

(** The updater of [handleMarkAll]. *)
Definition markAll (calendarDays : list CalendarCell) (prev : JSValue) : JSValue :=
  let r := foldl markCell (spread prev, false) calendarDays in
  if r.2 then JObj r.1 else prev.

Definition handleMarkAll (calendarDays : list CalendarCell) (st : AppState) : AppState :=
  setCompletedDays (Updater (markAll calendarDays)) st.

(** The updater of [handleResetMonth]. *)
Definition resetKeys (currentMonthKeys : list string) (prev : JSValue) : JSValue :=
  JObj (foldl (fun newCompleted k => delete k newCompleted)
              (spread prev) currentMonthKeys).

(** [handleResetMonth]; [confirmed] is the answer to [window.confirm],
    asked only when there is something to reset.  Reading a property of
    [null] throws, which ends the handler. *)
Definition handleResetMonth (calendarDays : list CalendarCell) (confirmed : bool)
    (st : AppState) : AppState :=
  let currentMonthKeys :=
    List.filter (fun k => negb (isEmptyString k))
      (key <$> List.filter isCurrentMonth calendarDays) in
  match completedDays st, currentMonthKeys with
  | JNull, _ :: _ => st
  | _, _ =>
    let hasCompletions :=
      existsb (fun k => truthyProp (spread (completedDays st) !! k))
              currentMonthKeys in
    if negb hasCompletions
    then window_alert "No completions to reset for the current month." st
    else if confirmed
         then setCompletedDays (Updater (resetKeys currentMonthKeys)) st
         else st
  end.

Definition importFailure (message : string) : string :=
  "Failed to import data. Please ensure the file is valid. Error: " +:+ message.

Definition invalidDataFormat : string := "Invalid data format.".

(** The test of [handleImport] on the parsed data: the data is truthy and
    its two fields have the type ["object"]. *)
Definition importShapeOk (data : JSValue) : bool :=
  truthy data
  && isObjectType (typeof (getProp data "completedDays"))
  && isObjectType (typeof (getProp data "monthlyNotes")).

Section ImportHandler.

(** [JSON.parse], a function of the platform: the parsed value, or the
    message of the [SyntaxError] it throws. *)
Variable JSON_parse : string -> string + JSValue.

(** [handleImport]; [confirmed] is the answer to [window.confirm], asked
    only when the data passed the test. *)
Definition handleImport (jsonData : string) (confirmed : bool) (st : AppState) :
    AppState :=
  match JSON_parse jsonData with
  | inl message => window_alert (importFailure message) st
  | inr data =>
      if negb (importShapeOk data)
      then window_alert (importFailure invalidDataFormat) st
      else if confirmed then
        let days := default JNull (getProp data "completedDays") in
        let notes := default JNull (getProp data "monthlyNotes") in
        window_alert "Data imported successfully!"
          (setMonthlyNotes (NewValue notes)
             (setCompletedDays (NewValue days) st))
      else st
  end.

End ImportHandler.

(** The shape that the specification asks of the imported data: an object
    with the fields [completedDays] and [monthlyNotes], each an object that
    maps keys to values (no array and not [null]). *)
Definition hasObjectField (data : JSValue) (name : string) : bool :=
  match data with
  | JObj m =>
      match m !! name with
      | Some (JObj _) => true
      | _ => false
      end
  | _ => false
  end.

Definition specShapeOk (data : JSValue) : bool :=
  hasObjectField data "completedDays" && hasObjectField data "monthlyNotes".

(** The invariant of the completion map: an object whose values are all
    [true]. *)
Definition completionInv (v : JSValue) : Prop :=
  exists m, v = JObj m /\ forall k x, m !! k = Some x -> x = JBool true.

(** The data of two states are the same: the two maps, the store and the
    record of the writes to the store. *)
Definition sameData (st st' : AppState) : Prop :=
  completedDays st' = completedDays st /\
  monthlyNotes st' = monthlyNotes st /\
  localStorage st' = localStorage st /\
  storageWrites st' = storageWrites st.

(** A cell that [handleMarkAll] looks at: of the month, with a key. *)
Definition toMark (c : CalendarCell) : bool :=
  isCurrentMonth c && negb (isEmptyString (getDateKey (date c))).

(** The cells to mark are all marked already (completed). *)
Definition allMarked (cells : list CalendarCell) (m : gmap string JSValue) : Prop :=
  forall c, c ∈ cells -> toMark c = true ->
            truthyProp (m !! getDateKey (date c)) = true.

(** *** A parser for the examples

    [JSON.parse] restricted to texts without escapes in strings and without
    fractions and exponents in numbers; the texts of the examples are of
    this kind.  The text is read with a budget of steps, its length. *)

Definition isWhitespace (c : ascii) : bool :=
  Ascii.eqb c " " || Ascii.eqb c "010" || Ascii.eqb c "013" || Ascii.eqb c "009".

Fixpoint skipWhitespace (s : string) : string :=
  match s with
  | String c s' => if isWhitespace c then skipWhitespace s' else s
  | EmptyString => s
  end.

Definition doubleQuote : ascii := "034".
Definition backslash : ascii := "092".

(** The characters up to the closing quote, and the rest. *)
Fixpoint parseStringBody (s : string) : option (string * string) :=
  match s with
  | EmptyString => None
  | String c s' =>
      if Ascii.eqb c doubleQuote then Some (EmptyString, s')
      else if Ascii.eqb c backslash then None
      else match parseStringBody s' with
           | Some (str, rest) => Some (String c str, rest)
           | None => None
           end
  end.

(** The digits at the head of a text, their value and the rest. *)
Fixpoint parseNat (acc : Z) (s : string) : Z * string :=
  match s with
  | String c s' =>
      match digitValue c with
      | Some d => parseNat (10 * acc + d) s'
      | None => (acc, s)
      end
  | EmptyString => (acc, s)
  end.

Definition startsWithDigit (s : string) : bool :=
  match s with
  | String c _ => match digitValue c with Some _ => true | None => false end
  | EmptyString => false
  end.

Definition dropString (n : nat) (s : string) : string :=
  substring n (String.length s - n) s.

Fixpoint parseValue (fuel : nat) (s : string) {struct fuel} :
    option (JSValue * string) :=
  match fuel with
  | O => None
  | S fuel' =>
      match skipWhitespace s with
      | EmptyString => None
      | String c rest as s0 =>
          if Ascii.eqb c "{" then
            match skipWhitespace rest with
            | String c' rest' =>
                if Ascii.eqb c' "}" then Some (JObj ∅, rest')
                else parseMembers fuel' ∅ rest
            | EmptyString => None
            end
          else if Ascii.eqb c "[" then
            match skipWhitespace rest with
            | String c' rest' =>
                if Ascii.eqb c' "]" then Some (JArr [], rest')
                else parseElements fuel' [] rest
            | EmptyString => None
            end
          else if Ascii.eqb c doubleQuote then
            match parseStringBody rest with
            | Some (str, rest') => Some (JStr str, rest')
            | None => None
            end
          else if String.prefix "true" s0 then Some (JBool true, dropString 4 s0)
          else if String.prefix "false" s0 then Some (JBool false, dropString 5 s0)
          else if String.prefix "null" s0 then Some (JNull, dropString 4 s0)
          else if startsWithDigit s0 then
            let (n, rest') := parseNat 0 s0 in
            Some (JNum (PrimFloat.of_uint63 (Uint63.of_Z n)), rest')
          else if Ascii.eqb c "-" && startsWithDigit rest then
            let (n, rest') := parseNat 0 rest in
            Some (JNum (PrimFloat.opp (PrimFloat.of_uint63 (Uint63.of_Z n))), rest')
          else None
      end
  end
with parseElements (fuel : nat) (acc : list JSValue) (s : string) {struct fuel} :
    option (JSValue * string) :=
  match fuel with
  | O => None
  | S fuel' =>
      match parseValue fuel' s with
      | Some (v, rest) =>
          match skipWhitespace rest with
          | String c rest' =>
              if Ascii.eqb c "," then parseElements fuel' (acc ++ [v]) rest'
              else if Ascii.eqb c "]" then Some (JArr (acc ++ [v]), rest')
              else None
          | EmptyString => None
          end
      | None => None
      end
  end
with parseMembers (fuel : nat) (acc : gmap string JSValue) (s : string)
    {struct fuel} : option (JSValue * string) :=
  match fuel with
  | O => None
  | S fuel' =>
      match skipWhitespace s with
      | String c rest =>
          if Ascii.eqb c doubleQuote then
            match parseStringBody rest with
            | Some (name, rest1) =>
                match skipWhitespace rest1 with
                | String c1 rest2 =>
                    if Ascii.eqb c1 ":" then
                      match parseValue fuel' rest2 with
                      | Some (v, rest3) =>
                          match skipWhitespace rest3 with
                          | String c3 rest4 =>
                              if Ascii.eqb c3 ","
                              then parseMembers fuel' (<[name := v]> acc) rest4
                              else if Ascii.eqb c3 "}"
                              then Some (JObj (<[name := v]> acc), rest4)
                              else None
                          | EmptyString => None
                          end
                      | None => None
                      end
                    else None
                | EmptyString => None
                end
            | None => None
            end
          else None
      | EmptyString => None
      end
  end.

Definition parseJSON (text : string) : string + JSValue :=
  match parseValue (S (String.length text)) text with
  | Some (v, rest) =>
      match skipWhitespace rest with
      | EmptyString => inr v
      | String _ _ => inl "Unexpected non-whitespace character after JSON"%string
      end
  | None => inl "Unexpected token or end of JSON input"%string
  end.

(** A text with every ['] replaced by a double quote, to write JSON in. *)
Fixpoint json (s : string) : string :=
  match s with
  | String c s' => String (if Ascii.eqb c "'" then doubleQuote else c) (json s')
  | EmptyString => EmptyString
  end.

(** ** Statistics ([useCalendar]) *)

(** [Object.keys(obj)]; the order of the keys does not matter here, the
    keys are sorted before they are used. *)
Definition Object_keys (obj : gmap string JSValue) : list string :=
  (map_to_list obj).*1.

(** [arr.sort()] on strings: ascending in the order of the code units. *)
Definition Array_sort (arr : list string) : list string :=
  merge_sort String.le arr.

(** The digits of a numeral. *)
Fixpoint parseDigits (acc : Z) (s : string) : option Z :=
  match s with
  | EmptyString => Some acc
  | String c s' =>
      match digitValue c with
      | Some d => parseDigits (10 * acc + d) s'
      | None => None
      end
  end.

(** The date-only form [YYYY-MM-DD] of the date-time string format, for a
    day that exists: the year, the month (from 1) and the day. *)
Definition dateOnlyForm (s : string) : option (Z * Z * Z) :=
  match parseDigits 0 (substring 0 4 s), parseDigits 0 (substring 5 2 s),
        parseDigits 0 (substring 8 2 s) with
  | Some y, Some m, Some d =>
      if (String.length s =? 10)%nat
         && String.eqb (substring 4 1 s) "-" && String.eqb (substring 7 1 s) "-"
         && (1 <=? m) && (m <=? 12) && (1 <=? d) && (d <=? days_in_month y (m - 1))
      then Some (y, m, d)
      else None
  | _, _, _ => None
  end.

(** [Math.round(a / b)] for integers [a] and [b > 0]: the quotient rounded
    to the nearest integer, a half upwards.  In the loop [a] is a
    difference of two midnights and [b] the length of a day: the quotient
    is an integer, also as a binary64 number. *)
Definition Math_round_div (a b : Z) : Z := (2 * a + b) / (2 * b).

(** The streaks of a walk over keys, given the gaps: a gap that is NaN,
    zero or negative leaves the running streak as it is (the code:
    [shouldn't happen with sorted keys]). *)
Definition nextRun (gap : option Z) (run : Z) : Z :=
  match gap with
  | Some g => if g =? 1 then run + 1 else if 1 <? g then 1 else run
  | None => run
  end.

Record Stats : Type := {
  currentStreak : Z;
  longestStreak : Z;
  monthlyPercentage : JSValue;
  completedInMonth : nat;
  totalDaysInMonth : nat
}.

(** The keys with a truthy value. *)
Definition completedKeys (completedDays : gmap string JSValue) : list string :=
  List.filter (fun k => truthyProp (completedDays !! k)) (Object_keys completedDays).

Section Statistics.

(** [new Date(s)] for a string [s] that is not the date-only form of an
    existing day: ECMA-262 leaves it to the implementation (the engines read
    keys such as [100-01-01] and [2024-02-30], each in its way). *)
Variable Date_parse_other : string -> Date.

(** [new Date(s)]: the date-only form is midnight (UTC) of the day. *)
Definition Date_parse (s : string) : Date :=
  match dateOnlyForm s with
  | Some (y, m, d) => TimeClip (MakeDate (MakeDay y (m - 1) d) 0)
  | None => Date_parse_other s
  end.

(** [diffDays] of the loop, [None] when it is NaN. *)
Definition diffDaysOf (cur last : string) : option Z :=
  match setUTCHours0 (Date_parse cur), setUTCHours0 (Date_parse last) with
  | TimeValue currentDate, TimeValue lastDate =>
      let diffTime := currentDate - lastDate in
      Some (Math_round_div diffTime (1000 * 60 * 60 * 24))
  | _, _ => None
  end.

(** One round of the loop over [sortedDates], on the pair
    ([longestStreak], [tempStreak]); the round for index [i] sees
    ([sortedDates[i - 1]], [sortedDates[i]]). *)
Definition streakStep (acc : Z * Z) (p : string * string) : Z * Z :=
  match diffDaysOf p.2 p.1 with
  | Some diffDays =>
      if diffDays =? 1 then (acc.1, acc.2 + 1)
      else if 1 <? diffDays then (Z.max acc.1 acc.2, 1)
      else acc
  | None => acc
  end.

(** [x.toFixed(0)] for a finite [x >= 0] below 1e21: the digits of the
    integer nearest to [x], the larger one of two. *)
Definition nearestInteger (x : PrimFloat.float) : Z :=
  match FloatOps.Prim2SF x with
  | SpecFloat.S754_finite _ m e =>
      if 0 <=? e then Z.pos m * 2 ^ e
      else (2 * Z.pos m + 2 ^ (- e)) / 2 ^ (- e + 1)
  | _ => 0
  end.

Definition Number_toFixed0 (x : PrimFloat.float) : string :=
  Number_toString (nearestInteger x).

Definition toNumber (n : nat) : PrimFloat.float :=
  PrimFloat.of_uint63 (Uint63.of_Z (Z.of_nat n)).

(** [(completedInMonth / totalDaysInMonth) * 100] in binary64. *)
Definition percentageFloat (completedInMonth totalDaysInMonth : nat) :
    PrimFloat.float :=
  PrimFloat.mul (PrimFloat.div (toNumber completedInMonth)
                               (toNumber totalDaysInMonth))
                (toNumber 100).

(** The statistics; [clock1] and [clock2] are the times that the two calls
    of [new Date()] read, the first for [today] and the second for
    [yesterday], when the memoised function is run. *)
Definition stats (completedDays : gmap string JSValue)
    (calendarDays : list CalendarCell) (clock1 clock2 : Z) : Stats :=
  let sortedDates := Array_sort (completedKeys completedDays) in
  let currentMonthDays := List.filter isCurrentMonth calendarDays in
  let totalDaysInMonth := length currentMonthDays in
  let completedInMonth :=
    length (List.filter (fun d => truthyProp (completedDays !! key d))
                        currentMonthDays) in
  let monthlyPercentage :=
    if (0 <? totalDaysInMonth)%nat
    then JStr (Number_toFixed0
                 (percentageFloat completedInMonth totalDaysInMonth))
    else JNum PrimFloat.zero in
  match sortedDates with
  | [] =>
      {| currentStreak := 0; longestStreak := 0;
         monthlyPercentage := JNum PrimFloat.zero;
         completedInMonth := 0; totalDaysInMonth := totalDaysInMonth |}
  | _ :: _ =>
      let r := foldl streakStep (1, 1) (zip sortedDates (tail sortedDates)) in
      let longestStreak := Z.max r.1 r.2 in
      let currentOverallStreak := r.2 in
      let today := clock1 in
      let yesterday := setDate clock2 (getDate today - 1) in
      let lastCompletedDateStr := List.last sortedDates ""%string in
      let isLastDayToday :=
        String.eqb lastCompletedDateStr (getDateKey (TimeValue today)) in
      let isLastDayYesterday :=
        String.eqb lastCompletedDateStr (getDateKey yesterday) in
      let finalCurrentStreak :=
        if isLastDayToday || isLastDayYesterday then currentOverallStreak else 0 in
      {| currentStreak := finalCurrentStreak; longestStreak := longestStreak;
         monthlyPercentage := monthlyPercentage;
         completedInMonth := completedInMonth;
         totalDaysInMonth := totalDaysInMonth |}
  end.

(** The statistics of a state; [Object.keys(null)] throws. *)
Definition statsOfState (st : AppState) (calendarDays : list CalendarCell)
    (clock1 clock2 : Z) : option Stats :=
  match completedDays st with
  | JNull => None
  | v => Some (stats (spread v) calendarDays clock1 clock2)
  end.

(** The running streak after each key of a walk over sorted keys, with the
    gaps as the loop reads them from the keys. *)
Fixpoint keyRunningStreaks (prev : string) (run : Z) (keys : list string) :
    list Z :=
  match keys with
  | [] => []
  | k :: rest =>
      let run' := nextRun (diffDaysOf k prev) run in
      run' :: keyRunningStreaks k run' rest
  end.

Definition keyStreakHistory (keys : list string) : list Z :=
  match keys with
  | [] => []
  | k :: rest => 1 :: keyRunningStreaks k 1 rest
  end.

End Statistics.

(** The streaks as the specification describes them, on the completed days
    in ascending order: the running streak after each day (a gap of one day
    extends it, a larger gap starts a new one of length 1), the longest
    streak is the largest of them, the final one is the last. *)
Fixpoint runningStreaks (prev run : Z) (days : list Z) : list Z :=
  match days with
  | [] => []
  | d :: rest =>
      let run' := if d - prev =? 1 then run + 1 else 1 in
      run' :: runningStreaks d run' rest
  end.

Definition streakHistory (days : list Z) : list Z :=
  match days with
  | [] => []
  | d :: rest => 1 :: runningStreaks d 1 rest
  end.

Definition specLongestStreak (days : list Z) : Z :=
  foldr Z.max 0 (streakHistory days).

Definition specFinalStreak (days : list Z) : Z :=
  List.last (streakHistory days) 0.

(** The key of a day number. *)
Definition dayKey (d : Z) : string := getDateKey (TimeValue (MakeDate d 0)).

(** A day of a year that is written with four digits. *)
Definition fourDigitYear (d : Z) : Prop :=
  1000 <= getFullYear (MakeDate d 0) <= 9999.

(** The days [days] are the completed ones: the keys to which the map
    gives a value that counts as true are the keys of these days. *)
Definition completedOn (completedDays : gmap string JSValue) (days : list Z) : Prop :=
  forall k, truthyProp (completedDays !! k) = true <-> k ∈ dayKey <$> days.

(** The exact rounding of a percentage, a half upwards. *)
Definition roundedPercentage (completed total : nat) : Z :=
  (200 * Z.of_nat completed + Z.of_nat total) / (2 * Z.of_nat total).

(** ** Further parts of [useCalendar] and [App] *)

(** [currentMonthKeys] of [handleResetMonth]: the keys of the cells of the
    month, the empty ones left out. *)
Definition currentMonthKeys (calendarDays : list CalendarCell) : list string :=
  List.filter (fun k => negb (isEmptyString k))
    (key <$> List.filter isCurrentMonth calendarDays).

Definition noCompletionsToReset : string :=
  "No completions to reset for the current month.".

(** [currentMonthKey], the key of the note of the month shown. *)
Definition currentMonthKey (currentDate : Z) : string :=
  Number_toString (getFullYear currentDate) +:+ "-"
  +:+ zeroPad (getMonth currentDate + 1).



(** [isToday]: the three fields of the date are those of the present
    time. *)
Definition isToday (d : Date) (now : Z) : bool :=
  match d with
  | TimeValue t =>
      (getDate t =? getDate now) && (getMonth t =? getMonth now)
      && (getFullYear t =? getFullYear now)
  | InvalidDate => false
  end.


(** ** The cells of [CalendarGrid] *)

(** The first cell of the grid of a month: the Sunday on or before the
    first of the month. *)
Definition gridStart (y m : Z) : Z := firstOfMonth y m - startWeekday y m.


Definition today (c : CalendarCell) (now : Z) : bool :=
  isCurrentMonth c && isToday (date c) now.


(** ** Navigation ([useCalendar]) *)

(** [d.setMonth(month, date)] keeps the year and the time of day;
    [d.setFullYear(year)] keeps the month, the day of the month and the
    time of day (ECMA-262, in local time); both clip the result. *)
Definition setMonth (t month dt : Z) : Date :=
  TimeClip (MakeDate (MakeDay (YearFromTime t) month dt) (TimeWithinDay t)).

Definition setFullYear (t year : Z) : Date :=
  TimeClip (MakeDate (MakeDay year (MonthFromTime t) (DateFromTime t))
                     (TimeWithinDay t)).

(** The state [currentDateISO] is a string; it is represented here by the
    [Date] that [new Date(currentDateISO)] makes of it.  [toISOString]
    gives the string of a valid date, from which [new Date] makes the date
    again, and throws a RangeError on the invalid date. *)
Definition toISOString (d : Date) : option Date :=
  match d with
  | TimeValue _ => Some d
  | InvalidDate => None
  end.

(** [setCurrentDateISO] with an updater: [setValue] catches what the
    updater throws and leaves the stored value as it is. *)
Definition setCurrentDateISO (updater : Date -> option Date) (prev : Date) :
    Date :=
  match updater prev with
  | Some d => d
  | None => prev
  end.

Definition changeMonth (offset : Z) : Date -> Date :=
  setCurrentDateISO (fun prev =>
    toISOString
      match prev with
      | TimeValue t => setMonth t (getMonth t + offset) 1
      | InvalidDate => InvalidDate
      end).

Definition changeYear (offset : Z) : Date -> Date :=
  setCurrentDateISO (fun prev =>
    toISOString
      match prev with
      | TimeValue t => setFullYear t (getFullYear t + offset)
      | InvalidDate => InvalidDate
      end).

(** [goToToday] at the time [now]: the string of the present time, whatever
    the state was. *)
Definition goToToday (now : Z) (prev : Date) : Date := TimeValue now.

(** [currentDate]: the stored date, the present time when it is invalid;
    [calendarDays] is its grid. *)
Definition currentDate (currentDateISO : Date) (now : Z) : Z :=
  match currentDateISO with
  | TimeValue t => t
  | InvalidDate => now
  end.

Definition calendarDays (currentDateISO : Date) (now : Z) : list CalendarCell :=
  generateCalendarDays (TimeValue (currentDate currentDateISO now)).

(** The time that [setMonth] and [setFullYear] compute, before clipping. *)
Definition monthTime (t month : Z) : Z :=
  MakeDate (MakeDay (YearFromTime t) month 1) (TimeWithinDay t).

Definition yearTime (t year : Z) : Z :=
  MakeDate (MakeDay year (MonthFromTime t) (DateFromTime t)) (TimeWithinDay t).

(** ** Export ([App]) *)

(** [handleExport]: the name of the file saved and the value whose JSON
    text the file holds. *)
Definition dataToExport (st : AppState) : JSValue :=
  JObj (<["completedDays"%string := completedDays st]>
          (<["monthlyNotes"%string := monthlyNotes st]> ∅)).

Definition handleExport (now : Z) (st : AppState) : string * JSValue :=
  ("completion-calendar-data-" +:+ getDateKey (TimeValue now) +:+ ".json",
   dataToExport st).

(** ** Values for the examples *)

(** The state of a first visit: the initial values of [useLocalStorage],
    nothing stored. *)
Definition emptyState : AppState :=
  {| completedDays := JObj ∅; monthlyNotes := JObj ∅; localStorage := ∅;
     storageWrites := []; alerts := [] |}.

(** Completions on 2024-01-01, -02, -03 and -05. *)
Definition exampleDays : gmap string JSValue :=
  list_to_map [("2024-01-01"%string, JBool true); ("2024-01-03"%string, JBool true);
               ("2024-01-02"%string, JBool true); ("2024-01-05"%string, JBool true)].

(** The grids of January and of February 2024. *)
Definition january2024 : list CalendarCell :=
  generateCalendarDays (newDate 2024 0 5).

Definition february2024 : list CalendarCell :=
  generateCalendarDays (newDate 2024 1 1).

(** April 2024, a month of 30 days, and the completion of its first 15
    days. *)
Definition april2024 : list CalendarCell :=
  generateCalendarDays (newDate 2024 3 1).

Definition halfOfApril2024 : gmap string JSValue :=
  list_to_map ((fun c => (key c, JBool true))
                 <$> take 15 (List.filter isCurrentMonth april2024)).

(** * Theorems *)

(** ** Facts on the date arithmetic *)

(** Case analysis on a month number known to lie in 0..11. *)
Ltac month_cases mn :=
  let H := fresh "Hmn" in
  assert (H : mn = 0 \/ mn = 1 \/ mn = 2 \/ mn = 3 \/ mn = 4 \/ mn = 5 \/
              mn = 6 \/ mn = 7 \/ mn = 8 \/ mn = 9 \/ mn = 10 \/ mn = 11)
    by lia;
  repeat (destruct H as [H|H]; [subst mn|]); [..|subst mn].

Section DateFacts.

Lemma isLeapYear_leap_year y : isLeapYear y = leap_year y.
Proof.
  unfold isLeapYear, leap_year, DaysInYear.
  destruct (y mod 4 =? 0) eqn:E4, (y mod 100 =? 0) eqn:E100,
    (y mod 400 =? 0) eqn:E400; simpl; try reflexivity.
  all: apply Z.eqb_eq in E400; apply Z.eqb_neq in E100;
    exfalso; apply E100;
    revert E400; Z.div_mod_to_equations; lia.
Qed.

Lemma DaysInYear_cases y : DaysInYear y = if isLeapYear y then 366 else 365.
Proof.
  unfold isLeapYear, DaysInYear.
  repeat match goal with |- context [negb ?b] => destruct b; simpl end;
    reflexivity.
Qed.

Lemma DayFromYear_succ y : DayFromYear (y + 1) = DayFromYear y + DaysInYear y.
Proof.
  unfold DayFromYear, DaysInYear.
  repeat match goal with
  | |- context [?a =? ?b] => destruct (Z.eqb_spec a b); simpl
  end; Z.div_mod_to_equations; lia.
Qed.

Lemma DayFromYear_lt y1 y2 : y1 < y2 -> DayFromYear y1 + 365 <= DayFromYear y2.
Proof.
  intros H. unfold DayFromYear. Z.div_mod_to_equations. lia.
Qed.

Lemma DayFromYear_mono y1 y2 : y1 <= y2 -> DayFromYear y1 <= DayFromYear y2.
Proof.
  intros H. destruct (Z.eq_dec y1 y2) as [->|]; [lia|].
  pose proof (DayFromYear_lt y1 y2). lia.
Qed.

Lemma YearFromDay_spec d :
  DayFromYear (YearFromDay d) <= d < DayFromYear (YearFromDay d + 1).
Proof.
  unfold YearFromDay.
  set (y := 1970 + 400 * d / 146097).
  assert (Hlo : DayFromYear (y - 1) <= d).
  { unfold DayFromYear, y. Z.div_mod_to_equations. lia. }
  assert (Hhi : d < DayFromYear (y + 2)).
  { unfold DayFromYear, y. Z.div_mod_to_equations. lia. }
  cbv zeta.
  destruct (Z.ltb_spec d (DayFromYear y)).
  - replace (y - 1 + 1) with y by lia. lia.
  - destruct (Z.leb_spec (DayFromYear (y + 1)) d).
    + replace (y + 1 + 1) with (y + 2) by lia. lia.
    + lia.
Qed.

Lemma YearFromDay_unique d y :
  DayFromYear y <= d < DayFromYear (y + 1) -> YearFromDay d = y.
Proof.
  intros [Hlo Hhi].
  pose proof (YearFromDay_spec d) as [Hlo' Hhi'].
  destruct (Z.lt_trichotomy (YearFromDay d) y) as [Hlt|[Heq|Hgt]];
    [exfalso|exact Heq|exfalso].
  - pose proof (DayFromYear_mono (YearFromDay d + 1) y). lia.
  - pose proof (DayFromYear_mono (y + 1) (YearFromDay d)). lia.
Qed.

Lemma Day_MakeDate day time :
  0 <= time < msPerDay -> Day (MakeDate day time) = day.
Proof.
  intros H. unfold Day, MakeDate, msPerDay in *.
  Z.div_mod_to_equations. lia.
Qed.

Lemma TimeWithinDay_MakeDate day time :
  0 <= time < msPerDay -> TimeWithinDay (MakeDate day time) = time.
Proof.
  intros H. unfold TimeWithinDay, MakeDate, msPerDay in *.
  Z.div_mod_to_equations. lia.
Qed.

Lemma MakeDate_Day t : MakeDate (Day t) (TimeWithinDay t) = t.
Proof.
  unfold MakeDate, Day, TimeWithinDay, msPerDay.
  Z.div_mod_to_equations. lia.
Qed.

Lemma TimeWithinDay_bound t : 0 <= TimeWithinDay t < msPerDay.
Proof. unfold TimeWithinDay, msPerDay. apply Z.mod_pos_bound. lia. Qed.

Lemma MakeDay_norm y mn dt :
  0 <= mn <= 11 ->
  MakeDay y mn dt = DayFromYear y + monthStart (leap_year y) mn + dt - 1.
Proof.
  intros H. unfold MakeDay.
  rewrite Z.div_small, Z.mod_small by lia.
  rewrite Z.add_0_r, isLeapYear_leap_year. reflexivity.
Qed.

Lemma MakeDay_date y m dt : MakeDay y m dt = MakeDay y m 1 + (dt - 1).
Proof. unfold MakeDay. lia. Qed.

Lemma MakeDay_year_overflow y m dt : MakeDay y (m + 12) dt = MakeDay (y + 1) m dt.
Proof.
  unfold MakeDay.
  replace (m + 12) with (m + 1 * 12) by lia.
  rewrite Z.div_add, Z.mod_add by lia.
  replace (y + (m / 12 + 1)) with (y + 1 + m / 12) by lia. reflexivity.
Qed.

Lemma monthStart_succ b mn :
  0 <= mn <= 10 ->
  monthStart b (mn + 1) =
  monthStart b mn + match mn with
                    | 1 => if b then 29 else 28
                    | 3 | 5 | 8 | 10 => 30
                    | _ => 31
                    end.
Proof. intros H. month_cases mn; destruct b; try reflexivity; lia. Qed.

(** The first of the next month comes [days_in_month] days after the first
    of a month; December overflows into the next year. *)
Lemma MakeDay_month_succ y mn dt :
  0 <= mn <= 11 ->
  MakeDay y (mn + 1) dt = MakeDay y mn dt + days_in_month y mn.
Proof.
  intros H. destruct (Z.eq_dec mn 11) as [->|Hne].
  - change (11 + 1) with (0 + 12). rewrite MakeDay_year_overflow.
    rewrite !MakeDay_norm by lia. rewrite DayFromYear_succ, DaysInYear_cases.
    rewrite isLeapYear_leap_year. destruct (leap_year y), (leap_year (y + 1));
      simpl; lia.
  - rewrite !MakeDay_norm by lia. rewrite monthStart_succ by lia.
    unfold days_in_month. lia.
Qed.

Lemma days_in_month_bounds y mn : 28 <= days_in_month y mn <= 31.
Proof.
  unfold days_in_month.
  repeat match goal with
  | |- context [match ?x with _ => _ end] => destruct x
  end; lia.
Qed.

Lemma DayFromYear_monthStart_bound y mn dt :
  0 <= mn <= 11 -> 1 <= dt <= days_in_month y mn ->
  0 <= monthStart (leap_year y) mn + dt - 1 < DaysInYear y.
Proof.
  intros Hm Hd. rewrite DaysInYear_cases, isLeapYear_leap_year.
  unfold days_in_month in Hd.
  month_cases mn; destruct (leap_year y); simpl in *; lia.
Qed.

(** Reading back the fields of a date made from a civil triple. *)
Lemma fields_MakeDay y mn dt tm :
  0 <= mn <= 11 -> 1 <= dt <= days_in_month y mn -> 0 <= tm < msPerDay ->
  let t := MakeDate (MakeDay y mn dt) tm in
  YearFromTime t = y /\ MonthFromTime t = mn /\ DateFromTime t = dt.
Proof.
  intros Hm Hd Ht t.
  pose proof (DayFromYear_monthStart_bound y mn dt Hm Hd) as Hb.
  assert (HD : Day t = DayFromYear y + (monthStart (leap_year y) mn + dt - 1)).
  { unfold t. rewrite Day_MakeDate by exact Ht. rewrite MakeDay_norm by exact Hm.
    lia. }
  assert (HY : YearFromTime t = y).
  { unfold YearFromTime. apply YearFromDay_unique.
    rewrite DayFromYear_succ, HD. lia. }
  assert (HW : DayWithinYear t = monthStart (leap_year y) mn + dt - 1).
  { unfold DayWithinYear. rewrite HY, HD. lia. }
  assert (HL : InLeapYear t = if leap_year y then 1 else 0).
  { unfold InLeapYear. rewrite HY, isLeapYear_leap_year. reflexivity. }
  split; [exact HY|].
  unfold DateFromTime, MonthFromTime. rewrite HW, HL.
  unfold days_in_month in Hd. clear HD HY HW HL Hb t.
  month_cases mn; destruct (leap_year y); simpl in Hd |- *;
    repeat match goal with
    | |- context [?a <? ?b] => destruct (Z.ltb_spec a b); try lia
    end; split; lia.
Qed.

Lemma DayWithinYear_bound t :
  0 <= DayWithinYear t < DaysInYear (YearFromTime t).
Proof.
  unfold DayWithinYear, YearFromTime.
  pose proof (YearFromDay_spec (Day t)) as H.
  rewrite DayFromYear_succ in H. lia.
Qed.

(** Every time value lies on a civil day: its fields are in range and
    [MakeDay] leads back to its day number. *)
Lemma civil_of_time t :
  let y := YearFromTime t in
  let m := MonthFromTime t in
  let dt := DateFromTime t in
  0 <= m <= 11 /\ 1 <= dt <= days_in_month y m /\ Day t = MakeDay y m dt.
Proof.
  intros y m dt. subst m dt.
  pose proof (DayWithinYear_bound t) as Hb.
  rewrite DaysInYear_cases, isLeapYear_leap_year in Hb. fold y in Hb.
  assert (HL : InLeapYear t = if leap_year y then 1 else 0).
  { unfold InLeapYear. rewrite isLeapYear_leap_year. reflexivity. }
  assert (HD : Day t = DayFromYear y + DayWithinYear t).
  { unfold DayWithinYear, y. lia. }
  assert (Hm : 0 <= MonthFromTime t <= 11).
  { unfold MonthFromTime.
    repeat match goal with
    | |- context [?a <? ?b] => destruct (Z.ltb_spec a b); try lia
    end. }
  split; [exact Hm|].
  rewrite MakeDay_norm by exact Hm. rewrite HD.
  assert (Hcases :
    (MonthFromTime t = 0 /\ DayWithinYear t < 31) \/
    (MonthFromTime t <> 0
     /\ monthStart (leap_year y) (MonthFromTime t) <= DayWithinYear t
     /\ DayWithinYear t < monthStart (leap_year y) (MonthFromTime t)
                          + days_in_month y (MonthFromTime t))).
  { unfold MonthFromTime, days_in_month. rewrite HL.
    destruct (leap_year y);
      repeat match goal with
      | |- context [?a <? ?b] => destruct (Z.ltb_spec a b); [simpl; lia|]
      end; simpl; lia. }
  unfold DateFromTime. rewrite HL. unfold days_in_month in *.
  revert Hm Hcases. generalize (MonthFromTime t) as m. intros m Hm Hcases.
  month_cases m; destruct (leap_year y); simpl in Hcases |- *; lia.
Qed.

Lemma MonthFromTime_bound t : 0 <= MonthFromTime t <= 11.
Proof. apply (civil_of_time t). Qed.

(** The fields depend on the day only, not on the time of day. *)
Lemma YearFromTime_Day t1 t2 : Day t1 = Day t2 -> YearFromTime t1 = YearFromTime t2.
Proof. unfold YearFromTime. intros ->. reflexivity. Qed.

Lemma MonthFromTime_Day t1 t2 : Day t1 = Day t2 -> MonthFromTime t1 = MonthFromTime t2.
Proof.
  intros H. unfold MonthFromTime, DayWithinYear, InLeapYear, YearFromTime.
  rewrite H. reflexivity.
Qed.

Lemma DateFromTime_Day t1 t2 : Day t1 = Day t2 -> DateFromTime t1 = DateFromTime t2.
Proof.
  intros H. unfold DateFromTime. rewrite (MonthFromTime_Day t1 t2 H).
  unfold DayWithinYear, InLeapYear, YearFromTime. rewrite H. reflexivity.
Qed.

(** Conversely the three fields determine the day. *)
Lemma Day_of_fields t1 t2 :
  YearFromTime t1 = YearFromTime t2 -> MonthFromTime t1 = MonthFromTime t2 ->
  DateFromTime t1 = DateFromTime t2 -> Day t1 = Day t2.
Proof.
  intros Hy Hm Hd.
  destruct (civil_of_time t1) as (_ & _ & ->).
  destruct (civil_of_time t2) as (_ & _ & ->).
  rewrite Hy, Hm, Hd. reflexivity.
Qed.

End DateFacts.

(** ** The calendar grid *)

Section GridFacts.

Lemma msPerDay_pos : 0 <= 0 < msPerDay.
Proof. unfold msPerDay. lia. Qed.

(** The midnights of the days up to 100 000 000 days from the epoch, and
    the times of these days, are time values. *)
Lemma TimeClip_in_range d tm :
  -100000000 <= d < 100000000 -> 0 <= tm < msPerDay ->
  TimeClip (MakeDate d tm) = TimeValue (MakeDate d tm).
Proof.
  intros Hd Ht. unfold TimeClip, MakeDate, maxTime, msPerDay in *.
  destruct (Z.leb_spec (Z.abs (d * 86400000 + tm)) 8640000000000000);
    [reflexivity|lia].
Qed.

Lemma TimeClip_midnight d :
  -100000000 <= d <= 100000000 ->
  TimeClip (MakeDate d 0) = TimeValue (MakeDate d 0).
Proof.
  intros Hd. unfold TimeClip, MakeDate, maxTime, msPerDay.
  destruct (Z.leb_spec (Z.abs (d * 86400000 + 0)) 8640000000000000);
    [reflexivity|lia].
Qed.

Lemma newDate_MakeDay year month day :
  -100000000 <= MakeDay (constructorYear year) month day <= 100000000 ->
  newDate year month day =
  TimeValue (MakeDate (MakeDay (constructorYear year) month day) 0).
Proof. intros H. unfold newDate. apply TimeClip_midnight, H. Qed.

(** The years all of whose days, and those of the weeks around them, have
    time values: the range of time values begins in the year -271821 and
    ends in the year 275760. *)
Lemma firstOfMonth_range y m :
  -271820 <= y <= 275759 -> 0 <= m <= 11 ->
  -99999800 <= MakeDay y m 1 <= 99999800.
Proof.
  intros Hy Hm. rewrite MakeDay_norm by exact Hm.
  pose proof (DayFromYear_mono (-271820) y ltac:(lia)) as Hlo.
  pose proof (DayFromYear_mono y 275759 ltac:(lia)) as Hhi.
  change (DayFromYear (-271820)) with (-99999744) in Hlo.
  change (DayFromYear 275759) with 99999379 in Hhi.
  assert (Hs : 0 <= monthStart (leap_year y) m <= 335)
    by (month_cases m; destruct (leap_year y); simpl; lia).
  lia.
Qed.

Lemma WeekDay_MakeDate d : WeekDay (MakeDate d 0) = (d + 4) mod 7.
Proof. unfold WeekDay. rewrite Day_MakeDate by apply msPerDay_pos. reflexivity. Qed.

Lemma getDay_firstDayOfMonth y m :
  getDay (MakeDate (MakeDay y m 1) 0) = startWeekday y m.
Proof. reflexivity. Qed.

Lemma startWeekday_bound y m : 0 <= startWeekday y m <= 6.
Proof.
  unfold startWeekday. rewrite WeekDay_MakeDate.
  pose proof (Z.mod_pos_bound (firstOfMonth y m + 4) 7). lia.
Qed.

Lemma MakeDay_month_pred y m dt :
  0 <= m <= 11 ->
  MakeDay y (m - 1) dt =
  MakeDay y m dt - days_in_month (prevMonthOf y m).1 (prevMonthOf y m).2.
Proof.
  intros H. unfold prevMonthOf.
  destruct (Z.eqb_spec m 0) as [->|Hne]; cbn [fst snd].
  - change (0 - 1) with (-1).
    pose proof (MakeDay_year_overflow (y - 1) (-1) dt) as Ho.
    replace (y - 1 + 1) with y in Ho by lia.
    change (-1 + 12) with 11 in Ho. rewrite <- Ho.
    pose proof (MakeDay_month_succ (y - 1) 11 dt ltac:(lia)) as Hs.
    change (11 + 1) with (0 + 12) in Hs. rewrite MakeDay_year_overflow in Hs.
    replace (y - 1 + 1) with y in Hs by lia. lia.
  - pose proof (MakeDay_month_succ y (m - 1) dt ltac:(lia)) as Hs.
    replace (m - 1 + 1) with m in Hs by lia. lia.
Qed.

Lemma MakeDay_nextMonthOf y m dt :
  0 <= m <= 11 ->
  MakeDay y (m + 1) dt = MakeDay (nextMonthOf y m).1 (nextMonthOf y m).2 dt.
Proof.
  intros H. unfold nextMonthOf. destruct (Z.eqb_spec m 11) as [->|Hne]; simpl.
  - change (11 + 1) with (0 + 12). apply MakeDay_year_overflow.
  - reflexivity.
Qed.

Lemma MakeDay_prevMonthOf y m dt :
  0 <= m <= 11 ->
  MakeDay y (m - 1) dt = MakeDay (prevMonthOf y m).1 (prevMonthOf y m).2 dt.
Proof.
  intros H. unfold prevMonthOf. destruct (Z.eqb_spec m 0) as [->|Hne]; simpl.
  - pose proof (MakeDay_year_overflow (y - 1) (-1) dt) as Ho.
    replace (y - 1 + 1) with y in Ho by lia. symmetry. exact Ho.
  - reflexivity.
Qed.

Lemma prevMonthOf_bound y m : 0 <= m <= 11 -> 0 <= (prevMonthOf y m).2 <= 11.
Proof. unfold prevMonthOf. destruct (Z.eqb_spec m 0); simpl; lia. Qed.

Lemma nextMonthOf_bound y m : 0 <= m <= 11 -> 0 <= (nextMonthOf y m).2 <= 11.
Proof. unfold nextMonthOf. destruct (Z.eqb_spec m 11); simpl; lia. Qed.

(** [new Date(year, month + 1, 0).getDate()] is the length of the month. *)
Lemma getDate_lastDayOfMonth y m :
  0 <= m <= 11 ->
  getDate (MakeDate (MakeDay y (m + 1) 0) 0) = days_in_month y m.
Proof.
  intros H. pose proof (days_in_month_bounds y m) as Hb.
  rewrite MakeDay_month_succ by exact H.
  replace (MakeDay y m 0 + days_in_month y m)
    with (MakeDay y m (days_in_month y m)) by (unfold MakeDay; lia).
  apply (fields_MakeDay y m (days_in_month y m) 0); [lia|lia|apply msPerDay_pos].
Qed.

(** [new Date(year, month, 0).getDate()] is the length of the month before. *)
Lemma getDate_prevMonthLastDay y m :
  0 <= m <= 11 ->
  getDate (MakeDate (MakeDay y m 0) 0) =
  days_in_month (prevMonthOf y m).1 (prevMonthOf y m).2.
Proof.
  intros H.
  pose proof (prevMonthOf_bound y m H) as Hp.
  pose proof (getDate_lastDayOfMonth (prevMonthOf y m).1 (prevMonthOf y m).2 Hp) as Hl.
  rewrite <- Hl. f_equal. f_equal.
  rewrite MakeDay_month_succ by exact Hp.
  rewrite <- MakeDay_prevMonthOf by exact H.
  rewrite MakeDay_month_pred by exact H. lia.
Qed.

Lemma fmap_seqZ_shift {A} (f g : Z -> A) a b n :
  (forall i, 0 <= i < n -> f (a + i) = g (b + i)) ->
  f <$> seqZ a n = g <$> seqZ b n.
Proof.
  intros H.
  replace a with (a + 0) at 1 by lia. replace b with (b + 0) at 1 by lia.
  rewrite <- !fmap_add_seqZ, <- !list_fmap_compose.
  apply list_fmap_ext. intros i x Hx.
  apply lookup_seqZ in Hx as [-> Hi]. simpl. apply H. lia.
Qed.

Lemma length_monthGrid y m : length (monthGrid y m) = 42%nat.
Proof. unfold monthGrid. rewrite length_fmap, length_seqZ. reflexivity. Qed.

(** The code builds the grid of the month of the date, in the year the
    [Date] constructor makes of the date's year. *)
Lemma generateCalendarDays_monthGrid t :
  -271820 <= constructorYear (getFullYear t) <= 275759 ->
  generateCalendarDays (TimeValue t) =
  monthGrid (constructorYear (getFullYear t)) (getMonth t).
Proof.
  intros HY. unfold generateCalendarDays. cbv zeta.
  pose proof (MonthFromTime_bound t) as Hm. fold (getMonth t) in Hm.
  set (Y := constructorYear (getFullYear t)) in *. set (m := getMonth t) in *.
  pose proof (firstOfMonth_range Y m HY Hm) as HF.
  pose proof (startWeekday_bound Y m) as Hw.
  pose proof (days_in_month_bounds Y m) as Hn.
  pose proof (days_in_month_bounds (prevMonthOf Y m).1 (prevMonthOf Y m).2) as Hp.
  pose proof (MakeDay_month_succ Y m 0 Hm) as Hlast.
  pose proof (MakeDay_date Y m 0) as Hzero.
  rewrite (newDate_MakeDay _ m 1), (newDate_MakeDay _ (m + 1) 0),
    (newDate_MakeDay _ m 0) by (fold Y; lia).
  cbn [fieldOf]. fold Y.
  rewrite getDate_lastDayOfMonth, getDate_prevMonthLastDay by exact Hm.
  rewrite getDay_firstDayOfMonth.
  set (w := startWeekday Y m) in *. set (n := days_in_month Y m) in *.
  set (p := days_in_month (prevMonthOf Y m).1 (prevMonthOf Y m).2) in *.
  unfold downto0, from1to.
  rewrite length_app, !length_fmap, !length_seqZ.
  replace (42 - Z.of_nat (Z.to_nat (w - 1 + 1) + Z.to_nat n)) with (42 - w - n)
    by lia.
  replace (w - 1 + 1) with w by lia.
  unfold monthGrid. fold w n.
  replace (seqZ 0 42) with (seqZ 0 (w + (n + (42 - w - n)))) by (f_equal; lia).
  rewrite (seqZ_app 0 w), (seqZ_app (0 + w) n), !fmap_app by lia.
  rewrite <- app_assoc. f_equal; [|f_equal].
  - rewrite <- list_fmap_compose.
    apply fmap_seqZ_shift. intros i Hi. unfold compose.
    pose proof (MakeDay_month_pred Y m (p - (w - 1 - (0 + i))) Hm) as E.
    fold p in E. rewrite (MakeDay_date Y m) in E.
    rewrite newDate_MakeDay by (fold Y; lia). fold Y. rewrite E.
    unfold firstOfMonth.
    replace ((w <=? 0 + i) && (0 + i <? w + n)) with false
      by (symmetry; apply andb_false_iff; left; apply Z.leb_gt; lia).
    do 3 f_equal. lia.
  - apply fmap_seqZ_shift. intros i Hi.
    pose proof (MakeDay_date Y m (1 + i)) as E.
    rewrite newDate_MakeDay by (fold Y; lia). fold Y. rewrite E.
    unfold firstOfMonth.
    replace ((w <=? 0 + w + i) && (0 + w + i <? w + n)) with true
      by (symmetry; apply andb_true_iff; split;
          [apply Z.leb_le|apply Z.ltb_lt]; lia).
    do 3 f_equal. lia.
  - apply fmap_seqZ_shift. intros i Hi.
    pose proof (MakeDay_month_succ Y m (1 + i) Hm) as E. fold n in E.
    rewrite (MakeDay_date Y m) in E.
    rewrite newDate_MakeDay by (fold Y; lia). fold Y. rewrite E.
    unfold firstOfMonth.
    replace ((w <=? 0 + w + n + i) && (0 + w + n + i <? w + n)) with false
      by (symmetry; apply andb_false_iff; right; apply Z.ltb_ge; lia).
    do 3 f_equal. lia.
Qed.

(** What the grid of a month shows: the last days of the month before, the
    days of the month, the first days of the month after. *)
Lemma cellView_monthGrid y m :
  0 <= m <= 11 ->
  let w := startWeekday y m in
  let n := days_in_month y m in
  let p := days_in_month (prevMonthOf y m).1 (prevMonthOf y m).2 in
  cellView <$> monthGrid y m =
  civilRun (prevMonthOf y m) (p - w + 1) w false
  ++ civilRun (y, m) 1 n true
  ++ civilRun (nextMonthOf y m) 1 (42 - w - n) false.
Proof.
  intros Hm w n p.
  pose proof (startWeekday_bound y m) as Hw. fold w in Hw.
  pose proof (days_in_month_bounds y m) as Hn. fold n in Hn.
  pose proof (days_in_month_bounds (prevMonthOf y m).1 (prevMonthOf y m).2) as Hp.
  fold p in Hp.
  pose proof (days_in_month_bounds (nextMonthOf y m).1 (nextMonthOf y m).2) as Hq.
  unfold monthGrid, civilRun. fold w n.
  replace (seqZ 0 42) with (seqZ 0 (w + (n + (42 - w - n)))) by (f_equal; lia).
  rewrite (seqZ_app 0 w), (seqZ_app (0 + w) n), !fmap_app by lia.
  rewrite <- !list_fmap_compose. f_equal; [|f_equal].
  - apply fmap_seqZ_shift. intros i Hi.
    unfold compose, cellView, cellOf, getFullYear, getMonth, getDate;
      cbn [date isCurrentMonth].
    replace (firstOfMonth y m - w + (0 + i))
      with (MakeDay (prevMonthOf y m).1 (prevMonthOf y m).2 (p - w + 1 + i)).
    + destruct (fields_MakeDay (prevMonthOf y m).1 (prevMonthOf y m).2
                  (p - w + 1 + i) 0) as (-> & -> & ->);
        [apply prevMonthOf_bound; exact Hm|fold p; lia|apply msPerDay_pos|].
      f_equal. apply andb_false_iff. left. apply Z.leb_gt. lia.
    + rewrite <- MakeDay_prevMonthOf by exact Hm.
      rewrite MakeDay_month_pred by exact Hm. fold p.
      rewrite (MakeDay_date y m). unfold firstOfMonth. lia.
  - apply fmap_seqZ_shift. intros i Hi.
    unfold compose, cellView, cellOf, getFullYear, getMonth, getDate;
      cbn [date isCurrentMonth].
    replace (firstOfMonth y m - w + (0 + w + i)) with (MakeDay y m (1 + i))
      by (rewrite (MakeDay_date y m); unfold firstOfMonth; lia).
    destruct (fields_MakeDay y m (1 + i) 0) as (-> & -> & ->);
      [exact Hm|fold n; lia|apply msPerDay_pos|].
    f_equal. apply andb_true_iff. split; [apply Z.leb_le|apply Z.ltb_lt]; lia.
  - apply fmap_seqZ_shift. intros i Hi.
    unfold compose, cellView, cellOf, getFullYear, getMonth, getDate;
      cbn [date isCurrentMonth].
    replace (firstOfMonth y m - w + (0 + w + n + i))
      with (MakeDay (nextMonthOf y m).1 (nextMonthOf y m).2 (1 + i)).
    + destruct (fields_MakeDay (nextMonthOf y m).1 (nextMonthOf y m).2
                  (1 + i) 0) as (-> & -> & ->);
        [apply nextMonthOf_bound; exact Hm|lia|apply msPerDay_pos|].
      f_equal. apply andb_false_iff. right. apply Z.ltb_ge. lia.
    + rewrite <- MakeDay_nextMonthOf by exact Hm.
      rewrite MakeDay_month_succ by exact Hm. fold n.
      rewrite (MakeDay_date y m). unfold firstOfMonth. lia.
Qed.

Lemma filter_isCurrentMonth_view cells :
  length (List.filter isCurrentMonth cells) =
  length (List.filter snd (cellView <$> cells)).
Proof.
  induction cells as [|c cells IH]; [reflexivity|].
  simpl. destruct (isCurrentMonth c); simpl; rewrite IH; reflexivity.
Qed.

Lemma filter_civilRun ym d n cur :
  length (List.filter snd (civilRun ym d n cur)) =
  if cur then Z.to_nat n else 0%nat.
Proof.
  unfold civilRun. rewrite <- (length_seqZ d n).
  destruct cur; induction (seqZ d n) as [|x l IH]; try reflexivity;
    rewrite fmap_cons; cbn [List.filter snd length]; rewrite IH; reflexivity.
Qed.

Lemma key_monthGrid y m :
  Forall (fun c => key c = getDateKey (date c)) (monthGrid y m).
Proof.
  unfold monthGrid. apply Forall_fmap, Forall_forall. intros x _. reflexivity.
Qed.

Lemma gridSpec_monthGrid y m : 0 <= m <= 11 -> gridSpec y m (monthGrid y m).
Proof.
  intros Hm. unfold gridSpec. cbv zeta.
  pose proof (days_in_month_bounds y m) as Hn.
  rewrite filter_isCurrentMonth_view, cellView_monthGrid by exact Hm.
  split; [apply length_monthGrid|]. split; [reflexivity|].
  split; [|apply key_monthGrid].
  rewrite !List.filter_app, !length_app, !filter_civilRun. lia.
Qed.

End GridFacts.

Lemma constructorYear_id y : ~ (0 <= y <= 99) -> constructorYear y = y.
Proof.
  intros H. unfold constructorYear.
  destruct (Z.leb_spec 0 y), (Z.leb_spec y 99); simpl; try reflexivity. lia.
Qed.

(** What the code builds for every date whose grid lies within the range
    of time values: the grid of the date's month in the year that the
    [Date] constructor makes of the date's year. *)
Lemma generateCalendarDays_constructorYear (t : Z) :
  -271820 <= constructorYear (getFullYear t) <= 275759 ->
  gridSpec (constructorYear (getFullYear t)) (getMonth t)
           (generateCalendarDays (TimeValue t)).
Proof.
  intros H. pose proof (MonthFromTime_bound t) as Hm.
  rewrite generateCalendarDays_monthGrid by exact H.
  apply gridSpec_monthGrid. exact Hm.
Qed.

(** For a date of a year outside 0..99 this is the grid that C1 describes:
    exactly 42 cells, the cells of the month in one run of [days_in_month]
    cells, after exactly [startWeekday] last days of the month before and
    before the first days of the month after, across the turn of the year as
    well. *)
Lemma grid_of_a_year_outside_0_99 (t : Z) :
  -271820 <= getFullYear t <= 275759 -> ~ (0 <= getFullYear t <= 99) ->
  gridSpec (getFullYear t) (getMonth t) (generateCalendarDays (TimeValue t)).
Proof.
  intros Hr H. rewrite <- (constructorYear_id (getFullYear t) H) at 1.
  apply generateCalendarDays_constructorYear.
  rewrite (constructorYear_id (getFullYear t) H). exact Hr.
Qed.

Lemma grid_of_a_year_outside_0_99_example :
  gridSpec 2024 1 (generateCalendarDays (newDate 2024 1 14)).
Proof.
  assert (Hr : -271820 <= getFullYear (constructorTime 2024 1 14) <= 275759)
    by (vm_compute; split; discriminate).
  assert (Hn : ~ (0 <= getFullYear (constructorTime 2024 1 14) <= 99))
    by (vm_compute; intros [_ H]; apply H; reflexivity).
  exact (grid_of_a_year_outside_0_99 (constructorTime 2024 1 14) Hr Hn).
Qed.

(** C1: the code at the failing input, a date in February of the year 0.
    The year 0 is a leap year, its February has 29 days; the code passes the
    year to [new Date(year, month, day)], where a year from 0 to 99 means
    1900 + year, and builds the grid of February 1900: 28 cells of the
    month, the first of them with the key of the 1st of February 1900,
    under a header that shows the year 0.  The grid is not the one C1
    describes for February of the year 0. *)
Theorem generateCalendarDays_february_of_year_0 :
  let t := MakeDate (MakeDay 0 1 15) 0 in
  let cells := generateCalendarDays (TimeValue t) in
  getFullYear t = 0 /\ getMonth t = 1 /\ getDate t = 15 /\
  days_in_month 0 1 = 29 /\
  length (List.filter isCurrentMonth cells) = 28%nat /\
  key <$> take 1 (List.filter isCurrentMonth cells) = ["1900-02-01"%string] /\
  gridSpec 1900 1 cells /\
  ~ gridSpec 0 1 cells.
Proof.
  cbv zeta.
  split; [vm_compute; reflexivity|]. split; [vm_compute; reflexivity|].
  split; [vm_compute; reflexivity|]. split; [vm_compute; reflexivity|].
  split; [vm_compute; reflexivity|]. split; [vm_compute; reflexivity|].
  split.
  - apply (generateCalendarDays_constructorYear (MakeDate (MakeDay 0 1 15) 0)).
    vm_compute. split; discriminate.
  - intros (_ & _ & H & _). vm_compute in H. discriminate H.
Qed.

Example grid_february_2024 :
  length (List.filter isCurrentMonth
            (generateCalendarDays (newDate 2024 1 1))) = 29%nat.
Proof. vm_compute. reflexivity. Qed.

Example grid_february_2023 :
  length (List.filter isCurrentMonth
            (generateCalendarDays (newDate 2023 1 1))) = 28%nat.
Proof. vm_compute. reflexivity. Qed.

Example grid_december_2023_turn_of_year :
  (fun c => (key c, isCurrentMonth c)) <$>
    drop 35 (generateCalendarDays (newDate 2023 11 25)) =
  [("2023-12-31", true); ("2024-01-01", false); ("2024-01-02", false);
   ("2024-01-03", false); ("2024-01-04", false); ("2024-01-05", false);
   ("2024-01-06", false)]%string.
Proof. vm_compute. reflexivity. Qed.

Example grid_january_2024_turn_of_year :
  (fun c => (key c, isCurrentMonth c)) <$>
    take 2 (generateCalendarDays (newDate 2024 0 15)) =
  [("2023-12-31", false); ("2024-01-01", true)]%string.
Proof. vm_compute. reflexivity. Qed.

(** At the end of the range of time values the dates that the code asks
    for do not exist: in September 275760, whose 13th is the last day that
    has a time value, the last day of the month is the invalid date, no cell
    of the month is made, and the cells after the first are invalid
    dates. *)
Example grid_september_275760 :
  let t := 8639998963200000 in
  let cells := generateCalendarDays (TimeValue t) in
  (getFullYear t, getMonth t, getDate t) = (275760, 8, 1) /\
  length cells = 42%nat /\
  length (List.filter isCurrentMonth cells) = 0%nat /\
  length (List.filter (fun c => String.eqb (key c) "") cells) = 41%nat.
Proof. vm_compute. repeat split. Qed.

(** ** Date keys *)

(** Case analysis on a decimal digit. *)
Ltac digit_cases k :=
  let H := fresh "Hk" in
  assert (H : k = 0 \/ k = 1 \/ k = 2 \/ k = 3 \/ k = 4 \/ k = 5 \/
              k = 6 \/ k = 7 \/ k = 8 \/ k = 9) by lia;
  repeat (destruct H as [H|H]; [rewrite H|]); [..|rewrite H].

Section KeyFacts.

Lemma forallb_seqZ (P : Z -> bool) a n :
  forallb P (seqZ a n) = true -> forall z, a <= z < a + n -> P z = true.
Proof.
  intros H z Hz. rewrite forallb_forall in H. apply H.
  apply list_elem_of_In, elem_of_seqZ. exact Hz.
Qed.

Lemma string_of_uint_digitCons k u :
  0 <= k <= 9 ->
  NilEmpty.string_of_uint (digitCons k u) =
  String (digitChar k) (NilEmpty.string_of_uint u).
Proof. intros H. digit_cases k; reflexivity. Qed.

Lemma revapp_digitCons k u v :
  0 <= k <= 9 ->
  Decimal.revapp (digitCons k u) v = Decimal.revapp u (digitCons k v).
Proof. intros H. digit_cases k; reflexivity. Qed.

Lemma of_lu_digitCons k u :
  0 <= k <= 9 ->
  Z.of_N (DecimalPos.Unsigned.of_lu (digitCons k u)) =
  k + 10 * Z.of_N (DecimalPos.Unsigned.of_lu u).
Proof.
  intros H.
  digit_cases k; cbn [digitCons DecimalPos.Unsigned.of_lu]; lia.
Qed.

Lemma unorm_digitCons k u :
  1 <= k <= 9 -> Decimal.unorm (digitCons k u) = digitCons k u.
Proof.
  intros H.
  assert (Hk : k = 1 \/ k = 2 \/ k = 3 \/ k = 4 \/ k = 5 \/
               k = 6 \/ k = 7 \/ k = 8 \/ k = 9) by lia.
  repeat (destruct Hk as [Hk|Hk]; [rewrite Hk; reflexivity|]).
  rewrite Hk; reflexivity.
Qed.

(** A number of four digits prints as its four digits. *)
Lemma Number_toString_digitsOf y :
  1000 <= y <= 9999 -> Number_toString y = digitsOf 4 y.
Proof.
  intros H.
  set (a := y / 1000). set (b := y mod 1000 / 100).
  set (c := y mod 1000 mod 100 / 10). set (d := y mod 1000 mod 100 mod 10 / 1).
  assert (Ha : 1 <= a <= 9) by (unfold a; Z.div_mod_to_equations; lia).
  assert (Hb : 0 <= b <= 9) by (unfold b; Z.div_mod_to_equations; lia).
  assert (Hc : 0 <= c <= 9) by (unfold c; Z.div_mod_to_equations; lia).
  assert (Hd : 0 <= d <= 9) by (unfold d; Z.div_mod_to_equations; lia).
  assert (Hy : y = d + 10 * (c + 10 * (b + 10 * a)))
    by (unfold a, b, c, d; Z.div_mod_to_equations; lia).
  set (U := digitCons a (digitCons b (digitCons c (digitCons d Nil)))).
  assert (HU : Z.of_int (Pos U) = y).
  { unfold Z.of_int, Z.of_uint. rewrite DecimalPos.Unsigned.of_uint_alt.
    unfold U, Decimal.rev. rewrite !revapp_digitCons by lia.
    cbn [Decimal.revapp]. rewrite !of_lu_digitCons by lia.
    cbn [DecimalPos.Unsigned.of_lu]. lia. }
  unfold Number_toString. rewrite <- HU, DecimalZ.to_of.
  cbn [Decimal.norm]. unfold U at 1. rewrite unorm_digitCons by lia.
  fold U. unfold NilZero.string_of_int, NilZero.string_of_uint.
  assert (HN : NilEmpty.string_of_uint U =
               String (digitChar a) (String (digitChar b)
                 (String (digitChar c) (String (digitChar d) "")))).
  { unfold U. rewrite !string_of_uint_digitCons by lia. reflexivity. }
  replace (match U with Nil => "0"%string | _ => NilEmpty.string_of_uint U end)
    with (NilEmpty.string_of_uint U)
    by (unfold U; clear -Ha; digit_cases a; reflexivity).
  rewrite HN, HU. reflexivity.
Qed.

Lemma zeroPad_digitsOf n : 0 <= n <= 99 -> zeroPad n = digitsOf 2 n.
Proof.
  intros H. apply String.eqb_eq.
  apply (forallb_seqZ (fun n => String.eqb (zeroPad n) (digitsOf 2 n)) 0 100);
    [vm_compute; reflexivity|lia].
Qed.

Lemma getDateKey_isoKey t :
  1000 <= getFullYear t <= 9999 ->
  getDateKey (TimeValue t) = isoKey (getFullYear t) (getMonth t + 1) (getDate t).
Proof.
  intros Hy. unfold getDateKey, isoKey. cbv zeta.
  destruct (civil_of_time t) as (Hm & Hd & _).
  pose proof (days_in_month_bounds (YearFromTime t) (MonthFromTime t)) as Hb.
  unfold getMonth, getDate in *.
  rewrite Number_toString_digitsOf, !zeroPad_digitsOf by lia. reflexivity.
Qed.

Lemma string_app_length s1 s2 :
  String.length (s1 +:+ s2) = (String.length s1 + String.length s2)%nat.
Proof.
  induction s1 as [|a s1 IH]; [reflexivity|].
  change (S (String.length (s1 +:+ s2)) = S (String.length s1 + String.length s2)).
  rewrite IH. reflexivity.
Qed.

(** Two strings with tails of the same length are equal part by part. *)
Lemma string_app_inj_tail s1 s2 t1 t2 :
  String.length t1 = String.length t2 ->
  s1 +:+ t1 = s2 +:+ t2 -> s1 = s2 /\ t1 = t2.
Proof.
  intros Hl. revert s2.
  induction s1 as [|a s1 IH]; intros [|b s2] H.
  - split; [reflexivity|exact H].
  - exfalso. apply (f_equal String.length) in H.
    rewrite !string_app_length in H. simpl in H. lia.
  - exfalso. apply (f_equal String.length) in H.
    rewrite !string_app_length in H. simpl in H. lia.
  - change (String a (s1 +:+ t1) = String b (s2 +:+ t2)) in H.
    injection H as -> H. destruct (IH s2 H) as [-> ->]. split; reflexivity.
Qed.

Lemma Z_to_int_not_nil z : Z.to_int z <> Pos Nil /\ Z.to_int z <> Neg Nil.
Proof.
  pose proof (DecimalZ.to_of (Z.to_int z)) as H. rewrite DecimalZ.of_to in H.
  split; intros E; rewrite E in H; discriminate H.
Qed.

Lemma Number_toString_inj z1 z2 :
  Number_toString z1 = Number_toString z2 -> z1 = z2.
Proof.
  unfold Number_toString. intros H.
  apply DecimalZ.to_int_inj.
  destruct (Z_to_int_not_nil z1) as [H1 H1'], (Z_to_int_not_nil z2) as [H2 H2'].
  pose proof (NilZero.isi _ H1 H1') as E1. pose proof (NilZero.isi _ H2 H2') as E2.
  rewrite H in E1. congruence.
Qed.

Lemma length_digitsOf w n : String.length (digitsOf w n) = w.
Proof. revert n. induction w as [|w IH]; intros n; simpl; [|rewrite IH]; reflexivity. Qed.

Lemma digitsOf_2_inj a b :
  0 <= a <= 99 -> 0 <= b <= 99 -> digitsOf 2 a = digitsOf 2 b -> a = b.
Proof.
  intros Ha Hb H. simpl in H. injection H as H1 H0.
  change (10 ^ 0) with 1 in *. change (10 ^ 1) with 10 in *.
  unfold digitChar in *.
  apply (f_equal N_of_ascii) in H1, H0.
  rewrite !N_ascii_embedding in H1, H0 by (Z.div_mod_to_equations; lia).
  Z.div_mod_to_equations. lia.
Qed.

Lemma getDateKey_fields t :
  let m := getMonth t + 1 in
  let d := getDate t in
  1 <= m <= 12 /\ 1 <= d <= 31 /\
  getDateKey (TimeValue t) =
  Number_toString (getFullYear t) +:+ "-" +:+ digitsOf 2 m +:+ "-" +:+ digitsOf 2 d.
Proof.
  cbv zeta. unfold getDateKey, getMonth, getDate. cbv zeta.
  destruct (civil_of_time t) as (Hm & Hd & _).
  pose proof (days_in_month_bounds (YearFromTime t) (MonthFromTime t)) as Hb.
  unfold getMonth, getDate. rewrite !zeroPad_digitsOf by lia.
  split; [lia|]. split; [lia|]. reflexivity.
Qed.

Lemma key_tail_inj m1 d1 m2 d2 :
  0 <= m1 <= 99 -> 0 <= m2 <= 99 -> 0 <= d1 <= 99 -> 0 <= d2 <= 99 ->
  "-" +:+ digitsOf 2 m1 +:+ "-" +:+ digitsOf 2 d1 =
  "-" +:+ digitsOf 2 m2 +:+ "-" +:+ digitsOf 2 d2 ->
  m1 = m2 /\ d1 = d2.
Proof.
  intros Hm1 Hm2 Hd1 Hd2 H.
  apply (inj (String.app "-")) in H.
  apply string_app_inj_tail in H as [HM HD];
    [|rewrite !string_app_length, !length_digitsOf; reflexivity].
  apply (inj (String.app "-")) in HD.
  split; apply digitsOf_2_inj; assumption.
Qed.

(** Equal keys come from the same calendar day. *)
Lemma getDateKey_inj t1 t2 :
  getDateKey (TimeValue t1) = getDateKey (TimeValue t2) -> Day t1 = Day t2.
Proof.
  destruct (getDateKey_fields t1) as (Hm1 & Hd1 & ->).
  destruct (getDateKey_fields t2) as (Hm2 & Hd2 & ->).
  intros H.
  apply string_app_inj_tail in H as [HY HT];
    [|rewrite !string_app_length, !length_digitsOf; reflexivity].
  apply Number_toString_inj in HY.
  apply key_tail_inj in HT as [HM HD]; try lia.
  apply Day_of_fields; unfold getFullYear, getMonth, getDate in *; lia.
Qed.

(** The key depends on the calendar day only. *)
Lemma getDateKey_Day t1 t2 :
  Day t1 = Day t2 -> getDateKey (TimeValue t1) = getDateKey (TimeValue t2).
Proof.
  intros H. unfold getDateKey, getFullYear, getMonth, getDate.
  rewrite (YearFromTime_Day t1 t2 H), (MonthFromTime_Day t1 t2 H),
    (DateFromTime_Day t1 t2 H). reflexivity.
Qed.

Lemma getDateKey_nonempty t : getDateKey (TimeValue t) <> "".
Proof.
  destruct (getDateKey_fields t) as (_ & _ & ->). intros H.
  apply (f_equal String.length) in H.
  rewrite !string_app_length, !length_digitsOf in H. simpl in H. lia.
Qed.

(** *** Order of the keys *)

Lemma Ascii_compare_digitChar a b :
  0 <= a <= 9 -> 0 <= b <= 9 ->
  Ascii.compare (digitChar a) (digitChar b) = (a ?= b).
Proof.
  intros Ha Hb. unfold Ascii.compare, digitChar.
  rewrite !N_ascii_embedding by lia.
  rewrite <- N2Z.inj_compare, !N2Z.inj_add, !Z2N.id by lia.
  apply Z.add_compare_mono_l.
Qed.

Lemma string_app_nil_r s : s +:+ "" = s.
Proof.
  induction s as [|a s IH]; [reflexivity|].
  change (String a (s +:+ "") = String a s). rewrite IH. reflexivity.
Qed.

Lemma string_compare_cons a s b t :
  String.compare (String a s) (String b t) =
  lexComparison (Ascii.compare a b) (String.compare s t).
Proof. simpl. destruct (Ascii.compare a b); reflexivity. Qed.

Lemma string_compare_dash s t :
  String.compare ("-" +:+ s) ("-" +:+ t) = String.compare s t.
Proof. reflexivity. Qed.

Lemma compare_digitsOf w a b s t :
  0 <= a < 10 ^ Z.of_nat w -> 0 <= b < 10 ^ Z.of_nat w ->
  String.compare (digitsOf w a +:+ s) (digitsOf w b +:+ t) =
  lexComparison (a ?= b) (String.compare s t).
Proof.
  revert a b. induction w as [|w IH]; intros a b Ha Hb.
  - change (10 ^ Z.of_nat 0) with 1 in *.
    assert (a = 0) as -> by lia. assert (b = 0) as -> by lia. reflexivity.
  - rewrite Nat2Z.inj_succ, Z.pow_succ_r in Ha, Hb by lia.
    set (P := 10 ^ Z.of_nat w) in *.
    assert (HP : 0 < P) by (apply Z.pow_pos_nonneg; lia).
    pose proof (Z.div_mod a P ltac:(lia)) as Ea.
    pose proof (Z.div_mod b P ltac:(lia)) as Eb.
    pose proof (Z.mod_pos_bound a P HP) as Ra.
    pose proof (Z.mod_pos_bound b P HP) as Rb.
    assert (Qa : 0 <= a / P <= 9) by (split; [apply Z.div_pos; lia|
      apply Z.lt_succ_r, Z.div_lt_upper_bound; lia]).
    assert (Qb : 0 <= b / P <= 9) by (split; [apply Z.div_pos; lia|
      apply Z.lt_succ_r, Z.div_lt_upper_bound; lia]).
    change (digitsOf (S w) a +:+ s)
      with (String (digitChar (a / P)) (digitsOf w (a mod P) +:+ s)).
    change (digitsOf (S w) b +:+ t)
      with (String (digitChar (b / P)) (digitsOf w (b mod P) +:+ t)).
    rewrite string_compare_cons, Ascii_compare_digitChar, IH by assumption.
    destruct (Z.compare_spec (a / P) (b / P)) as [E|E|E]; simpl.
    + destruct (Z.compare_spec (a mod P) (b mod P)) as [E'|E'|E']; simpl.
      * assert (a = b) as -> by lia. rewrite Z.compare_refl. reflexivity.
      * assert (a < b) as ->%Z.compare_lt_iff by nia. reflexivity.
      * assert (b < a) as ->%Z.compare_gt_iff by nia. reflexivity.
    + assert (a < b) as ->%Z.compare_lt_iff by nia. reflexivity.
    + assert (b < a) as ->%Z.compare_gt_iff by nia. reflexivity.
Qed.

Lemma compare_isoKey y1 m1 d1 y2 m2 d2 :
  0 <= y1 <= 9999 -> 0 <= y2 <= 9999 ->
  0 <= m1 <= 99 -> 0 <= m2 <= 99 -> 0 <= d1 <= 99 -> 0 <= d2 <= 99 ->
  String.compare (isoKey y1 m1 d1) (isoKey y2 m2 d2) =
  lexComparison (y1 ?= y2) (lexComparison (m1 ?= m2) (d1 ?= d2)).
Proof.
  intros Hy1 Hy2 Hm1 Hm2 Hd1 Hd2. unfold isoKey.
  rewrite compare_digitsOf by (simpl; lia). f_equal.
  rewrite string_compare_dash.
  rewrite compare_digitsOf by (simpl; lia). f_equal.
  rewrite string_compare_dash.
  rewrite <- (string_app_nil_r (digitsOf 2 d1)), <- (string_app_nil_r (digitsOf 2 d2)).
  rewrite compare_digitsOf by (simpl; lia).
  destruct (d1 ?= d2); reflexivity.
Qed.

Lemma monthStart_mono b m1 m2 :
  0 <= m1 -> m1 <= m2 -> m2 <= 11 -> monthStart b m1 <= monthStart b m2.
Proof.
  intros H1 H12 H2. month_cases m1; month_cases m2; destruct b; simpl; lia.
Qed.

(** Days of the civil calendar are ordered as their (year, month, day). *)
Lemma MakeDay_compare y1 m1 d1 y2 m2 d2 :
  0 <= m1 <= 11 -> 1 <= d1 <= days_in_month y1 m1 ->
  0 <= m2 <= 11 -> 1 <= d2 <= days_in_month y2 m2 ->
  (MakeDay y1 m1 d1 ?= MakeDay y2 m2 d2) =
  lexComparison (y1 ?= y2) (lexComparison (m1 ?= m2) (d1 ?= d2)).
Proof.
  intros Hm1 Hd1 Hm2 Hd2.
  pose proof (DayFromYear_monthStart_bound y1 m1 d1 Hm1 Hd1) as B1.
  pose proof (DayFromYear_monthStart_bound y2 m2 d2 Hm2 Hd2) as B2.
  rewrite !MakeDay_norm by assumption.
  destruct (Z.compare_spec y1 y2) as [E|E|E]; simpl.
  - subst y2.
    destruct (Z.compare_spec m1 m2) as [E|E|E]; simpl.
    + subst m2. destruct (Z.compare_spec d1 d2);
        [apply Z.compare_eq_iff|apply Z.compare_lt_iff|apply Z.compare_gt_iff];
        lia.
    + apply Z.compare_lt_iff.
      pose proof (monthStart_mono (leap_year y1) (m1 + 1) m2) as Hmono.
      rewrite monthStart_succ in Hmono by lia.
      unfold days_in_month in Hd1. lia.
    + apply Z.compare_gt_iff.
      pose proof (monthStart_mono (leap_year y1) (m2 + 1) m1) as Hmono.
      rewrite monthStart_succ in Hmono by lia.
      unfold days_in_month in Hd2. lia.
  - apply Z.compare_lt_iff.
    pose proof (DayFromYear_mono (y1 + 1) y2 ltac:(lia)) as Hmono.
    rewrite DayFromYear_succ in Hmono. lia.
  - apply Z.compare_gt_iff.
    pose proof (DayFromYear_mono (y2 + 1) y1 ltac:(lia)) as Hmono.
    rewrite DayFromYear_succ in Hmono. lia.
Qed.

(** For years written with four digits the keys are ordered as the days. *)
Lemma getDateKey_compare t1 t2 :
  1000 <= getFullYear t1 <= 9999 -> 1000 <= getFullYear t2 <= 9999 ->
  String.compare (getDateKey (TimeValue t1)) (getDateKey (TimeValue t2)) =
  (Day t1 ?= Day t2).
Proof.
  intros Hy1 Hy2. rewrite !getDateKey_isoKey by assumption.
  destruct (civil_of_time t1) as (Hm1 & Hd1 & ->).
  destruct (civil_of_time t2) as (Hm2 & Hd2 & ->).
  pose proof (days_in_month_bounds (YearFromTime t1) (MonthFromTime t1)).
  pose proof (days_in_month_bounds (YearFromTime t2) (MonthFromTime t2)).
  unfold getFullYear, getMonth, getDate in *.
  rewrite compare_isoKey, MakeDay_compare by (assumption || lia).
  rewrite !(Z.add_comm _ 1), Z.add_compare_mono_l. reflexivity.
Qed.

End KeyFacts.

(** C9, as stated, fails: the year is not padded, so the last day of the
    year 9999 has a key that sorts after the key of the first day of the
    year 10000 (and that key is not of the form YYYY-MM-DD). *)
Lemma getDateKey_order_year_10000 :
  let t1 := constructorTime 9999 11 31 in
  let t2 := constructorTime 10000 0 1 in
  Day t1 < Day t2 /\
  getDateKey (TimeValue t1) = "9999-12-31"%string /\
  getDateKey (TimeValue t2) = "10000-01-01"%string /\
  String.compare (getDateKey (TimeValue t1)) (getDateKey (TimeValue t2)) = Gt /\
  ~ keyOrderAgrees t1 t2.
Proof.
  cbv zeta.
  split; [vm_compute; reflexivity|]. split; [vm_compute; reflexivity|].
  split; [vm_compute; reflexivity|]. split; [vm_compute; reflexivity|].
  unfold keyOrderAgrees. intros H. vm_compute in H. discriminate H.
Qed.

(** C9, amended: two dates have the same key exactly when they lie on the
    same calendar day, whatever their time of day (the key is stable and
    injective over calendar days); and for years written with four digits
    (1000..9999) the key has the form YYYY-MM-DD and the keys are ordered,
    as strings, like the days. *)
Theorem getDateKey_stable_injective_ordered (t1 t2 : Z) :
  (Day t1 = Day t2 <-> getDateKey (TimeValue t1) = getDateKey (TimeValue t2)) /\
  (1000 <= getFullYear t1 <= 9999 -> 1000 <= getFullYear t2 <= 9999 ->
   getDateKey (TimeValue t1) =
     isoKey (getFullYear t1) (getMonth t1 + 1) (getDate t1) /\
   keyOrderAgrees t1 t2).
Proof.
  split.
  - split; [apply getDateKey_Day|apply getDateKey_inj].
  - intros H1 H2. split; [apply getDateKey_isoKey; exact H1|].
    apply getDateKey_compare; assumption.
Qed.

Lemma getDateKey_stable_injective_ordered_witness :
  let t1 := constructorTime 2023 11 31 in
  let t2 := constructorTime 2024 0 1 + 3600000 in
  (1000 <= getFullYear t1 <= 9999) /\ (1000 <= getFullYear t2 <= 9999) /\
  getDateKey (TimeValue t1) = "2023-12-31"%string /\
  getDateKey (TimeValue t2) = "2024-01-01"%string /\
  String.compare (getDateKey (TimeValue t1)) (getDateKey (TimeValue t2)) = Lt /\
  keyOrderAgrees t1 t2.
Proof.
  cbv zeta.
  assert (H1 : 1000 <= getFullYear (constructorTime 2023 11 31) <= 9999)
    by (vm_compute; split; discriminate).
  assert (H2 : 1000 <= getFullYear (constructorTime 2024 0 1 + 3600000) <= 9999)
    by (vm_compute; split; discriminate).
  split; [exact H1|]. split; [exact H2|].
  split; [vm_compute; reflexivity|]. split; [vm_compute; reflexivity|].
  split; [vm_compute; reflexivity|].
  exact (proj2 (proj2 (getDateKey_stable_injective_ordered _ _) H1 H2)).
Defined.

(** ** The handlers *)

Section HandlerFacts.

Lemma completedDays_setCompletedDays arg st :
  completedDays (setCompletedDays arg st) =
  match arg with Updater f => f (completedDays st) | NewValue v => v end.
Proof. destruct arg; reflexivity. Qed.

Lemma toggleKey_twice k v :
  spread v !! k = None \/ spread v !! k = Some (JBool true) ->
  toggleKey k (toggleKey k v) = JObj (spread v).
Proof.
  intros [H|H]; unfold toggleKey; rewrite H; cbn [truthyProp truthy spread].
  - rewrite lookup_insert_eq. cbn [truthyProp truthy].
    rewrite delete_insert_eq, delete_id by exact H. reflexivity.
  - rewrite lookup_delete_eq. cbn [truthyProp].
    rewrite insert_delete_eq, insert_id by exact H. reflexivity.
Qed.

Lemma handleDayClick_completedDays d st :
  completedDays (handleDayClick d st) =
  if isEmptyString (getDateKey d) then completedDays st
  else toggleKey (getDateKey d) (completedDays st).
Proof.
  unfold handleDayClick. cbv zeta.
  destruct (isEmptyString (getDateKey d)); reflexivity.
Qed.

End HandlerFacts.

(** C7: clicking a day twice brings the completion map back: when the key
    of the day is absent, or present with the value [true] (as in every
    completion map), the map after the two clicks has the same entries as
    before, so the key is absent again, or present again with [true]. *)
Theorem handleDayClick_twice (d : Date) (st : AppState) :
  let k := getDateKey d in
  let m := spread (completedDays st) in
  let m2 := spread (completedDays (handleDayClick d (handleDayClick d st))) in
  m !! k = None \/ m !! k = Some (JBool true) ->
  m2 = m /\ m2 !! k = m !! k.
Proof.
  cbv zeta. intros H.
  assert (E : spread (completedDays (handleDayClick d (handleDayClick d st)))
              = spread (completedDays st)).
  { rewrite !handleDayClick_completedDays.
    destruct (isEmptyString (getDateKey d)); [reflexivity|].
    rewrite toggleKey_twice by exact H. reflexivity. }
  rewrite E. split; reflexivity.
Qed.

Lemma handleDayClick_twice_witness :
  let d := TimeValue (constructorTime 2024 0 5) in
  let st := handleDayClick (TimeValue (constructorTime 2024 0 3)) emptyState in
  spread (completedDays st) !! getDateKey d = None /\
  spread (completedDays (handleDayClick d st)) !! getDateKey d = Some (JBool true) /\
  spread (completedDays (handleDayClick d (handleDayClick d st))) =
    spread (completedDays st).
Proof.
  cbv zeta.
  assert (H : spread (completedDays
                (handleDayClick (TimeValue (constructorTime 2024 0 3)) emptyState))
              !! getDateKey (TimeValue (constructorTime 2024 0 5)) = None)
    by (vm_compute; reflexivity).
  split; [exact H|]. split; [vm_compute; reflexivity|].
  exact (proj1 (handleDayClick_twice _ _ (or_introl H))).
Defined.

(** The second day of a pair of clicks on a key stored with a falsy value
    does not come back: [false] becomes [true], then the key is deleted. *)
Example toggle_twice_falsy_value :
  let k := "2024-01-05"%string in
  let st := setStoredCompletedDays (JObj {[ k := JBool false ]}) emptyState in
  let d := TimeValue (constructorTime 2024 0 5) in
  getDateKey d = k /\
  spread (completedDays (handleDayClick d (handleDayClick d st))) !! k = None.
Proof. cbv zeta. split; vm_compute; reflexivity. Qed.

(** *** Mark all *)

Section MarkAllFacts.

Lemma markCell_cases acc c :
  markCell acc c =
  if toMark c && negb (truthyProp (acc.1 !! getDateKey (date c)))
  then (<[getDateKey (date c) := JBool true]> acc.1, true)
  else acc.
Proof.
  unfold markCell, toMark. cbv zeta.
  destruct (isCurrentMonth c), (isEmptyString (getDateKey (date c)));
    reflexivity.
Qed.

Lemma markCell_truthy_mono acc c k :
  truthyProp (acc.1 !! k) = true ->
  truthyProp ((markCell acc c).1 !! k) = true.
Proof.
  intros H. rewrite markCell_cases.
  destruct (toMark c && negb (truthyProp (acc.1 !! getDateKey (date c))));
    [|exact H].
  cbn [fst]. destruct (decide (getDateKey (date c) = k)) as [->|Hne].
  - rewrite lookup_insert_eq. reflexivity.
  - rewrite lookup_insert_ne by exact Hne. exact H.
Qed.

Lemma markCell_marks acc c :
  toMark c = true ->
  truthyProp ((markCell acc c).1 !! getDateKey (date c)) = true.
Proof.
  intros H. rewrite markCell_cases, H. cbn [andb].
  destruct (truthyProp (acc.1 !! getDateKey (date c))) eqn:E; cbn [negb fst].
  - exact E.
  - rewrite lookup_insert_eq. reflexivity.
Qed.

Lemma foldl_markCell_truthy_mono cells acc k :
  truthyProp (acc.1 !! k) = true ->
  truthyProp ((foldl markCell acc cells).1 !! k) = true.
Proof.
  revert acc. induction cells as [|c cells IH]; intros acc H; [exact H|].
  cbn [foldl]. apply IH, markCell_truthy_mono, H.
Qed.

(** After the loop every cell to mark is marked. *)
Lemma foldl_markCell_marks cells acc c :
  c ∈ cells -> toMark c = true ->
  truthyProp ((foldl markCell acc cells).1 !! getDateKey (date c)) = true.
Proof.
  revert acc. induction cells as [|c' cells IH]; intros acc Hin Hc.
  - inversion Hin.
  - cbn [foldl]. apply elem_of_cons in Hin as [->|Hin].
    + apply foldl_markCell_truthy_mono, markCell_marks, Hc.
    + apply IH; assumption.
Qed.

(** When all is marked already the loop changes nothing. *)
Lemma foldl_markCell_noop cells m ch :
  allMarked cells m -> foldl markCell (m, ch) cells = (m, ch).
Proof.
  induction cells as [|c cells IH]; intros H; [reflexivity|].
  cbn [foldl]. rewrite markCell_cases. cbn [fst].
  destruct (toMark c) eqn:Hc; cbn [andb].
  - rewrite (H c) by (try exact Hc; apply elem_of_cons; left; reflexivity).
    cbn [negb]. apply IH. intros c' Hin. apply H, elem_of_cons. right. exact Hin.
  - apply IH. intros c' Hin. apply H, elem_of_cons. right. exact Hin.
Qed.

(** The flag [changed], once set, stays set; while it is off the map is
    the one the loop started with. *)
Lemma foldl_markCell_flag cells m :
  (foldl markCell (m, true) cells).2 = true.
Proof.
  revert m. induction cells as [|c cells IH]; intros m; [reflexivity|].
  cbn [foldl]. rewrite markCell_cases. cbn [fst].
  destruct (toMark c && negb (truthyProp (m !! getDateKey (date c)))); apply IH.
Qed.

Lemma foldl_markCell_unchanged cells m0 m :
  foldl markCell (m0, false) cells = (m, false) -> m = m0.
Proof.
  revert m0. induction cells as [|c cells IH]; intros m0 E.
  - cbn in E. congruence.
  - cbn [foldl] in E. rewrite markCell_cases in E. cbn [fst] in E.
    destruct (toMark c && negb (truthyProp (m0 !! getDateKey (date c)))).
    + pose proof (foldl_markCell_flag cells
                    (<[getDateKey (date c):=JBool true]> m0)) as Hf.
      rewrite E in Hf. discriminate Hf.
    + exact (IH _ E).
Qed.

Lemma markAll_noop cells v :
  allMarked cells (spread v) -> markAll cells v = v.
Proof.
  intros H. unfold markAll. cbv zeta.
  rewrite foldl_markCell_noop by exact H. reflexivity.
Qed.

Lemma allMarked_markAll cells v : allMarked cells (spread (markAll cells v)).
Proof.
  unfold markAll. cbv zeta.
  destruct (foldl markCell (spread v, false) cells) as [m ch] eqn:E.
  cbn [fst snd]. destruct ch.
  - cbn [spread]. intros c Hin Hc.
    pose proof (foldl_markCell_marks cells (spread v, false) c Hin Hc) as H.
    rewrite E in H. exact H.
  - intros c Hin Hc.
    pose proof (foldl_markCell_marks cells (spread v, false) c Hin Hc) as H.
    rewrite E in H. cbn [fst] in H.
    rewrite <- (foldl_markCell_unchanged cells (spread v) m E). exact H.
Qed.

Lemma markAll_idempotent cells v :
  markAll cells (markAll cells v) = markAll cells v.
Proof. apply markAll_noop, allMarked_markAll. Qed.

Lemma handleMarkAll_completedDays cells st :
  completedDays (handleMarkAll cells st) = markAll cells (completedDays st).
Proof. reflexivity. Qed.

Lemma handleMarkAll_storageWrites cells st :
  storageWrites (handleMarkAll cells st) =
  (LOCAL_STORAGE_KEYS_COMPLETED_DAYS, markAll cells (completedDays st))
    :: storageWrites st.
Proof. reflexivity. Qed.

Lemma handleMarkAll_localStorage cells st :
  localStorage (handleMarkAll cells st) =
  <[LOCAL_STORAGE_KEYS_COMPLETED_DAYS := markAll cells (completedDays st)]>
    (localStorage st).
Proof. reflexivity. Qed.

End MarkAllFacts.

(** C8, as stated, fails in its second part: with every cell of the month
    completed already, [handleMarkAll] leaves the completion map as it is
    but [setValue] still calls [localStorage.setItem]. *)
Lemma handleMarkAll_writes_again :
  let st1 := handleMarkAll february2024 emptyState in
  let st2 := handleMarkAll february2024 st1 in
  allMarked february2024 (spread (completedDays st1)) /\
  completedDays st2 = completedDays st1 /\
  storageWrites st2 =
    (LOCAL_STORAGE_KEYS_COMPLETED_DAYS, completedDays st1) :: storageWrites st1 /\
  storageWrites st2 <> storageWrites st1.
Proof.
  cbv zeta. rewrite !handleMarkAll_completedDays, !handleMarkAll_storageWrites.
  rewrite markAll_idempotent.
  split; [apply allMarked_markAll|]. split; [reflexivity|].
  split; [reflexivity|].
  intros H. apply (f_equal length) in H. cbn [length] in H. lia.
Qed.

(** C8, amended: [handleMarkAll] is idempotent on the completion map, and
    when every cell of the month is completed already it leaves the
    completion map as it is; the store is written all the same, with the
    same value. *)
Theorem handleMarkAll_idempotent (cells : list CalendarCell) (st : AppState) :
  completedDays (handleMarkAll cells (handleMarkAll cells st)) =
    completedDays (handleMarkAll cells st) /\
  (allMarked cells (spread (completedDays st)) ->
   completedDays (handleMarkAll cells st) = completedDays st /\
   storageWrites (handleMarkAll cells st) =
     (LOCAL_STORAGE_KEYS_COMPLETED_DAYS, completedDays st) :: storageWrites st /\
   localStorage (handleMarkAll cells st) =
     <[LOCAL_STORAGE_KEYS_COMPLETED_DAYS := completedDays st]> (localStorage st)).
Proof.
  split.
  - rewrite !handleMarkAll_completedDays. apply markAll_idempotent.
  - intros H.
    rewrite handleMarkAll_completedDays, handleMarkAll_storageWrites,
      handleMarkAll_localStorage.
    rewrite (markAll_noop cells (completedDays st) H).
    split; [reflexivity|]. split; reflexivity.
Qed.

Lemma handleMarkAll_idempotent_witness :
  let st1 := handleMarkAll february2024 emptyState in
  allMarked february2024 (spread (completedDays st1)) /\
  completedDays (handleMarkAll february2024 st1) = completedDays st1 /\
  length (storageWrites (handleMarkAll february2024 st1)) = 2%nat.
Proof.
  cbv zeta.
  assert (H : allMarked february2024
                (spread (completedDays (handleMarkAll february2024 emptyState))))
    by (rewrite handleMarkAll_completedDays; apply allMarked_markAll).
  split; [exact H|].
  destruct (proj2 (handleMarkAll_idempotent february2024
                     (handleMarkAll february2024 emptyState)) H) as (E1 & E2 & _).
  split; [exact E1|]. rewrite E2. reflexivity.
Defined.

Example handleMarkAll_february2024 :
  size (spread (completedDays (handleMarkAll february2024 emptyState))) = 29%nat.
Proof. vm_compute. reflexivity. Qed.

(** *** The invariant of the completion map *)

Section InvariantFacts.

Lemma completionInv_JObj m :
  (forall k x, m !! k = Some x -> x = JBool true) -> completionInv (JObj m).
Proof. intros H. exists m. split; [reflexivity|exact H]. Qed.

Lemma toggleKey_inv k v : completionInv v -> completionInv (toggleKey k v).
Proof.
  intros (m & -> & H). unfold toggleKey. cbn [spread].
  destruct (truthyProp (m !! k)); apply completionInv_JObj; intros k' x Hx.
  - apply lookup_delete_Some in Hx as [_ Hx]. exact (H _ _ Hx).
  - apply lookup_insert_Some in Hx as [[_ <-]|[_ Hx]];
      [reflexivity|exact (H _ _ Hx)].
Qed.

Lemma foldl_markCell_inv cells acc :
  (forall k x, acc.1 !! k = Some x -> x = JBool true) ->
  forall k x, (foldl markCell acc cells).1 !! k = Some x -> x = JBool true.
Proof.
  revert acc. induction cells as [|c cells IH]; intros acc H; [exact H|].
  cbn [foldl]. apply IH. rewrite markCell_cases.
  destruct (toMark c && negb (truthyProp (acc.1 !! getDateKey (date c))));
    [|exact H].
  cbn [fst]. intros k x Hx.
  apply lookup_insert_Some in Hx as [[_ <-]|[_ Hx]];
    [reflexivity|exact (H _ _ Hx)].
Qed.

Lemma markAll_inv cells v : completionInv v -> completionInv (markAll cells v).
Proof.
  intros Hv. pose proof Hv as (m & -> & H). unfold markAll. cbv zeta.
  destruct ((foldl markCell (spread (JObj m), false) cells).2); [|exact Hv].
  apply completionInv_JObj, foldl_markCell_inv. exact H.
Qed.

Lemma foldl_delete_inv (ks : list string) (m : gmap string JSValue) :
  (forall k x, m !! k = Some x -> x = JBool true) ->
  forall k x,
    foldl (fun newCompleted k => delete k newCompleted) m ks !! k = Some x ->
    x = JBool true.
Proof.
  revert m. induction ks as [|k0 ks IH]; intros m H; [exact H|].
  cbn [foldl]. apply IH. intros k x Hx.
  apply lookup_delete_Some in Hx as [_ Hx]. exact (H _ _ Hx).
Qed.

Lemma resetKeys_inv ks v : completionInv v -> completionInv (resetKeys ks v).
Proof.
  intros (m & -> & H). unfold resetKeys. cbn [spread].
  apply completionInv_JObj, foldl_delete_inv, H.
Qed.

Lemma handleResetMonth_completedDays cells confirmed st :
  completedDays (handleResetMonth cells confirmed st) = completedDays st \/
  exists ks, completedDays (handleResetMonth cells confirmed st) =
             resetKeys ks (completedDays st).
Proof.
  unfold handleResetMonth. cbv zeta.
  set (ks := List.filter _ _).
  destruct (completedDays st) eqn:E, ks as [|k0 ks'];
    try (left; rewrite ?E; reflexivity);
    match goal with
    | |- context [if negb ?b then _ else _] => destruct b; cbn [negb]
    end; try (left; cbn; rewrite ?E; reflexivity);
    destruct confirmed; try (left; rewrite ?E; reflexivity);
    right; eexists; rewrite completedDays_setCompletedDays, E; reflexivity.
Qed.

End InvariantFacts.

(** *** Import *)

Section ImportFacts.

Variable JSON_parse : string -> string + JSValue.

Lemma sameData_window_alert msg st : sameData st (window_alert msg st).
Proof. repeat split. Qed.

Lemma sameData_refl st : sameData st st.
Proof. repeat split. Qed.

(** What passes the test of the code: both fields are there and have the
    type ["object"]. *)
Lemma importShapeOk_fields data :
  importShapeOk data = true ->
  exists days notes,
    getProp data "completedDays" = Some days /\
    getProp data "monthlyNotes" = Some notes /\
    typeof (Some days) = TObject /\ typeof (Some notes) = TObject.
Proof.
  unfold importShapeOk.
  destruct data as [|b|x|s|l|m]; cbn [truthy getProp typeof isObjectType];
    rewrite ?andb_false_r; try discriminate.
  cbn [andb].
  destruct (m !! "completedDays"%string) as [[]|],
           (m !! "monthlyNotes"%string) as [[]|];
    try discriminate; intros _; do 2 eexists; repeat split.
Qed.

(** The test of the code accepts every shape that the specification asks
    for; it accepts more: [null] and arrays have the type ["object"]. *)
Lemma specShapeOk_importShapeOk data :
  specShapeOk data = true -> importShapeOk data = true.
Proof.
  unfold importShapeOk, specShapeOk, hasObjectField.
  destruct data as [|b|x|s|l|m]; try discriminate.
  cbn [truthy getProp andb].
  destruct (m !! "completedDays"%string) as [[]|],
           (m !! "monthlyNotes"%string) as [[]|];
    try discriminate; reflexivity.
Qed.

Lemma handleImport_malformed jsonData confirmed st message :
  JSON_parse jsonData = inl message ->
  handleImport JSON_parse jsonData confirmed st =
  window_alert (importFailure message) st.
Proof. intros H. unfold handleImport. rewrite H. reflexivity. Qed.

Lemma handleImport_mismatch jsonData confirmed st data :
  JSON_parse jsonData = inr data -> importShapeOk data = false ->
  handleImport JSON_parse jsonData confirmed st =
  window_alert (importFailure invalidDataFormat) st.
Proof.
  intros H Hs. unfold handleImport. rewrite H, Hs. reflexivity.
Qed.

Lemma handleImport_declined jsonData st data :
  JSON_parse jsonData = inr data -> importShapeOk data = true ->
  handleImport JSON_parse jsonData false st = st.
Proof.
  intros H Hs. unfold handleImport. rewrite H, Hs. reflexivity.
Qed.

(** A confirmed import of data that pass the test replaces both maps by
    the fields of the data, as they are. *)
Lemma handleImport_confirmed jsonData st data days notes :
  JSON_parse jsonData = inr data -> importShapeOk data = true ->
  getProp data "completedDays" = Some days ->
  getProp data "monthlyNotes" = Some notes ->
  let st' := handleImport JSON_parse jsonData true st in
  completedDays st' = days /\ monthlyNotes st' = notes /\
  localStorage st' =
    <[LOCAL_STORAGE_KEYS_MONTHLY_NOTES := notes]>
      (<[LOCAL_STORAGE_KEYS_COMPLETED_DAYS := days]> (localStorage st)) /\
  alerts st' = "Data imported successfully!"%string :: alerts st.
Proof.
  intros H Hs Hd Hn. cbv zeta. unfold handleImport.
  rewrite H, Hs, Hd, Hn. repeat split.
Qed.

(** What an import does to the completion map: nothing, or the map becomes
    the [completedDays] field of the data. *)
Lemma handleImport_completedDays jsonData confirmed st :
  let st' := handleImport JSON_parse jsonData confirmed st in
  completedDays st' = completedDays st \/
  exists data days,
    JSON_parse jsonData = inr data /\
    getProp data "completedDays" = Some days /\
    typeof (Some days) = TObject /\ completedDays st' = days.
Proof.
  cbv zeta. destruct (JSON_parse jsonData) as [message|data] eqn:H.
  - left. rewrite (handleImport_malformed _ _ _ _ H). reflexivity.
  - destruct (importShapeOk data) eqn:Hs.
    + destruct confirmed.
      * right. destruct (importShapeOk_fields data Hs) as (days & notes & Hd & Hn & Td & _).
        exists data, days. split; [reflexivity|]. split; [exact Hd|].
        split; [exact Td|].
        apply (handleImport_confirmed jsonData st data days notes H Hs Hd Hn).
      * left. rewrite (handleImport_declined _ _ _ H Hs). reflexivity.
    + left. rewrite (handleImport_mismatch _ _ _ _ H Hs). reflexivity.
Qed.

(** The failures of an import: the message of the syntax error when the
    text is not JSON, the message [Invalid data format.] when the parsed
    value does not pass the test of the code; either way the completion
    map, the notes and the store are as before. *)
Lemma handleImport_rejected jsonData confirmed st :
  let st' := handleImport JSON_parse jsonData confirmed st in
  (forall message, JSON_parse jsonData = inl message ->
     alerts st' = importFailure message :: alerts st /\ sameData st st') /\
  (forall data, JSON_parse jsonData = inr data -> importShapeOk data = false ->
     alerts st' = importFailure invalidDataFormat :: alerts st /\ sameData st st').
Proof.
  cbv zeta. split.
  - intros message H. rewrite (handleImport_malformed _ _ _ _ H).
    split; [reflexivity|apply sameData_window_alert].
  - intros data H Hs. rewrite (handleImport_mismatch _ _ _ _ H Hs).
    split; [reflexivity|apply sameData_window_alert].
Qed.

End ImportFacts.

Example handleImport_rejected_examples :
  let st := handleDayClick (TimeValue (constructorTime 2024 0 5)) emptyState in
  let malformed := json "{'completedDays': {'2024-01-01': true" in
  let mismatch := json "{'completedDays': {'2024-01-01': true}, 'monthlyNotes': 'none'}" in
  (exists message,
     handleImport parseJSON malformed true st =
     window_alert (importFailure message) st) /\
  handleImport parseJSON mismatch true st =
  window_alert (importFailure invalidDataFormat) st.
Proof.
  cbv zeta. split; [eexists|]; vm_compute; reflexivity.
Qed.

(** C4: the code at the failing input, a text whose [completedDays] is
    [null] (and whose [monthlyNotes] is an array).  The data have not the
    shape that the specification asks for, an object for each field; but
    [typeof null] and the type of an array are ["object"], the test of the
    code passes: the import is confirmed as a success, [null] replaces the
    completion map and is written to the store, and the statistics of the
    next render throw in [Object.keys(null)]. *)
Theorem handleImport_null_completedDays
    (JSON_parse : string -> string + JSValue) (jsonData : string)
    (st : AppState) (Date_parse_other : string -> Date)
    (calendarDays : list CalendarCell) (clock1 clock2 : Z) :
  let data := JObj (<["completedDays"%string := JNull]>
                      (<["monthlyNotes"%string := JArr []]> ∅)) in
  JSON_parse jsonData = inr data ->
  let st' := handleImport JSON_parse jsonData true st in
  specShapeOk data = false /\
  alerts st' = "Data imported successfully!"%string :: alerts st /\
  completedDays st' = JNull /\ monthlyNotes st' = JArr [] /\
  localStorage st' !! LOCAL_STORAGE_KEYS_COMPLETED_DAYS = Some JNull /\
  statsOfState Date_parse_other st' calendarDays clock1 clock2 = None.
Proof.
  cbv zeta. intros H.
  destruct (handleImport_confirmed JSON_parse jsonData st _ JNull (JArr []) H)
    as (Hd & Hn & Hl & Ha);
    [vm_compute; reflexivity|vm_compute; reflexivity|vm_compute; reflexivity|].
  split; [vm_compute; reflexivity|]. split; [exact Ha|].
  split; [exact Hd|]. split; [exact Hn|]. split.
  - rewrite Hl. rewrite lookup_insert_ne by discriminate.
    apply lookup_insert_eq.
  - unfold statsOfState. rewrite Hd. reflexivity.
Qed.

Lemma handleImport_null_completedDays_witness :
  let text := json "{'completedDays': null, 'monthlyNotes': []}" in
  let st := handleDayClick (TimeValue (constructorTime 2024 0 5)) emptyState in
  let st' := handleImport parseJSON text true st in
  parseJSON text = inr (JObj (<["completedDays"%string := JNull]>
                               (<["monthlyNotes"%string := JArr []]> ∅))) /\
  completedDays st = JObj {[ "2024-01-05"%string := JBool true ]} /\
  completedDays st' = JNull /\
  alerts st' = ["Data imported successfully!"%string] /\
  statsOfState (fun _ => InvalidDate) st' january2024
    (constructorTime 2024 0 5) (constructorTime 2024 0 5) = None.
Proof.
  cbv zeta.
  assert (H : parseJSON (json "{'completedDays': null, 'monthlyNotes': []}")
              = inr (JObj (<["completedDays"%string := JNull]>
                             (<["monthlyNotes"%string := JArr []]> ∅))))
    by (vm_compute; reflexivity).
  destruct (handleImport_null_completedDays parseJSON _
              (handleDayClick (TimeValue (constructorTime 2024 0 5)) emptyState)
              (fun _ => InvalidDate) january2024
              (constructorTime 2024 0 5) (constructorTime 2024 0 5) H)
    as (_ & Ha & Hd & _ & _ & Hs).
  split; [exact H|]. split; [vm_compute; reflexivity|].
  split; [exact Hd|]. split; [rewrite Ha; vm_compute; reflexivity|]. exact Hs.
Defined.

(** C10, as stated, fails for import: the [completedDays] field of the data
    is stored as it is, here with an explicit [false]. *)
Lemma handleImport_stores_false :
  let text := json "{'completedDays': {'2024-01-01': false}, 'monthlyNotes': {}}" in
  let st' := handleImport parseJSON text true emptyState in
  completionInv (completedDays emptyState) /\
  completedDays st' = JObj {[ "2024-01-01"%string := JBool false ]} /\
  ~ completionInv (completedDays st').
Proof.
  cbv zeta.
  assert (E : completedDays
                (handleImport parseJSON
                   (json "{'completedDays': {'2024-01-01': false}, 'monthlyNotes': {}}")
                   true emptyState)
              = JObj {[ "2024-01-01"%string := JBool false ]})
    by (vm_compute; reflexivity).
  split.
  - apply completionInv_JObj. intros k x Hx. rewrite lookup_empty in Hx.
    discriminate Hx.
  - split; [exact E|]. rewrite E. intros (m & Hm & H).
    injection Hm as <-.
    specialize (H "2024-01-01"%string (JBool false) (lookup_singleton_eq _ _)).
    discriminate H.
Qed.

(** C10, amended: from a completion map whose values are all [true],
    toggle, mark-all and reset-month lead to such a map again (a day is
    un-completed by deleting its key); an import leaves the map as it is or
    replaces it by the [completedDays] field of the imported data, whatever
    the values of that field are. *)
Theorem completionInv_preserved (st : AppState) :
  completionInv (completedDays st) ->
  (forall d, completionInv (completedDays (handleDayClick d st))) /\
  (forall cells, completionInv (completedDays (handleMarkAll cells st))) /\
  (forall cells confirmed,
     completionInv (completedDays (handleResetMonth cells confirmed st))) /\
  (forall JSON_parse jsonData confirmed,
     let st' := handleImport JSON_parse jsonData confirmed st in
     completedDays st' = completedDays st \/
     exists data days,
       JSON_parse jsonData = inr data /\
       getProp data "completedDays" = Some days /\
       typeof (Some days) = TObject /\ completedDays st' = days).
Proof.
  intros Hinv. split; [|split; [|split]].
  - intros d. rewrite handleDayClick_completedDays.
    destruct (isEmptyString (getDateKey d)); [exact Hinv|].
    apply toggleKey_inv, Hinv.
  - intros cells. rewrite handleMarkAll_completedDays. apply markAll_inv, Hinv.
  - intros cells confirmed.
    destruct (handleResetMonth_completedDays cells confirmed st) as [->|[ks ->]];
      [exact Hinv|apply resetKeys_inv, Hinv].
  - intros JSON_parse jsonData confirmed. apply handleImport_completedDays.
Qed.

Lemma completionInv_preserved_witness :
  let st := handleMarkAll february2024 emptyState in
  completionInv (completedDays st) /\
  completionInv (completedDays (handleDayClick (TimeValue (constructorTime 2024 1 14)) st)) /\
  completionInv (completedDays (handleResetMonth february2024 true st)).
Proof.
  cbv zeta.
  assert (H0 : completionInv (completedDays emptyState)).
  { exists ∅. split; [reflexivity|]. intros k x Hx. rewrite lookup_empty in Hx.
    discriminate Hx. }
  assert (H : completionInv (completedDays (handleMarkAll february2024 emptyState)))
    by exact (proj1 (proj2 (completionInv_preserved emptyState H0)) february2024).
  split; [exact H|]. split.
  - exact (proj1 (completionInv_preserved _ H) _).
  - exact (proj1 (proj2 (proj2 (completionInv_preserved _ H))) _ _).
Defined.

Example handleResetMonth_february2024 :
  let st := handleDayClick (TimeValue (constructorTime 2024 0 31))
              (handleMarkAll february2024 emptyState) in
  Object_keys (spread (completedDays (handleResetMonth february2024 true st)))
  = ["2024-01-31"%string].
Proof. vm_compute. reflexivity. Qed.


(** ** The statistics *)

Section PercentageFacts.

Variable Date_parse_other : string -> Date.

(** The float computation of the percentage agrees with the exact
    rounding for every month length; checked case by case. *)
Lemma nearestInteger_percentage c t :
  (1 <= t <= 31)%nat -> (c <= t)%nat ->
  nearestInteger (percentageFloat c t) = roundedPercentage c t.
Proof.
  intros Ht Hc. apply Z.eqb_eq.
  assert (H : forallb (fun t => forallb (fun c =>
                nearestInteger (percentageFloat c t) =? roundedPercentage c t)
                (seq 0 (S t))) (seq 1 31) = true) by (vm_compute; reflexivity).
  rewrite forallb_forall in H.
  specialize (H t ltac:(apply in_seq; lia)). rewrite forallb_forall in H.
  apply H, in_seq. lia.
Qed.

Lemma roundedPercentage_range c t :
  (1 <= t)%nat -> (c <= t)%nat -> 0 <= roundedPercentage c t <= 100.
Proof.
  intros Ht Hc. unfold roundedPercentage.
  split.
  - apply Z.div_pos; lia.
  - apply Z.lt_succ_r, Z.div_lt_upper_bound; lia.
Qed.

Lemma filter_length_le {A} (f : A -> bool) (l : list A) :
  (length (List.filter f l) <= length l)%nat.
Proof.
  induction l as [|x l IH]; [reflexivity|]. simpl. destruct (f x); simpl; lia.
Qed.

Lemma Array_sort_nil l : Array_sort l = [] <-> l = [].
Proof.
  unfold Array_sort. split.
  - intros H. apply Permutation_nil_r. rewrite <- H.
    symmetry. apply merge_sort_Permutation.
  - intros ->. reflexivity.
Qed.

(** The statistics when no key is completed. *)
Lemma stats_none m cells clock1 clock2 :
  completedKeys m = [] ->
  stats Date_parse_other m cells clock1 clock2 =
  {| currentStreak := 0; longestStreak := 0;
     monthlyPercentage := JNum PrimFloat.zero; completedInMonth := 0;
     totalDaysInMonth := length (List.filter isCurrentMonth cells) |}.
Proof.
  intros H. unfold stats. cbv zeta. rewrite H. reflexivity.
Qed.

(** The month part of the statistics when some key is completed. *)
Lemma stats_month m cells clock1 clock2 :
  completedKeys m <> [] ->
  let s := stats Date_parse_other m cells clock1 clock2 in
  let t := length (List.filter isCurrentMonth cells) in
  let c := length (List.filter (fun d => truthyProp (m !! key d))
                               (List.filter isCurrentMonth cells)) in
  totalDaysInMonth s = t /\ completedInMonth s = c /\
  monthlyPercentage s =
    if (0 <? t)%nat then JStr (Number_toFixed0 (percentageFloat c t))
    else JNum PrimFloat.zero.
Proof.
  intros H. cbv zeta. unfold stats. cbv zeta.
  destruct (Array_sort (completedKeys m)) as [|k ks] eqn:E.
  - apply (proj1 (Array_sort_nil _)) in E. contradiction.
  - repeat split.
Qed.

End PercentageFacts.

(** C5, as stated, fails: the percentage of 15 days out of 30 is the string
    ["50"] that [toFixed(0)] returns, not the number 50. *)
Lemma monthlyPercentage_is_a_string :
  let s := stats (fun _ => InvalidDate) halfOfApril2024 april2024
             (constructorTime 2024 3 15) (constructorTime 2024 3 15) in
  totalDaysInMonth s = 30%nat /\ completedInMonth s = 15%nat /\
  monthlyPercentage s = JStr "50" /\
  monthlyPercentage s <> JNum (toNumber 50).
Proof.
  cbv zeta.
  assert (E : monthlyPercentage
                (stats (fun _ => InvalidDate) halfOfApril2024 april2024
                   (constructorTime 2024 3 15) (constructorTime 2024 3 15))
              = JStr "50")
    by (vm_compute; reflexivity).
  split; [vm_compute; reflexivity|]. split; [vm_compute; reflexivity|].
  split; [exact E|]. rewrite E. discriminate.
Qed.

(** C5, amended: for a grid with at most 31 days of the month, the
    percentage is the number 0 when the month has no day in the grid (there
    is no division then) or when no key is completed, and otherwise the
    string of the decimal digits of round(completedInMonth /
    totalDaysInMonth * 100), a half rounded upwards, an integer from 0 to
    100; 15 days out of 30 give ["50"]. *)
Theorem monthlyPercentage_rounded (Date_parse_other : string -> Date)
    (completedDays : gmap string JSValue)
    (calendarDays : list CalendarCell) (clock1 clock2 : Z) :
  let s := stats Date_parse_other completedDays calendarDays clock1 clock2 in
  let t := length (List.filter isCurrentMonth calendarDays) in
  let c := length (List.filter (fun d => truthyProp (completedDays !! key d))
                               (List.filter isCurrentMonth calendarDays)) in
  (t <= 31)%nat ->
  (c <= t)%nat /\
  (t = 0%nat -> monthlyPercentage s = JNum PrimFloat.zero) /\
  (completedKeys completedDays = [] -> monthlyPercentage s = JNum PrimFloat.zero) /\
  (t <> 0%nat -> completedKeys completedDays <> [] ->
   monthlyPercentage s = JStr (Number_toString (roundedPercentage c t)) /\
   0 <= roundedPercentage c t <= 100).
Proof.
  cbv zeta. intros Ht.
  set (t := length (List.filter isCurrentMonth calendarDays)) in *.
  set (c := length (List.filter _ (List.filter isCurrentMonth calendarDays))).
  assert (Hc : (c <= t)%nat) by apply filter_length_le.
  split; [exact Hc|]. split; [|split].
  - intros H0. destruct (completedKeys completedDays) as [|k ks] eqn:E.
    + rewrite (stats_none _ _ _ _ _ E). reflexivity.
    + destruct (stats_month Date_parse_other completedDays calendarDays
                  clock1 clock2) as (_ & _ & ->);
        [rewrite E; discriminate|].
      fold t. rewrite H0. reflexivity.
  - intros E. rewrite (stats_none _ _ _ _ _ E). reflexivity.
  - intros H0 E.
    destruct (stats_month Date_parse_other completedDays calendarDays
                clock1 clock2 E) as (_ & _ & ->).
    fold t c. destruct (Nat.ltb_spec 0 t) as [Hpos|]; [|lia].
    unfold Number_toFixed0.
    rewrite nearestInteger_percentage by lia.
    split; [reflexivity|apply roundedPercentage_range; lia].
Qed.

Lemma monthlyPercentage_rounded_witness :
  let s := stats (fun _ => InvalidDate) halfOfApril2024 april2024
             (constructorTime 2024 3 15) (constructorTime 2024 3 15) in
  (length (List.filter isCurrentMonth april2024) <= 31)%nat /\
  length (List.filter isCurrentMonth april2024) <> 0%nat /\
  completedKeys halfOfApril2024 <> [] /\
  monthlyPercentage s = JStr (Number_toString (roundedPercentage 15 30)) /\
  0 <= roundedPercentage 15 30 <= 100.
Proof.
  cbv zeta.
  assert (Ht : (length (List.filter isCurrentMonth april2024) <= 31)%nat)
    by (vm_compute; lia).
  assert (H0 : length (List.filter isCurrentMonth april2024) <> 0%nat)
    by (vm_compute; discriminate).
  assert (E : completedKeys halfOfApril2024 <> [])
    by (vm_compute; discriminate).
  split; [exact Ht|]. split; [exact H0|]. split; [exact E|].
  exact (proj2 (proj2 (proj2 (monthlyPercentage_rounded (fun _ => InvalidDate)
                                halfOfApril2024 april2024
                                (constructorTime 2024 3 15)
                                (constructorTime 2024 3 15) Ht))) H0 E).
Defined.

(** C6, as stated, fails: with an empty completion map the statistics still
    carry the number of days of the month. *)
Lemma empty_map_january_2024 :
  let s := stats (fun _ => InvalidDate) ∅ january2024
             (constructorTime 2024 0 5) (constructorTime 2024 0 5) in
  totalDaysInMonth s = 31%nat /\ totalDaysInMonth s <> 0%nat.
Proof. split; [vm_compute; reflexivity|vm_compute; discriminate]. Qed.

(** C6, amended: with an empty completion map the statistics are
    currentStreak = 0, longestStreak = 0, monthlyPercentage = 0 and
    completedInMonth = 0, and totalDaysInMonth is the number of days of the
    month in the grid. *)
Theorem stats_empty (Date_parse_other : string -> Date)
    (calendarDays : list CalendarCell) (clock1 clock2 : Z) :
  stats Date_parse_other ∅ calendarDays clock1 clock2 =
  {| currentStreak := 0; longestStreak := 0;
     monthlyPercentage := JNum PrimFloat.zero; completedInMonth := 0;
     totalDaysInMonth := length (List.filter isCurrentMonth calendarDays) |}.
Proof.
  apply stats_none. unfold completedKeys, Object_keys.
  rewrite map_to_list_empty. reflexivity.
Qed.

(** *** Streaks *)

Section StreakFacts.

Variable Date_parse_other : string -> Date.

Lemma digitValue_digitChar k : 0 <= k <= 9 -> digitValue (digitChar k) = Some k.
Proof. intros H. digit_cases k; reflexivity. Qed.

Lemma digit_bounds n w :
  0 <= n < 10 * w -> 0 < w -> 0 <= n / w <= 9 /\ 0 <= n mod w < w.
Proof.
  intros Hn Hw. split.
  - split; [apply Z.div_pos; lia|].
    apply Z.lt_succ_r, Z.div_lt_upper_bound; lia.
  - apply Z.mod_pos_bound. lia.
Qed.

Lemma parseDigits_digitsOf_2 n :
  0 <= n <= 99 -> parseDigits 0 (digitsOf 2 n) = Some n.
Proof.
  intros H. cbn [digitsOf parseDigits Z.of_nat].
  change (10 ^ Z.of_nat 0) with 1. change (10 ^ Z.of_nat 1) with 10.
  destruct (digit_bounds n 10 ltac:(lia) ltac:(lia)) as [H1 H0].
  destruct (digit_bounds (n mod 10) 1 ltac:(lia) ltac:(lia)) as [H2 _].
  rewrite !digitValue_digitChar by lia. f_equal.
  Z.div_mod_to_equations. lia.
Qed.

Lemma parseDigits_digitsOf_4 n :
  0 <= n <= 9999 -> parseDigits 0 (digitsOf 4 n) = Some n.
Proof.
  intros H. cbn [digitsOf parseDigits Z.of_nat].
  change (10 ^ Z.of_nat 0) with 1. change (10 ^ Z.of_nat 1) with 10.
  change (10 ^ Z.of_nat 2) with 100. change (10 ^ Z.of_nat 3) with 1000.
  destruct (digit_bounds n 1000 ltac:(lia) ltac:(lia)) as [H3 R3].
  destruct (digit_bounds (n mod 1000) 100 ltac:(lia) ltac:(lia)) as [H2 R2].
  destruct (digit_bounds (n mod 1000 mod 100) 10 ltac:(lia) ltac:(lia)) as [H1 R1].
  destruct (digit_bounds (n mod 1000 mod 100 mod 10) 1 ltac:(lia) ltac:(lia))
    as [H0 _].
  rewrite !digitValue_digitChar by lia. f_equal.
  Z.div_mod_to_equations. lia.
Qed.

(** A key of the form YYYY-MM-DD of a day that exists is in the date-only
    form, with the fields of that day. *)
Lemma dateOnlyForm_isoKey y m d :
  0 <= y <= 9999 -> 1 <= m <= 12 -> 1 <= d <= days_in_month y (m - 1) ->
  dateOnlyForm (isoKey y m d) = Some (y, m, d).
Proof.
  intros Hy Hm Hd.
  pose proof (days_in_month_bounds y (m - 1)) as Hb.
  unfold dateOnlyForm.
  replace (substring 0 4 (isoKey y m d)) with (digitsOf 4 y) by reflexivity.
  replace (substring 5 2 (isoKey y m d)) with (digitsOf 2 m) by reflexivity.
  replace (substring 8 2 (isoKey y m d)) with (digitsOf 2 d) by reflexivity.
  replace (substring 4 1 (isoKey y m d)) with "-"%string by reflexivity.
  replace (substring 7 1 (isoKey y m d)) with "-"%string by reflexivity.
  replace (String.length (isoKey y m d)) with 10%nat by reflexivity.
  rewrite parseDigits_digitsOf_4, !parseDigits_digitsOf_2 by lia.
  cbn [Nat.eqb String.eqb Ascii.eqb Bool.eqb andb].
  destruct (Z.leb_spec 1 m); [|lia]. destruct (Z.leb_spec m 12); [|lia].
  destruct (Z.leb_spec 1 d); [|lia].
  destruct (Z.leb_spec d (days_in_month y (m - 1))); [|lia].
  reflexivity.
Qed.

Lemma dayKey_isoKey d :
  fourDigitYear d ->
  let t := MakeDate d 0 in
  dayKey d = isoKey (getFullYear t) (getMonth t + 1) (getDate t).
Proof. intros H. apply getDateKey_isoKey, H. Qed.

(** The days of the years written with four digits have time values. *)
Lemma fourDigitYear_range d :
  fourDigitYear d -> -100000000 <= d <= 100000000.
Proof.
  unfold fourDigitYear, getFullYear, YearFromTime.
  rewrite Day_MakeDate by apply msPerDay_pos. intros H.
  pose proof (YearFromDay_spec d) as Hs.
  pose proof (DayFromYear_mono 1000 (YearFromDay d) ltac:(lia)) as Hlo.
  pose proof (DayFromYear_mono (YearFromDay d + 1) 10000 ltac:(lia)) as Hhi.
  change (DayFromYear 1000) with (-354285) in Hlo.
  change (DayFromYear 10000) with 2932897 in Hhi.
  lia.
Qed.

Lemma Date_parse_dayKey d :
  fourDigitYear d ->
  Date_parse Date_parse_other (dayKey d) = TimeValue (MakeDate d 0).
Proof.
  intros H. pose proof (fourDigitYear_range d H) as Hr.
  unfold Date_parse. rewrite dayKey_isoKey by exact H. cbv zeta.
  destruct (civil_of_time (MakeDate d 0)) as (Hm & Hd & HD).
  unfold getFullYear, getMonth, getDate.
  unfold fourDigitYear, getFullYear in H.
  replace (MonthFromTime (MakeDate d 0) + 1 - 1)
    with (MonthFromTime (MakeDate d 0)) in * by lia.
  rewrite dateOnlyForm_isoKey.
  - replace (MonthFromTime (MakeDate d 0) + 1 - 1)
      with (MonthFromTime (MakeDate d 0)) by lia.
    rewrite <- HD, Day_MakeDate by apply msPerDay_pos.
    apply TimeClip_midnight, Hr.
  - lia.
  - lia.
  - replace (MonthFromTime (MakeDate d 0) + 1 - 1)
      with (MonthFromTime (MakeDate d 0)) by lia. exact Hd.
Qed.

Lemma Math_round_div_exact k b : 0 < b -> Math_round_div (k * b) b = k.
Proof.
  intros H. unfold Math_round_div.
  replace (2 * (k * b) + b) with (b + k * (2 * b)) by lia.
  rewrite Z.div_add by lia. rewrite Z.div_small by lia. lia.
Qed.

(** The gap between two days read back from their keys. *)
Lemma diffDaysOf_dayKey d1 d2 :
  fourDigitYear d1 -> fourDigitYear d2 ->
  diffDaysOf Date_parse_other (dayKey d2) (dayKey d1) = Some (d2 - d1).
Proof.
  intros H1 H2. unfold diffDaysOf.
  rewrite !Date_parse_dayKey by assumption. unfold setUTCHours0.
  rewrite !Day_MakeDate by apply msPerDay_pos.
  rewrite !TimeClip_midnight by (apply fourDigitYear_range; assumption).
  cbv zeta. f_equal.
  change (1000 * 60 * 60 * 24) with msPerDay.
  replace (MakeDate d2 0 - MakeDate d1 0) with ((d2 - d1) * msPerDay)
    by (unfold MakeDate; lia).
  apply Math_round_div_exact. unfold msPerDay. lia.
Qed.

Lemma dayKey_inj d1 d2 : dayKey d1 = dayKey d2 -> d1 = d2.
Proof.
  intros H. apply getDateKey_inj in H.
  rewrite !Day_MakeDate in H by apply msPerDay_pos. exact H.
Qed.

Lemma dayKey_le d1 d2 :
  fourDigitYear d1 -> fourDigitYear d2 -> d1 < d2 ->
  String.le (dayKey d1) (dayKey d2).
Proof.
  intros H1 H2 Hlt. unfold String.le, String.leb, dayKey.
  rewrite getDateKey_compare by assumption.
  rewrite !Day_MakeDate by apply msPerDay_pos.
  apply Z.compare_lt_iff in Hlt. rewrite Hlt. exact I.
Qed.

Lemma NoDup_completedKeys m : NoDup (completedKeys m).
Proof.
  unfold completedKeys, Object_keys.
  apply NoDup_ListNoDup, List.NoDup_filter, NoDup_ListNoDup.
  apply NoDup_fst_map_to_list.
Qed.

Lemma StronglySorted_lt_NoDup (l : list Z) : StronglySorted Z.lt l -> NoDup l.
Proof.
  induction 1 as [|x l Hs IH Hx]; constructor; [|exact IH].
  intros Hin. rewrite Forall_forall in Hx. specialize (Hx x Hin). lia.
Qed.

Lemma StronglySorted_dayKey days :
  StronglySorted Z.lt days -> Forall fourDigitYear days ->
  StronglySorted String.le (dayKey <$> days).
Proof.
  induction 1 as [|x l Hs IH Hx]; intros Hf; [constructor|].
  apply Forall_cons in Hf as [Hfx Hfl]. rewrite fmap_cons.
  constructor; [apply IH, Hfl|].
  apply Forall_fmap, Forall_forall. intros y Hy. cbn.
  rewrite Forall_forall in Hx, Hfl. apply dayKey_le; auto.
Qed.

Lemma NoDup_dayKey days : NoDup days -> NoDup (dayKey <$> days).
Proof.
  intros H. apply NoDup_fmap_2_strong; [|exact H].
  intros x y _ _. apply dayKey_inj.
Qed.

(** The keys that the code selects are the keys to which the map gives a
    value that counts as true. *)
Lemma elem_of_completedKeys m k :
  k ∈ completedKeys m <-> truthyProp (m !! k) = true.
Proof.
  unfold completedKeys, Object_keys.
  rewrite list_elem_of_In, List.filter_In, <- list_elem_of_In.
  split; [intros [_ H]; exact H|]. intros H. split; [|exact H].
  destruct (m !! k) as [v|] eqn:E; [|discriminate H].
  apply list_elem_of_fmap. exists (k, v). split; [reflexivity|].
  apply elem_of_map_to_list, E.
Qed.

Lemma elem_of_Array_sort l k : k ∈ Array_sort l <-> k ∈ l.
Proof. unfold Array_sort. rewrite merge_sort_Permutation. reflexivity. Qed.

(** [sortedDates] is the list of the keys of the days, in the order of the
    days. *)
Lemma sortedDates_dayKey m days :
  StronglySorted Z.lt days -> Forall fourDigitYear days -> completedOn m days ->
  Array_sort (completedKeys m) = dayKey <$> days.
Proof.
  intros Hs Hf Hc. unfold Array_sort.
  apply (StronglySorted_unique String.le).
  - apply StronglySorted_merge_sort; apply _.
  - apply StronglySorted_dayKey; assumption.
  - rewrite merge_sort_Permutation.
    apply NoDup_Permutation.
    + apply NoDup_completedKeys.
    + apply NoDup_dayKey, StronglySorted_lt_NoDup, Hs.
    + intros k. rewrite elem_of_completedKeys. apply Hc.
Qed.

(** A map is completed on the days whose keys are its selected keys. *)
Lemma completedOn_sorted m days :
  Array_sort (completedKeys m) = Array_sort (dayKey <$> days) ->
  completedOn m days.
Proof.
  intros E k. rewrite <- elem_of_completedKeys.
  rewrite <- (elem_of_Array_sort (completedKeys m)), E.
  apply elem_of_Array_sort.
Qed.

Lemma foldr_max_acc a b l :
  foldr Z.max (Z.max a b) l = Z.max a (foldr Z.max b l).
Proof. induction l as [|x l IH]; simpl; [reflexivity|]. rewrite IH. lia. Qed.

Lemma last_cons_default {A} (a d : A) l : List.last (a :: l) d = List.last l a.
Proof.
  revert a d. induction l as [|x l IH]; intros a d; [reflexivity|].
  change (List.last (a :: x :: l) d) with (List.last (x :: l) d).
  rewrite IH. symmetry. apply IH.
Qed.

Lemma foldr_max_ge b l : b <= foldr Z.max b l.
Proof. induction l as [|x l IH]; simpl; lia. Qed.

Lemma streakStep_nextRun acc prev k :
  let r := streakStep Date_parse_other acc (prev, k) in
  r.2 = nextRun (diffDaysOf Date_parse_other k prev) acc.2 /\
  Z.max r.1 r.2 =
    Z.max (Z.max acc.1 acc.2) (nextRun (diffDaysOf Date_parse_other k prev) acc.2).
Proof.
  cbv zeta. unfold streakStep, nextRun. cbn [fst snd].
  destruct (diffDaysOf Date_parse_other k prev) as [g|];
    [|split; [reflexivity|lia]].
  destruct (g =? 1); [split; [reflexivity|cbn [fst snd]; lia]|].
  destruct (1 <? g); split; try reflexivity; cbn [fst snd]; lia.
Qed.

(** The loop over the pairs of neighbours keeps the running streak of the
    walk, and the largest running streak seen is the larger of its two
    variables. *)
Lemma foldl_streakStep rest : forall prev acc,
  let r := foldl (streakStep Date_parse_other) acc (zip (prev :: rest) rest) in
  r.2 = List.last (keyRunningStreaks Date_parse_other prev acc.2 rest) acc.2 /\
  Z.max r.1 r.2 =
    foldr Z.max (Z.max acc.1 acc.2)
      (keyRunningStreaks Date_parse_other prev acc.2 rest).
Proof.
  induction rest as [|k rest IH]; intros prev acc; cbv zeta.
  - split; reflexivity.
  - change (zip (prev :: k :: rest) (k :: rest))
      with ((prev, k) :: zip (k :: rest) rest).
    cbn [foldl keyRunningStreaks].
    destruct (streakStep_nextRun acc prev k) as [E2 Em]. cbv zeta in E2, Em.
    destruct (IH k (streakStep Date_parse_other acc (prev, k))) as [H2 Hm].
    cbv zeta in H2, Hm.
    rewrite Em in Hm. rewrite E2 in H2, Hm.
    split.
    + rewrite H2. symmetry. apply last_cons_default.
    + rewrite Hm. cbn [foldr].
      rewrite (Z.max_comm (Z.max acc.1 acc.2)), foldr_max_acc. reflexivity.
Qed.

Lemma nextRun_pos gap run : 1 <= run -> 1 <= nextRun gap run.
Proof.
  intros H. unfold nextRun. destruct gap as [g|]; [|exact H].
  destruct (g =? 1); [lia|]. destruct (1 <? g); lia.
Qed.

Lemma keyRunningStreaks_pos prev run rest :
  1 <= run ->
  Forall (fun x => 1 <= x) (keyRunningStreaks Date_parse_other prev run rest).
Proof.
  revert prev run. induction rest as [|k rest IH]; intros prev run H;
    [constructor|].
  cbn [keyRunningStreaks]. constructor; [|apply IH]; apply nextRun_pos, H.
Qed.

Lemma last_pos (l : list Z) a :
  Forall (fun x => 1 <= x) l -> 1 <= a -> 1 <= List.last l a.
Proof.
  revert a. induction l as [|x l IH]; intros a Hf Ha; [exact Ha|].
  apply Forall_cons in Hf as [Hx Hf]. rewrite last_cons_default.
  apply IH; assumption.
Qed.

(** The final running streak of a walk that has a key is at least 1. *)
Lemma keyStreakHistory_last_pos keys :
  keys <> [] -> 1 <= List.last (keyStreakHistory Date_parse_other keys) 0.
Proof.
  destruct keys as [|k rest]; [congruence|]. intros _.
  unfold keyStreakHistory. rewrite last_cons_default.
  apply last_pos; [apply keyRunningStreaks_pos|]; lia.
Qed.

(** On the keys of days in ascending order the gaps are the differences of
    the days, none below 1: the walk of the code is the walk of the
    specification. *)
Lemma keyRunningStreaks_dayKey rest : forall prev run,
  fourDigitYear prev -> Forall fourDigitYear rest ->
  StronglySorted Z.lt (prev :: rest) ->
  keyRunningStreaks Date_parse_other (dayKey prev) run (dayKey <$> rest) =
  runningStreaks prev run rest.
Proof.
  induction rest as [|d rest IH]; intros prev run Hp Hf Hs; [reflexivity|].
  apply Forall_cons in Hf as [Hd Hf].
  apply StronglySorted_inv in Hs as [Hs Hlt].
  assert (Hpd : prev < d) by (apply Forall_cons in Hlt as [? _]; assumption).
  rewrite fmap_cons. cbn [keyRunningStreaks runningStreaks].
  rewrite diffDaysOf_dayKey by assumption. unfold nextRun.
  destruct (Z.eqb_spec (d - prev) 1) as [E|E].
  - f_equal. apply IH; assumption.
  - destruct (Z.ltb_spec 1 (d - prev)); [|lia].
    f_equal. apply IH; assumption.
Qed.

Lemma keyStreakHistory_dayKey days :
  StronglySorted Z.lt days -> Forall fourDigitYear days ->
  keyStreakHistory Date_parse_other (dayKey <$> days) = streakHistory days.
Proof.
  intros Hs Hf. destruct days as [|d rest]; [reflexivity|].
  apply Forall_cons in Hf as [Hd Hf].
  rewrite fmap_cons. cbn [keyStreakHistory streakHistory]. f_equal.
  apply keyRunningStreaks_dayKey; assumption.
Qed.

Lemma last_dayKey (l : list Z) a :
  List.last (dayKey <$> l) (dayKey a) = dayKey (List.last l a).
Proof.
  revert a. induction l as [|x l IH]; intros a; [reflexivity|].
  rewrite fmap_cons, !last_cons_default. apply IH.
Qed.

Lemma last_dayKey_nonempty (l : list Z) :
  l <> [] -> List.last (dayKey <$> l) ""%string = dayKey (List.last l 0).
Proof.
  destruct l as [|d rest]; [congruence|]. intros _.
  rewrite fmap_cons, !last_cons_default. apply last_dayKey.
Qed.

(** The two streaks of the statistics, for every completion map and every
    two readings of the clock. *)
Lemma stats_streaks m cells clock1 clock2 :
  let sortedDates := Array_sort (completedKeys m) in
  let s := stats Date_parse_other m cells clock1 clock2 in
  let lastKey := List.last sortedDates ""%string in
  longestStreak s =
    foldr Z.max 0 (keyStreakHistory Date_parse_other sortedDates) /\
  currentStreak s =
    if String.eqb lastKey (getDateKey (TimeValue clock1))
       || String.eqb lastKey (getDateKey (setDate clock2 (getDate clock1 - 1)))
    then List.last (keyStreakHistory Date_parse_other sortedDates) 0 else 0.
Proof.
  cbv zeta. unfold stats. cbv zeta.
  destruct (Array_sort (completedKeys m)) as [|k rest].
  { split; [reflexivity|]. cbn [currentStreak].
    match goal with |- _ = if ?b then _ else _ => destruct b end; reflexivity. }
  cbn [tail longestStreak currentStreak].
  destruct (foldl_streakStep rest k (1, 1)) as [H2 Hm].
  cbv zeta in H2, Hm. cbn [fst snd] in H2, Hm.
  split.
  - rewrite Hm. unfold keyStreakHistory. cbn [foldr].
    change (Z.max 1 1) with (Z.max 1 0). apply foldr_max_acc.
  - rewrite H2. unfold keyStreakHistory.
    rewrite (last_cons_default 1 0). reflexivity.
Qed.

(** [yesterday.setDate(today.getDate() - 1)] is the calendar day before
    today, also on the first of a month, when the clock is read for
    [yesterday] in the month in which it was read for [today]. *)
Lemma setDate_yesterday clock1 clock2 :
  msPerDay - maxTime <= clock1 <= maxTime ->
  getFullYear clock2 = getFullYear clock1 -> getMonth clock2 = getMonth clock1 ->
  setDate clock2 (getDate clock1 - 1) =
  TimeValue (MakeDate (Day clock1 - 1) (TimeWithinDay clock2)).
Proof.
  intros Hr Hy Hm. unfold setDate, getFullYear, getMonth, getDate in *.
  rewrite Hy, Hm.
  destruct (civil_of_time clock1) as (_ & _ & HD). cbv zeta in HD.
  replace (MakeDay (YearFromTime clock1) (MonthFromTime clock1)
             (DateFromTime clock1 - 1))
    with (Day clock1 - 1) by (rewrite HD; unfold MakeDay; lia).
  apply TimeClip_in_range; [|apply TimeWithinDay_bound].
  unfold Day, maxTime, msPerDay in *. Z.div_mod_to_equations. lia.
Qed.

Lemma getDateKey_yesterday clock1 clock2 :
  msPerDay - maxTime <= clock1 <= maxTime ->
  getFullYear clock2 = getFullYear clock1 -> getMonth clock2 = getMonth clock1 ->
  getDateKey (setDate clock2 (getDate clock1 - 1)) = dayKey (Day clock1 - 1).
Proof.
  intros Hr Hy Hm. rewrite setDate_yesterday by assumption.
  apply getDateKey_Day.
  rewrite Day_MakeDate by apply TimeWithinDay_bound.
  rewrite Day_MakeDate by apply msPerDay_pos. reflexivity.
Qed.

Lemma getDateKey_today now : getDateKey (TimeValue now) = dayKey (Day now).
Proof.
  apply getDateKey_Day. rewrite Day_MakeDate by apply msPerDay_pos. reflexivity.
Qed.

End StreakFacts.

(** The map with the value [true] under each key of a list. *)
Example completedOn_exampleDays :
  completedOn exampleDays
    [Day (constructorTime 2024 0 1); Day (constructorTime 2024 0 2);
     Day (constructorTime 2024 0 3); Day (constructorTime 2024 0 5)].
Proof. apply completedOn_sorted. vm_compute. reflexivity. Qed.

(** C2, as stated, fails: the year of a key is not padded, the keys of the
    three consecutive days 9999-12-30, 9999-12-31 and 10000-01-01 are sorted
    with the last day first, and the walk finds a streak of 2 where the
    days make one of 3; so it is when the platform reads the key
    [10000-01-01] as that day, and when it does not read it at all. *)
Lemma longestStreak_across_year_10000 :
  let days := [Day (constructorTime 9999 11 30); Day (constructorTime 9999 11 31);
               Day (constructorTime 10000 0 1)] in
  let completedDays : gmap string JSValue :=
    list_to_map [("9999-12-30"%string, JBool true);
                 ("9999-12-31"%string, JBool true);
                 ("10000-01-01"%string, JBool true)] in
  let reads (s : string) :=
    if String.eqb s "10000-01-01" then newDate 10000 0 1 else InvalidDate in
  let now := constructorTime 10000 0 1 in
  StronglySorted Z.lt days /\ completedOn completedDays days /\
  specLongestStreak days = 3 /\
  Array_sort (completedKeys completedDays) =
    ["10000-01-01"; "9999-12-30"; "9999-12-31"]%string /\
  longestStreak (stats reads completedDays january2024 now now) = 2 /\
  longestStreak (stats (fun _ => InvalidDate) completedDays january2024 now now)
    = 2.
Proof.
  cbv zeta. split.
  { repeat constructor; vm_compute; reflexivity. }
  split; [apply completedOn_sorted; vm_compute; reflexivity|].
  split; [vm_compute; reflexivity|]. split; [vm_compute; reflexivity|].
  split; vm_compute; reflexivity.
Qed.

(** C2, amended.  For every completion map the keys that the computation
    walks are the completed ones (those with a value that counts as true),
    sorted ascending, and [longestStreak] is the largest running streak of
    the walk over the pairs of neighbours, where a gap of one day extends
    the running streak and a larger gap starts a new one of length 1.  When
    the completed keys are the keys of the days [days] (ascending, of years
    written with four digits), the sorted keys are in the order of the
    days, the walk is the walk over the days and [longestStreak] is the
    longest run of consecutive days. *)
Theorem longestStreak_consecutive_days (Date_parse_other : string -> Date)
    (completedDays : gmap string JSValue)
    (calendarDays : list CalendarCell) (clock1 clock2 : Z) :
  let sortedDates := Array_sort (completedKeys completedDays) in
  let s := stats Date_parse_other completedDays calendarDays clock1 clock2 in
  (StronglySorted String.le sortedDates /\ NoDup sortedDates /\
   (forall k, k ∈ sortedDates <-> truthyProp (completedDays !! k) = true) /\
   longestStreak s =
     foldr Z.max 0 (keyStreakHistory Date_parse_other sortedDates)) /\
  (forall days,
     StronglySorted Z.lt days -> Forall fourDigitYear days ->
     completedOn completedDays days ->
     sortedDates = dayKey <$> days /\
     keyStreakHistory Date_parse_other sortedDates = streakHistory days /\
     longestStreak s = specLongestStreak days).
Proof.
  cbv zeta.
  destruct (stats_streaks Date_parse_other completedDays calendarDays
              clock1 clock2) as [HL _].
  cbv zeta in HL. split.
  - split; [apply StronglySorted_merge_sort; apply _|].
    split.
    { unfold Array_sort. rewrite merge_sort_Permutation.
      apply NoDup_completedKeys. }
    split; [|exact HL].
    intros k. rewrite elem_of_Array_sort. apply elem_of_completedKeys.
  - intros days Hs Hf Hc.
    pose proof (sortedDates_dayKey completedDays days Hs Hf Hc) as E.
    rewrite HL, E. split; [reflexivity|].
    rewrite (keyStreakHistory_dayKey Date_parse_other days Hs Hf).
    split; reflexivity.
Qed.

Lemma longestStreak_consecutive_days_witness :
  let days := [Day (constructorTime 2024 0 1); Day (constructorTime 2024 0 2);
               Day (constructorTime 2024 0 3); Day (constructorTime 2024 0 5)] in
  let now := constructorTime 2024 0 5 in
  StronglySorted Z.lt days /\ Forall fourDigitYear days /\
  completedOn exampleDays days /\
  Array_sort (completedKeys exampleDays) =
    ["2024-01-01"; "2024-01-02"; "2024-01-03"; "2024-01-05"]%string /\
  streakHistory days = [1; 2; 3; 1] /\
  longestStreak (stats (fun _ => InvalidDate) exampleDays january2024 now now)
    = 3.
Proof.
  cbv zeta.
  set (days := [Day (constructorTime 2024 0 1); Day (constructorTime 2024 0 2);
                Day (constructorTime 2024 0 3); Day (constructorTime 2024 0 5)]).
  assert (Hs : StronglySorted Z.lt days).
  { unfold days. repeat constructor; vm_compute; reflexivity. }
  assert (Hf : Forall fourDigitYear days).
  { unfold days. repeat constructor; vm_compute; discriminate. }
  assert (Hc : completedOn exampleDays days) by apply completedOn_exampleDays.
  destruct (proj2 (longestStreak_consecutive_days (fun _ => InvalidDate)
                     exampleDays january2024
                     (constructorTime 2024 0 5) (constructorTime 2024 0 5))
              days Hs Hf Hc) as (E1 & _ & E2).
  split; [exact Hs|]. split; [exact Hf|]. split; [exact Hc|].
  split; [rewrite E1; vm_compute; reflexivity|].
  split; [vm_compute; reflexivity|].
  rewrite E2. vm_compute. reflexivity.
Defined.

Example longestStreak_example (Date_parse_other : string -> Date) :
  longestStreak (stats Date_parse_other exampleDays january2024
                   (constructorTime 2024 0 5) (constructorTime 2024 0 5)) = 3.
Proof. vm_compute. reflexivity. Qed.

(** C3, as stated, fails: with completions on 9999-12-25 and on
    10000-01-05, read on the 5th of January 10000, the most recent
    completed day is today; but the key of the year 9999 is sorted last,
    it is neither the key of today nor that of yesterday, and
    [currentStreak] is 0, whatever the platform makes of the key of the
    year 10000. *)
Lemma currentStreak_across_year_10000 :
  let days := [Day (constructorTime 9999 11 25); Day (constructorTime 10000 0 5)] in
  let completedDays : gmap string JSValue :=
    list_to_map [("9999-12-25"%string, JBool true);
                 ("10000-01-05"%string, JBool true)] in
  let now := constructorTime 10000 0 5 + 12 * 3600000 in
  StronglySorted Z.lt days /\ completedOn completedDays days /\
  List.last days 0 = Day now /\
  getDateKey (TimeValue now) = "10000-01-05"%string /\
  specFinalStreak days = 1 /\
  List.last (Array_sort (completedKeys completedDays)) ""%string
    = "9999-12-25"%string /\
  (forall Date_parse_other calendarDays,
     currentStreak (stats Date_parse_other completedDays calendarDays now now)
     = 0).
Proof.
  cbv zeta. split.
  { repeat constructor; vm_compute; reflexivity. }
  split; [apply completedOn_sorted; vm_compute; reflexivity|].
  split; [vm_compute; reflexivity|]. split; [vm_compute; reflexivity|].
  split; [vm_compute; reflexivity|]. split; [vm_compute; reflexivity|].
  intros Date_parse_other calendarDays.
  match goal with
  | |- currentStreak (stats _ ?m _ ?c1 ?c2) = _ =>
      destruct (stats_streaks Date_parse_other m calendarDays c1 c2) as [_ HC]
  end.
  cbv zeta in HC. rewrite HC.
  match goal with
  | |- (if ?b then _ else _) = _ =>
      replace b with false by (vm_compute; reflexivity)
  end.
  reflexivity.
Qed.

(** C3, amended.  For a completion map that is completed on the days
    [days] (at least one day, of years written with four digits) and a
    clock that is read for [yesterday] in the month in which it was read
    for [today]: the last of the sorted keys is the key of the most recent
    completed day; [currentStreak] is the final running streak exactly when
    that key is the key of today or the key of the day before today, and 0
    otherwise; [longestStreak] is the longest run of consecutive days,
    whatever the clock shows. *)
Theorem currentStreak_today_or_yesterday (Date_parse_other : string -> Date)
    (completedDays : gmap string JSValue)
    (calendarDays : list CalendarCell) (clock1 clock2 : Z) (days : list Z) :
  days <> [] -> StronglySorted Z.lt days -> Forall fourDigitYear days ->
  completedOn completedDays days ->
  msPerDay - maxTime <= clock1 <= maxTime ->
  getFullYear clock2 = getFullYear clock1 ->
  getMonth clock2 = getMonth clock1 ->
  let s := stats Date_parse_other completedDays calendarDays clock1 clock2 in
  let mostRecentKey := dayKey (List.last days 0) in
  let todayKey := getDateKey (TimeValue clock1) in
  let yesterdayKey := dayKey (Day clock1 - 1) in
  List.last (Array_sort (completedKeys completedDays)) ""%string
    = mostRecentKey /\
  (mostRecentKey = todayKey \/ mostRecentKey = yesterdayKey <->
   currentStreak s = specFinalStreak days) /\
  (~ (mostRecentKey = todayKey \/ mostRecentKey = yesterdayKey) ->
   currentStreak s = 0) /\
  1 <= specFinalStreak days /\
  longestStreak s = specLongestStreak days.
Proof.
  intros Hd Hs Hf Hc Hr Hy Hm. cbv zeta.
  destruct (stats_streaks Date_parse_other completedDays calendarDays
              clock1 clock2) as [HL HC].
  cbv zeta in HL, HC.
  rewrite getDateKey_yesterday in HC by assumption.
  pose proof (sortedDates_dayKey completedDays days Hs Hf Hc) as E.
  rewrite E in HL, HC.
  rewrite (keyStreakHistory_dayKey Date_parse_other days Hs Hf) in HL, HC.
  rewrite (last_dayKey_nonempty days Hd) in HC.
  fold (specFinalStreak days) in HC. fold (specLongestStreak days) in HL.
  assert (Hpos : 1 <= specFinalStreak days).
  { unfold specFinalStreak.
    rewrite <- (keyStreakHistory_dayKey Date_parse_other days Hs Hf).
    apply keyStreakHistory_last_pos. destruct days; [congruence|discriminate]. }
  split; [rewrite E; apply last_dayKey_nonempty, Hd|].
  split; [|split; [|split; [exact Hpos|exact HL]]].
  - destruct (String.eqb_spec (dayKey (List.last days 0))
                (getDateKey (TimeValue clock1))) as [E1|E1];
    destruct (String.eqb_spec (dayKey (List.last days 0))
                (dayKey (Day clock1 - 1))) as [E2|E2]; cbn [orb] in HC.
    + split; [intros _; exact HC|tauto].
    + split; [intros _; exact HC|tauto].
    + split; [intros _; exact HC|tauto].
    + split; [tauto|intros H; lia].
  - intros Hn.
    destruct (String.eqb_spec (dayKey (List.last days 0))
                (getDateKey (TimeValue clock1))) as [E1|E1]; [tauto|].
    destruct (String.eqb_spec (dayKey (List.last days 0))
                (dayKey (Day clock1 - 1))) as [E2|E2]; [tauto|].
    exact HC.
Qed.

Lemma currentStreak_today_or_yesterday_witness :
  let days := [Day (constructorTime 2024 0 1); Day (constructorTime 2024 0 2);
               Day (constructorTime 2024 0 3); Day (constructorTime 2024 0 5)] in
  let now := constructorTime 2024 0 10 in
  let s := stats (fun _ => InvalidDate) exampleDays january2024 now now in
  days <> [] /\ StronglySorted Z.lt days /\ Forall fourDigitYear days /\
  completedOn exampleDays days /\
  msPerDay - maxTime <= now <= maxTime /\
  dayKey (List.last days 0) = "2024-01-05"%string /\
  getDateKey (TimeValue now) = "2024-01-10"%string /\
  dayKey (Day now - 1) = "2024-01-09"%string /\
  currentStreak s = 0 /\ longestStreak s = 3.
Proof.
  cbv zeta.
  set (days := [Day (constructorTime 2024 0 1); Day (constructorTime 2024 0 2);
                Day (constructorTime 2024 0 3); Day (constructorTime 2024 0 5)]).
  assert (Hd : days <> []) by discriminate.
  assert (Hs : StronglySorted Z.lt days).
  { unfold days. repeat constructor; vm_compute; reflexivity. }
  assert (Hf : Forall fourDigitYear days).
  { unfold days. repeat constructor; vm_compute; discriminate. }
  assert (Hc : completedOn exampleDays days) by apply completedOn_exampleDays.
  assert (Hr : msPerDay - maxTime <= constructorTime 2024 0 10 <= maxTime)
    by (vm_compute; split; discriminate).
  destruct (currentStreak_today_or_yesterday (fun _ => InvalidDate)
              exampleDays january2024
              (constructorTime 2024 0 10) (constructorTime 2024 0 10) days
              Hd Hs Hf Hc Hr eq_refl eq_refl) as (_ & _ & H0 & _ & HL).
  split; [exact Hd|]. split; [exact Hs|]. split; [exact Hf|].
  split; [exact Hc|]. split; [exact Hr|].
  split; [vm_compute; reflexivity|]. split; [vm_compute; reflexivity|].
  split; [vm_compute; reflexivity|].
  split.
  - apply H0. intros [E|E]; vm_compute in E; discriminate E.
  - rewrite HL. vm_compute. reflexivity.
Defined.

Section StreakExamples.

Variable Date_parse_other : string -> Date.

Example currentStreak_example_today :
  let now := constructorTime 2024 0 5 + 12 * 3600000 in
  let s := stats Date_parse_other exampleDays january2024 now now in
  currentStreak s = 1 /\ longestStreak s = 3.
Proof. vm_compute. split; reflexivity. Qed.

Example currentStreak_example_yesterday :
  let now := constructorTime 2024 0 6 in
  let s := stats Date_parse_other exampleDays january2024 now now in
  currentStreak s = 1 /\ longestStreak s = 3.
Proof. vm_compute. split; reflexivity. Qed.

Example currentStreak_example_lapsed :
  let now := constructorTime 2024 0 10 in
  let s := stats Date_parse_other exampleDays january2024 now now in
  currentStreak s = 0 /\ longestStreak s = 3.
Proof. vm_compute. split; reflexivity. Qed.

(** The two readings of the clock on either side of the midnight that
    ends a month: [today] is the 31st of January 2024, and [yesterday], the
    day 30 of the month of the second reading, is the 1st of March.  A
    streak that ends on the 30th of January counts as lapsed; read twice
    before midnight it counts. *)
Example currentStreak_month_end_midnight :
  let completedDays : gmap string JSValue :=
    {[ "2024-01-30"%string := JBool true ]} in
  let clock1 := constructorTime 2024 0 31 + (msPerDay - 1) in
  let clock2 := constructorTime 2024 1 1 in
  getDateKey (TimeValue clock1) = "2024-01-31"%string /\
  getDateKey (TimeValue clock2) = "2024-02-01"%string /\
  getDateKey (setDate clock2 (getDate clock1 - 1)) = "2024-03-01"%string /\
  currentStreak (stats Date_parse_other completedDays january2024 clock1 clock2)
    = 0 /\
  currentStreak (stats Date_parse_other completedDays january2024 clock1 clock1)
    = 1.
Proof. vm_compute. repeat split. Qed.

End StreakExamples.

(** The day before the first of March 2024, by [setDate], is the 29th of
    February. *)
Example yesterday_of_first_of_march_2024 :
  getDateKey (setDate (constructorTime 2024 2 1)
                      (getDate (constructorTime 2024 2 1) - 1))
  = "2024-02-29"%string.
Proof. vm_compute. reflexivity. Qed.

(** * Further properties of the code *)

(** ** Resetting a month *)

Section ResetFacts.

Lemma handleResetMonth_unfold cells confirmed st :
  handleResetMonth cells confirmed st =
  match completedDays st, currentMonthKeys cells with
  | JNull, _ :: _ => st
  | _, _ =>
    if negb (existsb (fun k => truthyProp (spread (completedDays st) !! k))
                     (currentMonthKeys cells))
    then window_alert noCompletionsToReset st
    else if confirmed
         then setCompletedDays (Updater (resetKeys (currentMonthKeys cells))) st
         else st
  end.
Proof. reflexivity. Qed.

Lemma handleResetMonth_not_null cells confirmed st :
  completedDays st <> JNull ->
  handleResetMonth cells confirmed st =
  if negb (existsb (fun k => truthyProp (spread (completedDays st) !! k))
                   (currentMonthKeys cells))
  then window_alert noCompletionsToReset st
  else if confirmed
       then setCompletedDays (Updater (resetKeys (currentMonthKeys cells))) st
       else st.
Proof.
  intros H. rewrite handleResetMonth_unfold.
  destruct (completedDays st); try reflexivity. contradiction.
Qed.

Lemma existsb_false_elem_of {A} (f : A -> bool) (l : list A) :
  existsb f l = false <-> forall x, x ∈ l -> f x = false.
Proof.
  induction l as [|a l IH]; cbn [existsb].
  - split; [intros _ x Hx; inversion Hx|reflexivity].
  - rewrite orb_false_iff, IH. split.
    + intros [Ha Hl] x Hx. apply elem_of_cons in Hx as [->|Hx]; auto.
    + intros H. split; [apply H; left|intros x Hx; apply H; right; exact Hx].
Qed.

Lemma existsb_true_elem_of {A} (f : A -> bool) (l : list A) :
  existsb f l = true <-> exists x, x ∈ l /\ f x = true.
Proof.
  rewrite existsb_exists. split; intros (x & Hx & Hf); exists x;
    (split; [apply list_elem_of_In, Hx|exact Hf]).
Qed.

(** What the deletions of [handleResetMonth] leave of a map. *)
Lemma lookup_foldl_delete (ks : list string) (m : gmap string JSValue) k :
  foldl (fun newCompleted k => delete k newCompleted) m ks !! k =
  if bool_decide (k ∈ ks) then None else m !! k.
Proof.
  revert m. induction ks as [|k0 ks IH]; intros m; cbn [foldl].
  - rewrite bool_decide_eq_false_2 by (intros H; inversion H). reflexivity.
  - rewrite IH. destruct (decide (k ∈ ks)) as [Hin|Hin].
    + rewrite !bool_decide_eq_true_2; [reflexivity| |exact Hin].
      right. exact Hin.
    + rewrite (bool_decide_eq_false_2 _ Hin).
      destruct (decide (k = k0)) as [->|Hne].
      * rewrite lookup_delete_eq, bool_decide_eq_true_2 by left. reflexivity.
      * rewrite lookup_delete_ne by congruence.
        rewrite bool_decide_eq_false_2; [reflexivity|].
        intros H. apply elem_of_cons in H as [H|H]; contradiction.
Qed.

End ResetFacts.

(** X1: when no cell of the month is completed, [handleResetMonth] asks
    nothing and changes nothing: it alerts that there are no completions
    to reset, whatever the answer to the confirmation would be. *)
Theorem handleResetMonth_nothing_to_reset (calendarDays : list CalendarCell)
    (confirmed : bool) (st : AppState) :
  completedDays st <> JNull ->
  (forall k, k ∈ currentMonthKeys calendarDays ->
             truthyProp (spread (completedDays st) !! k) = false) ->
  handleResetMonth calendarDays confirmed st =
  window_alert noCompletionsToReset st.
Proof.
  intros Hn H. rewrite handleResetMonth_not_null by exact Hn.
  apply existsb_false_elem_of in H. rewrite H. reflexivity.
Qed.

Lemma handleResetMonth_nothing_to_reset_witness :
  let st := handleDayClick (TimeValue (constructorTime 2024 0 31)) emptyState in
  completedDays st = JObj {[ "2024-01-31"%string := JBool true ]} /\
  handleResetMonth february2024 true st =
  window_alert noCompletionsToReset st.
Proof.
  cbv zeta. split; [vm_compute; reflexivity|].
  apply handleResetMonth_nothing_to_reset.
  - vm_compute. discriminate.
  - apply existsb_false_elem_of. vm_compute. reflexivity.
Defined.



(** X3: a reset that is not confirmed changes no data: neither the
    completion map nor the notes nor the store. *)
Theorem handleResetMonth_declined (calendarDays : list CalendarCell)
    (st : AppState) :
  sameData st (handleResetMonth calendarDays false st).
Proof.
  rewrite handleResetMonth_unfold.
  destruct (completedDays st), (currentMonthKeys calendarDays);
    try apply sameData_refl;
    match goal with
    | |- context [if negb ?b then _ else _] => destruct b
    end; cbn [negb]; try apply sameData_refl; apply sameData_window_alert.
Qed.

(** ** Marking and resetting *)

Section MarkResetFacts.

(** The loop of [handleMarkAll] touches the keys of the cells to mark
    only. *)
Lemma foldl_markCell_lookup_other cells : forall acc k,
  (forall c, c ∈ cells -> toMark c = true -> getDateKey (date c) <> k) ->
  (foldl markCell acc cells).1 !! k = acc.1 !! k.
Proof.
  induction cells as [|c cells IH]; intros acc k H; [reflexivity|].
  cbn [foldl]. rewrite IH.
  - rewrite markCell_cases.
    destruct (toMark c) eqn:Hc; cbn [andb]; [|reflexivity].
    destruct (negb (truthyProp (acc.1 !! getDateKey (date c))));
      [|reflexivity].
    cbn [fst]. apply lookup_insert_ne. apply (H c); [left|exact Hc].
  - intros c' Hin. apply H. right. exact Hin.
Qed.

(** Once a cell was there to mark, with a key that was not completed, the
    flag [changed] is set. *)
Lemma foldl_markCell_changed cells : forall m ch c,
  c ∈ cells -> toMark c = true ->
  truthyProp (m !! getDateKey (date c)) = false ->
  (foldl markCell (m, ch) cells).2 = true.
Proof.
  induction cells as [|c' cells IH]; intros m ch c Hin Hc Hk.
  - inversion Hin.
  - cbn [foldl]. rewrite markCell_cases. cbn [fst].
    apply elem_of_cons in Hin as [<-|Hin].
    + rewrite Hc, Hk. cbn [andb negb]. apply foldl_markCell_flag.
    + destruct (toMark c' && negb (truthyProp (m !! getDateKey (date c'))))
        eqn:E.
      * apply foldl_markCell_flag.
      * apply (IH m ch c); assumption.
Qed.

Lemma elem_of_currentMonthKeys cells k :
  k ∈ currentMonthKeys cells <->
  exists c, c ∈ cells /\ isCurrentMonth c = true /\ key c = k /\ k <> ""%string.
Proof.
  unfold currentMonthKeys.
  rewrite list_elem_of_In, List.filter_In, <- list_elem_of_In.
  rewrite list_elem_of_fmap. unfold isEmptyString.
  split.
  - intros [(c & -> & Hc) Hk]. apply list_elem_of_In, List.filter_In in Hc.
    destruct Hc as [Hc Hm]. exists c. split; [apply list_elem_of_In, Hc|].
    split; [exact Hm|]. split; [reflexivity|].
    intros E. rewrite E in Hk. discriminate Hk.
  - intros (c & Hc & Hm & <- & Hk). split.
    + exists c. split; [reflexivity|].
      apply list_elem_of_In, List.filter_In. split; [|exact Hm].
      apply list_elem_of_In, Hc.
    + destruct (String.eqb_spec (key c) ""); [contradiction|reflexivity].
Qed.

(** Every cell that the grid builder makes carries the key of its
    date. *)
Lemma key_generateCalendarDays d :
  Forall (fun c => key c = getDateKey (date c)) (generateCalendarDays d).
Proof.
  assert (H : forall {A} (f : A -> Date) (b : bool) (l : list A),
            Forall (fun c => key c = getDateKey (date c))
                   ((fun i => cellOf (f i) b) <$> l)).
  { intros A f b l. apply Forall_fmap, Forall_forall. intros x _. reflexivity. }
  unfold generateCalendarDays. destruct d as [t|]; [|apply (H _ (fun _ => InvalidDate))].
  cbv zeta. repeat apply Forall_app_2.
  - destruct (fieldOf getDay _); [|constructor].
    apply (H _ (fun i => match fieldOf getDate _ with
                         | Some p => newDate _ _ (p - i)
                         | None => InvalidDate
                         end)).
  - destruct (fieldOf getDate _); [|constructor]. apply (H _ (fun i => newDate _ _ i)).
  - apply (H _ (fun i => newDate _ _ i)).
Qed.

End MarkResetFacts.

(** X4: on a grid whose cells carry the keys of their dates, marking all
    the days of a month of which none was in the completion map and then
    resetting the month gives the completion map back. *)
Theorem handleResetMonth_after_handleMarkAll (calendarDays : list CalendarCell)
    (m : gmap string JSValue) (st : AppState) :
  completedDays st = JObj m ->
  Forall (fun c => key c = getDateKey (date c)) calendarDays ->
  currentMonthKeys calendarDays <> [] ->
  (forall k, k ∈ currentMonthKeys calendarDays -> m !! k = None) ->
  completedDays
    (handleResetMonth calendarDays true (handleMarkAll calendarDays st))
  = JObj m.
Proof.
  intros Hm Hkeys Hne Habs.
  destruct (currentMonthKeys calendarDays) as [|k0 ks] eqn:Eks;
    [congruence|clear Hne]. rewrite <- Eks in Habs.
  assert (Hk0 : k0 ∈ currentMonthKeys calendarDays) by (rewrite Eks; left).
  pose proof Hk0 as Hc0.
  apply elem_of_currentMonthKeys in Hc0 as (c0 & Hin0 & Hcur0 & Hkey0 & Hnon0).
  rewrite Forall_forall in Hkeys.
  assert (Hmark0 : toMark c0 = true).
  { unfold toMark, isEmptyString. rewrite Hcur0, <- (Hkeys c0 Hin0), Hkey0.
    destruct (String.eqb_spec k0 ""); [contradiction|reflexivity]. }
  set (st1 := handleMarkAll calendarDays st).
  assert (E1 : completedDays st1 =
               JObj (foldl markCell (m, false) calendarDays).1).
  { unfold st1. rewrite handleMarkAll_completedDays, Hm.
    unfold markAll. cbv zeta. cbn [spread].
    rewrite (foldl_markCell_changed calendarDays m false c0 Hin0 Hmark0).
    - reflexivity.
    - rewrite <- (Hkeys c0 Hin0), Hkey0, (Habs k0 Hk0). reflexivity. }
  assert (Hdone : truthyProp (spread (completedDays st1) !! k0) = true).
  { rewrite E1. cbn [spread]. rewrite <- Hkey0, (Hkeys c0 Hin0).
    apply foldl_markCell_marks; assumption. }
  rewrite handleResetMonth_not_null by (rewrite E1; discriminate).
  replace (existsb _ (currentMonthKeys calendarDays)) with true
    by (symmetry; apply existsb_true_elem_of; exists k0; split; assumption).
  cbn [negb]. rewrite completedDays_setCompletedDays, E1.
  unfold resetKeys. cbn [spread]. f_equal. apply map_eq. intros k.
  rewrite lookup_foldl_delete.
  destruct (decide (k ∈ currentMonthKeys calendarDays)) as [Hk|Hk].
  - rewrite bool_decide_eq_true_2 by exact Hk. symmetry. apply Habs, Hk.
  - rewrite bool_decide_eq_false_2 by exact Hk.
    apply (foldl_markCell_lookup_other calendarDays (m, false)).
    intros c Hin Hc E. apply Hk, elem_of_currentMonthKeys.
    unfold toMark, isEmptyString in Hc. apply andb_true_iff in Hc as [Hcur Hnon].
    exists c. split; [exact Hin|]. split; [exact Hcur|].
    split; [rewrite (Hkeys c Hin); exact E|].
    intros ->. rewrite E in Hnon. discriminate Hnon.
Qed.

Lemma handleResetMonth_after_handleMarkAll_witness :
  let st := handleDayClick (TimeValue (constructorTime 2024 0 31)) emptyState in
  completedDays st = JObj {[ "2024-01-31"%string := JBool true ]} /\
  length (Object_keys (spread (completedDays (handleMarkAll february2024 st))))
    = 30%nat /\
  completedDays (handleResetMonth february2024 true (handleMarkAll february2024 st))
    = JObj {[ "2024-01-31"%string := JBool true ]}.
Proof.
  cbv zeta.
  assert (E : completedDays
                (handleDayClick (TimeValue (constructorTime 2024 0 31)) emptyState)
              = JObj {[ "2024-01-31"%string := JBool true ]})
    by (vm_compute; reflexivity).
  split; [exact E|]. split; [vm_compute; reflexivity|].
  apply (handleResetMonth_after_handleMarkAll february2024 _ _ E).
  - apply key_generateCalendarDays.
  - vm_compute. discriminate.
  - intros k Hk.
    assert (H : forallb (fun k => bool_decide
                 (({[ "2024-01-31"%string := JBool true ]} : gmap string JSValue)
                    !! k = None)) (currentMonthKeys february2024) = true)
      by (vm_compute; reflexivity).
    rewrite forallb_forall in H. apply list_elem_of_In in Hk.
    specialize (H k Hk). apply bool_decide_eq_true_1 in H. exact H.
Defined.

(** ** Notes, month keys and today *)

Section NoteFacts.

Lemma string_app_assoc (a b c : string) : (a +:+ b) +:+ c = a +:+ (b +:+ c).
Proof.
  induction a as [|x a IH]; [reflexivity|].
  change (String x ((a +:+ b) +:+ c) = String x (a +:+ (b +:+ c))).
  rewrite IH. reflexivity.
Qed.

Lemma currentMonthKey_digitsOf t :
  currentMonthKey t =
  Number_toString (getFullYear t) +:+ "-" +:+ digitsOf 2 (getMonth t + 1).
Proof.
  unfold currentMonthKey. pose proof (MonthFromTime_bound t) as Hm.
  unfold getMonth. rewrite zeroPad_digitsOf by lia. reflexivity.
Qed.

Lemma isToday_Day t now : isToday (TimeValue t) now = true <-> Day t = Day now.
Proof.
  unfold isToday, getDate, getMonth, getFullYear.
  rewrite !andb_true_iff, !Z.eqb_eq. split.
  - intros [[Hd Hm] Hy]. apply Day_of_fields; assumption.
  - intros H. rewrite (DateFromTime_Day _ _ H), (MonthFromTime_Day _ _ H),
      (YearFromTime_Day _ _ H). auto.
Qed.

End NoteFacts.


(** X6: two dates have the same month key exactly when they lie in the
    same month of the same year, and the key of a date is the key of its
    month followed by a dash and the day in two digits. *)
Theorem currentMonthKey_same_month (t1 t2 : Z) :
  (currentMonthKey t1 = currentMonthKey t2 <->
   getFullYear t1 = getFullYear t2 /\ getMonth t1 = getMonth t2) /\
  getDateKey (TimeValue t1) = currentMonthKey t1 +:+ "-" +:+ zeroPad (getDate t1).
Proof.
  split.
  - rewrite !currentMonthKey_digitsOf.
    pose proof (MonthFromTime_bound t1) as H1.
    pose proof (MonthFromTime_bound t2) as H2. unfold getMonth in *.
    split.
    + intros H.
      apply string_app_inj_tail in H as [HY HT];
        [|rewrite !string_app_length, !length_digitsOf; reflexivity].
      apply Number_toString_inj in HY.
      apply (inj (String.app "-")) in HT.
      apply digitsOf_2_inj in HT; [|lia|lia]. split; [exact HY|lia].
    + intros [-> HM]. unfold getMonth in HM. rewrite HM. reflexivity.
  - unfold getDateKey, currentMonthKey. cbv zeta.
    rewrite !string_app_assoc. reflexivity.
Qed.

(** X7: [isToday] holds of a date exactly when it lies on the calendar day
    of the present time, which is when the two have the same key; it never
    holds of the invalid date. *)
Theorem isToday_same_day (t now : Z) :
  (isToday (TimeValue t) now = true <-> Day t = Day now) /\
  (isToday (TimeValue t) now = true <->
   getDateKey (TimeValue t) = getDateKey (TimeValue now)) /\
  isToday InvalidDate now = false.
Proof.
  split; [apply isToday_Day|]. split; [|reflexivity].
  rewrite isToday_Day. split.
  - apply getDateKey_Day.
  - apply getDateKey_inj.
Qed.

(** ** The store and the state *)

Section StoreFacts.






End StoreFacts.


(** ** Bounds of the statistics *)

Section StatsBounds.

Variable Date_parse_other : string -> Date.

Lemma nextRun_le gap run : 0 <= run -> nextRun gap run <= run + 1.
Proof.
  intros H. unfold nextRun. destruct gap as [g|]; [|lia].
  destruct (g =? 1); [lia|]. destruct (1 <? g); lia.
Qed.

(** A running streak grows by one at most from key to key. *)
Lemma keyRunningStreaks_le rest : forall prev run,
  1 <= run ->
  Forall (fun x => x <= run + Z.of_nat (length rest))
         (keyRunningStreaks Date_parse_other prev run rest).
Proof.
  induction rest as [|k rest IH]; intros prev run H; [constructor|].
  cbn [keyRunningStreaks length].
  pose proof (nextRun_le (diffDaysOf Date_parse_other k prev) run ltac:(lia)) as Hle.
  pose proof (nextRun_pos (diffDaysOf Date_parse_other k prev) run H) as Hpos.
  constructor; [lia|].
  eapply Forall_impl; [apply IH, Hpos|]. cbn. intros x Hx. lia.
Qed.

Lemma foldr_max_le b (l : list Z) n :
  b <= n -> Forall (fun x => x <= n) l -> foldr Z.max b l <= n.
Proof.
  intros Hb Hl. induction Hl as [|x l Hx Hl IH]; cbn [foldr]; lia.
Qed.

Lemma last_le_foldr_max (l : list Z) : forall a d,
  List.last l a <= Z.max a (foldr Z.max d l).
Proof.
  induction l as [|x l IH]; intros a d; [cbn; lia|].
  rewrite last_cons_default. cbn [foldr].
  pose proof (IH x d). lia.
Qed.

Lemma keyStreakHistory_bounds keys :
  keys <> [] ->
  let h := keyStreakHistory Date_parse_other keys in
  1 <= List.last h 0 <= foldr Z.max 0 h /\
  foldr Z.max 0 h <= Z.of_nat (length keys).
Proof.
  intros Hne. cbv zeta. split; [split|].
  - apply keyStreakHistory_last_pos, Hne.
  - destruct keys as [|k rest]; [congruence|].
    unfold keyStreakHistory. rewrite last_cons_default. cbn [foldr].
    apply last_le_foldr_max.
  - destruct keys as [|k rest]; [congruence|].
    unfold keyStreakHistory. cbn [foldr length].
    apply Z.max_lub; [lia|]. apply foldr_max_le; [lia|].
    eapply Forall_impl; [apply (keyRunningStreaks_le rest k 1); lia|].
    cbn. intros x Hx. lia.
Qed.

End StatsBounds.

(** X9: for every completion map, grid and clock the streaks are bounded:
    [currentStreak] is at most [longestStreak], which is at most the number
    of completed keys and is 0 only when no key is completed; and
    [completedInMonth] is at most [totalDaysInMonth], which is at most the
    number of cells. *)
Theorem stats_bounds (Date_parse_other : string -> Date)
    (completedDays : gmap string JSValue)
    (calendarDays : list CalendarCell) (clock1 clock2 : Z) :
  let s := stats Date_parse_other completedDays calendarDays clock1 clock2 in
  0 <= currentStreak s <= longestStreak s /\
  longestStreak s <= Z.of_nat (length (completedKeys completedDays)) /\
  (longestStreak s = 0 <-> completedKeys completedDays = []) /\
  (completedInMonth s <= totalDaysInMonth s <= length calendarDays)%nat.
Proof.
  cbv zeta.
  assert (Hcase : completedKeys completedDays = [] \/
                  completedKeys completedDays <> [])
    by (destruct (completedKeys completedDays); [left|right]; congruence).
  destruct Hcase as [E|Hne].
  - rewrite (stats_none Date_parse_other _ _ _ _ E), E.
    cbn [currentStreak longestStreak completedInMonth totalDaysInMonth length].
    split; [lia|]. split; [lia|]. split; [tauto|].
    split; [lia|apply filter_length_le].
  - destruct (stats_month Date_parse_other completedDays calendarDays
                clock1 clock2 Hne) as (Ht & Hc & _).
    destruct (stats_streaks Date_parse_other completedDays calendarDays
                clock1 clock2) as [HL HC].
    cbv zeta in Ht, Hc, HL, HC.
    assert (Hs : Array_sort (completedKeys completedDays) <> [])
      by (intros F; apply Hne, Array_sort_nil, F).
    destruct (keyStreakHistory_bounds Date_parse_other _ Hs) as [[H1 H2] H3].
    cbv zeta in H1, H2, H3.
    assert (Hlen : length (Array_sort (completedKeys completedDays)) =
                   length (completedKeys completedDays)).
    { unfold Array_sort. apply Permutation_length, merge_sort_Permutation. }
    rewrite Hlen in H3. rewrite HL, HC, Ht, Hc.
    split.
    { match goal with |- context [if ?b then _ else _] => destruct b end; lia. }
    split; [exact H3|]. split; [split; [lia|intros F; contradiction]|].
    split; apply filter_length_le.
Qed.

(** ** Marking a whole month *)

Section MarkMonthFacts.




End MarkMonthFacts.



(** ** The grid, its cells and the navigation *)

(** ** The cells of the grid *)

Section GridCellFacts.

Lemma monthGrid_cells y m :
  monthGrid y m =
  (fun i => cellOf (TimeValue (MakeDate (gridStart y m + i) 0))
                   ((startWeekday y m <=? i)
                    && (i <? startWeekday y m + days_in_month y m)))
    <$> seqZ 0 42.
Proof. reflexivity. Qed.

Lemma WeekDay_gridStart y m i :
  WeekDay (MakeDate (gridStart y m + i) 0) = i mod 7.
Proof.
  rewrite WeekDay_MakeDate. unfold gridStart, startWeekday.
  rewrite WeekDay_MakeDate. generalize (firstOfMonth y m). intros f.
  Z.div_mod_to_equations. lia.
Qed.

End GridCellFacts.

Section GridCountFacts.






End GridCountFacts.

(** X11: the grid of a view date holds the midnights of 42 consecutive
    days, the first of them the Sunday on or before the first of the
    month: the cell at index [i] falls on the weekday [i mod 7], the column
    under which it is shown. *)
Theorem generateCalendarDays_consecutive_days (t : Z) :
  -271820 <= constructorYear (getFullYear t) <= 275759 ->
  let cells := generateCalendarDays (TimeValue t) in
  let first := MakeDay (constructorYear (getFullYear t)) (getMonth t) 1 in
  exists d0 : Z,
    first - 6 <= d0 <= first /\
    date <$> cells = (fun i => TimeValue (MakeDate (d0 + i) 0)) <$> seqZ 0 42 /\
    (fun c => fieldOf getDay (date c)) <$> cells
      = (fun i => Some (i mod 7)) <$> seqZ 0 42.
Proof.
  intros Hr. cbv zeta. rewrite generateCalendarDays_monthGrid by exact Hr.
  set (Y := constructorYear (getFullYear t)). set (m := getMonth t).
  exists (gridStart Y m).
  pose proof (startWeekday_bound Y m) as Hw.
  split; [unfold gridStart, firstOfMonth; lia|].
  rewrite monthGrid_cells, <- !list_fmap_compose. split.
  - apply list_fmap_ext. intros _ i _. reflexivity.
  - apply list_fmap_ext. intros _ i _. unfold compose, cellOf.
    cbn [date fieldOf]. f_equal. apply WeekDay_gridStart.
Qed.

Lemma generateCalendarDays_consecutive_days_witness :
  let t := constructorTime 2024 1 14 in
  -271820 <= constructorYear (getFullYear t) <= 275759 /\
  exists d0 : Z,
    date <$> generateCalendarDays (TimeValue t)
      = (fun i => TimeValue (MakeDate (d0 + i) 0)) <$> seqZ 0 42.
Proof.
  cbv zeta.
  assert (Hr : -271820 <= constructorYear (getFullYear (constructorTime 2024 1 14))
               <= 275759) by (vm_compute; split; discriminate).
  split; [exact Hr|].
  destruct (generateCalendarDays_consecutive_days (constructorTime 2024 1 14) Hr)
    as (d0 & _ & H & _).
  exists d0. exact H.
Defined.

Section GridKeyFacts.

Lemma NoDup_seqZ_fmap {A} (f : Z -> A) a n :
  (forall i j, f i = f j -> i = j) -> NoDup (f <$> seqZ a n).
Proof.
  intros Hf. apply NoDup_fmap_2; [|apply NoDup_seqZ].
  intros i j. apply Hf.
Qed.

Lemma key_cellOf d b : key (cellOf d b) = getDateKey d.
Proof. reflexivity. Qed.

Lemma key_monthGrid_NoDup y m : NoDup (key <$> monthGrid y m).
Proof.
  rewrite monthGrid_cells.
  apply NoDup_fmap_2_strong.
  - intros c1 c2 H1 H2 H.
    apply list_elem_of_fmap in H1 as (i & -> & _).
    apply list_elem_of_fmap in H2 as (j & -> & _).
    rewrite !key_cellOf in H. apply getDateKey_inj in H.
    rewrite !Day_MakeDate in H by apply msPerDay_pos.
    replace j with i by lia. reflexivity.
  - apply NoDup_fmap_2; [|apply NoDup_seqZ].
    intros i j H. apply (f_equal key) in H. rewrite !key_cellOf in H.
    apply getDateKey_inj in H.
    rewrite !Day_MakeDate in H by apply msPerDay_pos. lia.
Qed.

End GridKeyFacts.

(** X12: the 42 cells of the grid have keys that are not empty and differ
    from each other. *)
Theorem generateCalendarDays_keys (t : Z) :
  -271820 <= constructorYear (getFullYear t) <= 275759 ->
  let keys := key <$> generateCalendarDays (TimeValue t) in
  length keys = 42%nat /\ NoDup keys /\ Forall (fun k => k <> ""%string) keys.
Proof.
  intros Hr. cbv zeta. rewrite generateCalendarDays_monthGrid by exact Hr.
  split; [|split].
  - rewrite monthGrid_cells, length_fmap, length_fmap, length_seqZ. reflexivity.
  - apply key_monthGrid_NoDup.
  - rewrite monthGrid_cells, <- list_fmap_compose.
    apply Forall_fmap, Forall_forall. intros i _. unfold compose, cellOf.
    cbn [key]. apply getDateKey_nonempty.
Qed.

Lemma generateCalendarDays_keys_witness :
  let t := constructorTime 2024 1 14 in
  -271820 <= constructorYear (getFullYear t) <= 275759 /\
  NoDup (key <$> generateCalendarDays (TimeValue t)).
Proof.
  cbv zeta.
  assert (Hr : -271820 <= constructorYear (getFullYear (constructorTime 2024 1 14))
               <= 275759) by (vm_compute; split; discriminate).
  split; [exact Hr|].
  exact (proj1 (proj2 (generateCalendarDays_keys (constructorTime 2024 1 14) Hr))).
Defined.

Section TodayFacts.


End TodayFacts.



Example today_in_january_2024 :
  (fun c => getDateKey (date c)) <$>
    List.filter (fun c => today c (constructorTime 2024 0 5 + 3600000)) january2024 =
  ["2024-01-05"%string].
Proof. vm_compute. reflexivity. Qed.

Section ClickFacts.



End ClickFacts.



(** ** Navigation *)

Section NavigationFacts.

(** [MakeDay] takes the month modulo twelve and carries the rest into the
    year. *)
Lemma MakeDay_normal y mo dt :
  MakeDay y mo dt = MakeDay (y + mo / 12) (mo mod 12) dt.
Proof.
  unfold MakeDay. rewrite Z.mod_mod by lia.
  rewrite (Z.div_small (mo mod 12) 12) by (apply Z.mod_pos_bound; lia).
  rewrite Z.add_0_r. reflexivity.
Qed.

Lemma monthTime_fields t mo :
  let t' := monthTime t mo in
  YearFromTime t' = YearFromTime t + mo / 12 /\
  MonthFromTime t' = mo mod 12 /\ DateFromTime t' = 1 /\
  TimeWithinDay t' = TimeWithinDay t.
Proof.
  cbv zeta. unfold monthTime. rewrite MakeDay_normal.
  pose proof (Z.mod_pos_bound mo 12 ltac:(lia)) as Hm.
  pose proof (days_in_month_bounds (YearFromTime t + mo / 12) (mo mod 12)) as Hb.
  pose proof (TimeWithinDay_bound t) as Ht.
  destruct (fields_MakeDay (YearFromTime t + mo / 12) (mo mod 12) 1
              (TimeWithinDay t)) as (HY & HM & HD); [lia|lia|exact Ht|].
  rewrite TimeWithinDay_MakeDate by exact Ht. auto.
Qed.

Lemma monthTime_monthTime t a b :
  monthTime (monthTime t a) (MonthFromTime (monthTime t a) + b) =
  monthTime t (a + b).
Proof.
  destruct (monthTime_fields t a) as (HY & HM & _ & HT).
  cbv zeta in HY, HM, HT.
  unfold monthTime at 1. rewrite HY, HM, HT. unfold monthTime.
  f_equal. rewrite (MakeDay_normal (YearFromTime t + a / 12)).
  rewrite (MakeDay_normal (YearFromTime t) (a + b)).
  f_equal; Z.div_mod_to_equations; lia.
Qed.

Lemma setMonth_monthTime t mo :
  setMonth t mo 1 = TimeClip (monthTime t mo).
Proof. unfold setMonth, monthTime. reflexivity. Qed.

Lemma setDate_monthTime t :
  setDate t 1 = TimeClip (monthTime t (MonthFromTime t)).
Proof. unfold setDate, monthTime. reflexivity. Qed.

Lemma setFullYear_yearTime t y : setFullYear t y = TimeClip (yearTime t y).
Proof. unfold setFullYear, yearTime. reflexivity. Qed.

(** The months of the years from -271820 to 275759 begin at a time
    value. *)
Lemma TimeClip_monthTime t mo :
  -271820 <= YearFromTime t + mo / 12 <= 275759 ->
  TimeClip (monthTime t mo) = TimeValue (monthTime t mo).
Proof.
  intros Hy. unfold monthTime. rewrite MakeDay_normal.
  pose proof (Z.mod_pos_bound mo 12 ltac:(lia)) as Hm.
  pose proof (firstOfMonth_range _ (mo mod 12) Hy ltac:(lia)).
  apply TimeClip_in_range; [lia|apply TimeWithinDay_bound].
Qed.

Lemma TimeClip_yearTime t y :
  -271820 <= y <= 275759 -> TimeClip (yearTime t y) = TimeValue (yearTime t y).
Proof.
  intros Hy. unfold yearTime.
  destruct (civil_of_time t) as (Hm & Hd & _). cbv zeta in Hm, Hd.
  pose proof (days_in_month_bounds (YearFromTime t) (MonthFromTime t)).
  pose proof (firstOfMonth_range y _ Hy Hm).
  rewrite (MakeDay_date y _ (DateFromTime t)).
  apply TimeClip_in_range; [lia|apply TimeWithinDay_bound].
Qed.

Lemma changeMonth_TimeValue offset t :
  changeMonth offset (TimeValue t) =
  match TimeClip (monthTime t (getMonth t + offset)) with
  | TimeValue u => TimeValue u
  | InvalidDate => TimeValue t
  end.
Proof.
  unfold changeMonth, setCurrentDateISO, toISOString.
  rewrite setMonth_monthTime. destruct (TimeClip _); reflexivity.
Qed.

Lemma changeMonth_monthTime offset t :
  -271820 <= getFullYear t + (getMonth t + offset) / 12 <= 275759 ->
  changeMonth offset (TimeValue t) =
  TimeValue (monthTime t (getMonth t + offset)).
Proof.
  intros Hy. rewrite changeMonth_TimeValue, TimeClip_monthTime by exact Hy.
  reflexivity.
Qed.

Lemma changeYear_TimeValue offset t :
  changeYear offset (TimeValue t) =
  match TimeClip (yearTime t (getFullYear t + offset)) with
  | TimeValue u => TimeValue u
  | InvalidDate => TimeValue t
  end.
Proof.
  unfold changeYear, setCurrentDateISO, toISOString.
  rewrite setFullYear_yearTime. destruct (TimeClip _); reflexivity.
Qed.

(** The fields of a date after [setFullYear]: the day of the month stays,
    but the 29th of February of a year that has none is the 1st of
    March. *)
Lemma yearTime_fields t y' :
  let t' := yearTime t y' in
  YearFromTime t' = y' /\ TimeWithinDay t' = TimeWithinDay t /\
  if (MonthFromTime t =? 1) && (DateFromTime t =? 29) && negb (leap_year y')
  then MonthFromTime t' = 2 /\ DateFromTime t' = 1
  else MonthFromTime t' = MonthFromTime t /\ DateFromTime t' = DateFromTime t.
Proof.
  cbv zeta. unfold yearTime.
  destruct (civil_of_time t) as (Hm & Hd & _). cbv zeta in Hm, Hd.
  pose proof (TimeWithinDay_bound t) as Ht.
  rewrite TimeWithinDay_MakeDate by exact Ht.
  destruct ((MonthFromTime t =? 1) && (DateFromTime t =? 29)
            && negb (leap_year y')) eqn:E.
  - apply andb_true_iff in E as [E El]. apply andb_true_iff in E as [Em Ed].
    apply Z.eqb_eq in Em, Ed. apply negb_true_iff in El.
    rewrite Em, Ed.
    replace (MakeDay y' 1 29) with (MakeDay y' 2 1)
      by (rewrite !MakeDay_norm by lia; rewrite El;
          change (monthStart false 1) with 31;
          change (monthStart false 2) with 59; lia).
    destruct (fields_MakeDay y' 2 1 (TimeWithinDay t)) as (HY & HM & HD);
      [lia|simpl; lia|exact Ht|]. auto.
  - assert (Hd' : 1 <= DateFromTime t <= days_in_month y' (MonthFromTime t)).
    { split; [lia|]. unfold days_in_month in *.
      destruct (Z.eqb_spec (MonthFromTime t) 1) as [Em|Em].
      - rewrite Em in *. destruct (leap_year y'); [destruct (leap_year _); lia|].
        destruct (Z.eqb_spec (DateFromTime t) 29); [discriminate E|].
        destruct (leap_year _); lia.
      - destruct (MonthFromTime t) as [|[|p|]|]; try lia; try contradiction;
          exact (proj2 Hd). }
    destruct (fields_MakeDay y' (MonthFromTime t) (DateFromTime t)
                (TimeWithinDay t)) as (HY & HM & HD); [lia|exact Hd'|exact Ht|].
    auto.
Qed.

Lemma yearTime_same t : yearTime t (YearFromTime t) = t.
Proof.
  unfold yearTime. destruct (civil_of_time t) as (_ & _ & <-).
  apply MakeDate_Day.
Qed.

Lemma yearTime_yearTime t a b :
  ~ (MonthFromTime t = 1 /\ DateFromTime t = 29) ->
  yearTime (yearTime t a) b = yearTime t b.
Proof.
  intros H. destruct (yearTime_fields t a) as (_ & HT & HF).
  cbv zeta in HT, HF.
  replace ((MonthFromTime t =? 1) && (DateFromTime t =? 29)) with false in HF.
  - destruct HF as [HM HD]. unfold yearTime at 1. rewrite HM, HD, HT.
    reflexivity.
  - symmetry. apply andb_false_iff.
    destruct (Z.eqb_spec (MonthFromTime t) 1), (Z.eqb_spec (DateFromTime t) 29);
      tauto.
Qed.

End NavigationFacts.

(** X15: [changeMonth] moves a view date to the first day of the month
    that lies [offset] months away, the year carried over, and keeps the
    time of day, when the year reached is one of the years from -271820 to
    275759. *)
Theorem changeMonth_first_of_month (offset t : Z) :
  -271820 <= getFullYear t + (getMonth t + offset) / 12 <= 275759 ->
  exists t', changeMonth offset (TimeValue t) = TimeValue t' /\
    getFullYear t' = getFullYear t + (getMonth t + offset) / 12 /\
    getMonth t' = (getMonth t + offset) mod 12 /\
    getDate t' = 1 /\ TimeWithinDay t' = TimeWithinDay t.
Proof.
  intros Hy. exists (monthTime t (getMonth t + offset)). split.
  - apply changeMonth_monthTime, Hy.
  - apply monthTime_fields.
Qed.

Lemma changeMonth_first_of_month_witness :
  let t := constructorTime 2024 11 31 + 3600000 in
  -271820 <= getFullYear t + (getMonth t + 1) / 12 <= 275759 /\
  exists t', changeMonth 1 (TimeValue t) = TimeValue t' /\ getMonth t' = 0
             /\ getDate t' = 1.
Proof.
  cbv zeta.
  assert (Hy : -271820 <= getFullYear (constructorTime 2024 11 31 + 3600000)
                 + (getMonth (constructorTime 2024 11 31 + 3600000) + 1) / 12
               <= 275759) by (vm_compute; split; discriminate).
  split; [exact Hy|].
  destruct (changeMonth_first_of_month 1 (constructorTime 2024 11 31 + 3600000) Hy)
    as (t' & E & _ & HM & HD & _).
  exists t'. split; [exact E|]. split; [exact HM|exact HD].
Defined.

Example changeMonth_december_2024 :
  changeMonth 1 (TimeValue (constructorTime 2024 11 31 + 3600000)) =
  TimeValue (constructorTime 2025 0 1 + 3600000).
Proof. vm_compute. reflexivity. Qed.


(** X17: two moves by months make one move by the sum, and a move there and
    back ends on the first day of the month it started in, not on the day
    it started from; the years reached are from -271820 to 275759. *)
Theorem changeMonth_compose (a b t : Z) :
  -271820 <= getFullYear t + (getMonth t + a) / 12 <= 275759 ->
  -271820 <= getFullYear t + (getMonth t + (a + b)) / 12 <= 275759 ->
  changeMonth b (changeMonth a (TimeValue t)) = changeMonth (a + b) (TimeValue t) /\
  (b = - a ->
   changeMonth b (changeMonth a (TimeValue t)) = setDate t 1).
Proof.
  intros Ha Hab.
  assert (E : changeMonth b (changeMonth a (TimeValue t)) =
              TimeValue (monthTime t (getMonth t + (a + b)))).
  { rewrite (changeMonth_TimeValue a), TimeClip_monthTime by exact Ha.
    rewrite changeMonth_TimeValue. unfold getMonth.
    rewrite monthTime_monthTime.
    replace (MonthFromTime t + a + b) with (MonthFromTime t + (a + b)) by lia.
    rewrite TimeClip_monthTime by exact Hab. reflexivity. }
  split.
  - rewrite E, changeMonth_TimeValue, TimeClip_monthTime by exact Hab.
    reflexivity.
  - intros ->. rewrite E. replace (a + - a) with 0 in * by lia.
    rewrite Z.add_0_r in *. rewrite setDate_monthTime.
    unfold getMonth in *. rewrite TimeClip_monthTime by exact Hab. reflexivity.
Qed.

Lemma changeMonth_compose_witness :
  let t := constructorTime 2024 0 31 in
  -271820 <= getFullYear t + (getMonth t + 1) / 12 <= 275759 /\
  -271820 <= getFullYear t + (getMonth t + (1 + -1)) / 12 <= 275759 /\
  changeMonth (-1) (changeMonth 1 (TimeValue t)) =
  TimeValue (constructorTime 2024 0 1).
Proof.
  cbv zeta.
  assert (Ha : -271820 <= getFullYear (constructorTime 2024 0 31)
                 + (getMonth (constructorTime 2024 0 31) + 1) / 12 <= 275759)
    by (vm_compute; split; discriminate).
  assert (Hab : -271820 <= getFullYear (constructorTime 2024 0 31)
                  + (getMonth (constructorTime 2024 0 31) + (1 + -1)) / 12
                <= 275759)
    by (vm_compute; split; discriminate).
  split; [exact Ha|]. split; [exact Hab|].
  rewrite (proj2 (changeMonth_compose 1 (-1) (constructorTime 2024 0 31) Ha Hab)
             eq_refl).
  vm_compute. reflexivity.
Defined.

(** X18: [changeYear] moves a view date by [offset] years and keeps the
    month, the day of the month and the time of day, except that the 29th
    of February becomes the 1st of March when the year reached is no leap
    year; the year reached is from -271820 to 275759, and is not mapped
    into the 1900s when it is one of 0 to 99. *)
Theorem changeYear_fields (offset t : Z) :
  -271820 <= getFullYear t + offset <= 275759 ->
  exists t', changeYear offset (TimeValue t) = TimeValue t' /\
    getFullYear t' = getFullYear t + offset /\
    TimeWithinDay t' = TimeWithinDay t /\
    if (getMonth t =? 1) && (getDate t =? 29)
       && negb (leap_year (getFullYear t + offset))
    then getMonth t' = 2 /\ getDate t' = 1
    else getMonth t' = getMonth t /\ getDate t' = getDate t.
Proof.
  intros Hy. exists (yearTime t (getFullYear t + offset)). split.
  - rewrite changeYear_TimeValue, TimeClip_yearTime by exact Hy. reflexivity.
  - apply yearTime_fields.
Qed.

Lemma changeYear_fields_witness :
  let t := constructorTime 2024 1 29 in
  -271820 <= getFullYear t + 1 <= 275759 /\
  exists t', changeYear 1 (TimeValue t) = TimeValue t' /\ getFullYear t' = 2025.
Proof.
  cbv zeta.
  assert (Hy : -271820 <= getFullYear (constructorTime 2024 1 29) + 1 <= 275759)
    by (vm_compute; split; discriminate).
  split; [exact Hy|].
  destruct (changeYear_fields 1 (constructorTime 2024 1 29) Hy)
    as (t' & E & HY & _).
  exists t'. split; [exact E|exact HY].
Defined.

(** X19: from a day other than the 29th of February, a move by years there
    and back ends on the date it started from; from the 29th of February
    it can end on the 1st of March. *)
Theorem changeYear_there_and_back (a t : Z) :
  -271820 <= getFullYear t <= 275759 ->
  -271820 <= getFullYear t + a <= 275759 ->
  ~ (getMonth t = 1 /\ getDate t = 29) ->
  changeYear (- a) (changeYear a (TimeValue t)) = TimeValue t.
Proof.
  intros H0 Ha H.
  rewrite (changeYear_TimeValue a), TimeClip_yearTime by exact Ha.
  rewrite changeYear_TimeValue. unfold getFullYear in *.
  destruct (yearTime_fields t (YearFromTime t + a)) as (-> & _).
  rewrite yearTime_yearTime by exact H.
  replace (YearFromTime t + a + - a) with (YearFromTime t) by lia.
  rewrite yearTime_same.
  rewrite <- (yearTime_same t) at 1. rewrite TimeClip_yearTime by exact H0.
  rewrite yearTime_same. reflexivity.
Qed.

Lemma changeYear_there_and_back_witness :
  let t := constructorTime 2024 0 15 in
  -271820 <= getFullYear t <= 275759 /\
  -271820 <= getFullYear t + 1 <= 275759 /\
  ~ (getMonth t = 1 /\ getDate t = 29) /\
  changeYear (-1) (changeYear 1 (TimeValue t)) = TimeValue t.
Proof.
  cbv zeta.
  assert (H0 : -271820 <= getFullYear (constructorTime 2024 0 15) <= 275759)
    by (vm_compute; split; discriminate).
  assert (Ha : -271820 <= getFullYear (constructorTime 2024 0 15) + 1 <= 275759)
    by (vm_compute; split; discriminate).
  assert (H : ~ (getMonth (constructorTime 2024 0 15) = 1
                 /\ getDate (constructorTime 2024 0 15) = 29))
    by (vm_compute; intros [E _]; discriminate E).
  split; [exact H0|]. split; [exact Ha|]. split; [exact H|].
  exact (changeYear_there_and_back 1 (constructorTime 2024 0 15) H0 Ha H).
Defined.

Example changeYear_leap_day_there_and_back :
  changeYear (-1) (changeYear 1 (TimeValue (constructorTime 2024 1 29))) =
  TimeValue (constructorTime 2024 2 1).
Proof. vm_compute. reflexivity. Qed.

(** X20: after a move by one month the grid is the one of the month after
    (before) the month shown, December and January crossing the year; the
    years shown are from -271819 to 275758. *)
Theorem calendarDays_changeMonth (t now : Z) :
  let y := getFullYear t in
  let m := getMonth t in
  -271819 <= y <= 275758 ->
  gridSpec (constructorYear (nextMonthOf y m).1) (nextMonthOf y m).2
    (calendarDays (changeMonth 1 (TimeValue t)) now) /\
  gridSpec (constructorYear (prevMonthOf y m).1) (prevMonthOf y m).2
    (calendarDays (changeMonth (-1) (TimeValue t)) now).
Proof.
  cbv zeta. intros Hy.
  pose proof (MonthFromTime_bound t) as Hm. fold (getMonth t) in Hm.
  assert (H : forall k ym,
    -1 <= k <= 1 ->
    ym.1 = getFullYear t + (getMonth t + k) / 12 ->
    ym.2 = (getMonth t + k) mod 12 ->
    gridSpec (constructorYear ym.1) ym.2
      (calendarDays (changeMonth k (TimeValue t)) now)).
  { intros k ym Hk Hy' Hmo.
    assert (Hr : -271820 <= getFullYear t + (getMonth t + k) / 12 <= 275759)
      by (Z.div_mod_to_equations; lia).
    rewrite (changeMonth_monthTime k t Hr).
    destruct (monthTime_fields t (getMonth t + k)) as (HY & HM & _).
    cbv zeta in HY, HM. unfold calendarDays, currentDate.
    unfold getFullYear, getMonth in *.
    assert (Hc : -271820
                 <= constructorYear (YearFromTime (monthTime t (MonthFromTime t + k)))
                 <= 275759).
    { rewrite HY. unfold constructorYear.
      destruct ((0 <=? _) && (_ <=? 99)) eqn:E; [|exact Hr].
      apply andb_true_iff in E as [E1 E2].
      apply Z.leb_le in E1, E2. lia. }
    rewrite generateCalendarDays_monthGrid by exact Hc.
    unfold getFullYear, getMonth.
    rewrite HY, HM, <- Hy', <- Hmo. apply gridSpec_monthGrid.
    rewrite Hmo. pose proof (Z.mod_pos_bound (MonthFromTime t + k) 12). lia. }
  split; apply H; unfold nextMonthOf, prevMonthOf; try lia.
  - destruct (Z.eqb_spec (getMonth t) 11) as [E|E]; cbn [fst];
      Z.div_mod_to_equations; lia.
  - destruct (Z.eqb_spec (getMonth t) 11) as [E|E]; cbn [snd];
      Z.div_mod_to_equations; lia.
  - destruct (Z.eqb_spec (getMonth t) 0) as [E|E]; cbn [fst];
      Z.div_mod_to_equations; lia.
  - destruct (Z.eqb_spec (getMonth t) 0) as [E|E]; cbn [snd];
      Z.div_mod_to_equations; lia.
Qed.

Lemma calendarDays_changeMonth_witness :
  let t := constructorTime 2024 11 31 in
  -271819 <= getFullYear t <= 275758 /\
  gridSpec 2025 0 (calendarDays (changeMonth 1 (TimeValue t)) 0).
Proof.
  cbv zeta.
  assert (Hy : -271819 <= getFullYear (constructorTime 2024 11 31) <= 275758)
    by (vm_compute; split; discriminate).
  split; [exact Hy|].
  exact (proj1 (calendarDays_changeMonth (constructorTime 2024 11 31) 0 Hy)).
Defined.



(** In a year from 0 to 99 the grid after [goToToday] is one of the 1900s
    and no cell has the ring. *)
Example goToToday_year_50 :
  let now := MakeDate (MakeDay 50 5 15) 0 in
  getDateKey (TimeValue now) = "50-06-15"%string /\
  (fun c => (key c, today c now)) <$>
    List.filter isCurrentMonth (calendarDays (goToToday now InvalidDate) now)
  = (fun i => (dayKey (MakeDay 1950 5 1 + i), false)) <$> seqZ 0 30.
Proof. cbv zeta. split; vm_compute; reflexivity. Qed.

Section ExportFacts.

Variable JSON_parse : string -> string + JSValue.

Lemma importShapeOk_dataToExport st :
  importShapeOk (dataToExport st) =
  isObjectType (typeof (Some (completedDays st)))
  && isObjectType (typeof (Some (monthlyNotes st))).
Proof.
  unfold importShapeOk, dataToExport. cbn [truthy getProp andb].
  rewrite lookup_insert_eq, lookup_insert_ne by discriminate.
  rewrite lookup_insert_eq. reflexivity.
Qed.

(** X22: the application reads back what it exports.  When the text of the
    file parses to the exported value and both maps have the type
    ["object"], a confirmed import into any state makes the two maps those
    of the exporting state; when one of them has another type, the import
    is refused and changes nothing. *)
Theorem handleImport_of_handleExport (text : string) (now : Z) (st st0 : AppState) :
  JSON_parse text = inr (handleExport now st).2 ->
  let ok := isObjectType (typeof (Some (completedDays st)))
            && isObjectType (typeof (Some (monthlyNotes st))) in
  let st' := handleImport JSON_parse text true st0 in
  (ok = true ->
   completedDays st' = completedDays st /\ monthlyNotes st' = monthlyNotes st /\
   alerts st' = "Data imported successfully!"%string :: alerts st0) /\
  (ok = false ->
   sameData st0 st' /\
   alerts st' = importFailure invalidDataFormat :: alerts st0).
Proof.
  cbn [handleExport snd]. intros H. cbv zeta. split; intros Hok.
  - rewrite <- importShapeOk_dataToExport in Hok.
    destruct (handleImport_confirmed JSON_parse text st0 (dataToExport st)
                (completedDays st) (monthlyNotes st) H Hok)
      as (Hd & Hn & _ & Ha).
    + unfold dataToExport. cbn [getProp]. apply lookup_insert_eq.
    + unfold dataToExport. cbn [getProp].
      rewrite lookup_insert_ne by discriminate. apply lookup_insert_eq.
    + auto.
  - rewrite <- importShapeOk_dataToExport in Hok.
    destruct (handleImport_rejected JSON_parse text true st0) as [_ Hrej].
    destruct (Hrej _ H Hok) as [Ha Hs]. auto.
Qed.

End ExportFacts.

Lemma handleImport_of_handleExport_witness :
  let st := handleDayClick (TimeValue (constructorTime 2024 0 3)) emptyState in
  let text := json "{'completedDays': {'2024-01-03': true}, 'monthlyNotes': {}}" in
  parseJSON text = inr (handleExport 0 st).2 /\
  completedDays (handleImport parseJSON text true emptyState) = completedDays st.
Proof.
  cbv zeta.
  assert (H : parseJSON
                (json "{'completedDays': {'2024-01-03': true}, 'monthlyNotes': {}}")
              = inr (handleExport 0
                       (handleDayClick (TimeValue (constructorTime 2024 0 3))
                          emptyState)).2)
    by (vm_compute; reflexivity).
  split; [exact H|].
  destruct (handleImport_of_handleExport parseJSON _ 0 _ emptyState H) as [Hok _].
  destruct (Hok ltac:(vm_compute; reflexivity)) as (Hd & _). exact Hd.
Defined.
